(** * steelcut: host abstraction, command execution and package drivers

    A shallow embedding of the Go package [steelcut] (host construction,
    command dispatch, reachability probe, file copy, package-manager
    drivers) and the properties its specification states about it.

    Go strings are byte strings and are modelled by [string]; Go's
    [(T, error)] results are pairs whose second component is an
    [option error] ([None] is [nil]).  Calls into the operating system, the
    SSH library and the injected executor are answered by an environment
    whose answers may depend on everything that happened before; every such
    call is recorded in a trace.  Messages written with [log.Printf] and
    [log.Println] are not part of the model; [log.Fatalf] is, because it
    ends the process. *)

From Stdlib Require Import String Ascii List Bool Arith ZArith Lia.
Import ListNotations.
Local Open Scope string_scope.
Local Open Scope list_scope.
Local Open Scope nat_scope.

Set Implicit Arguments.

(** ** The parts of Go's [strings] package the code uses *)
Module Strings.

Definition byte (c : ascii) : nat := nat_of_ascii c.

(** Line feed, the separator of [strings.Split(output, "\n")]. *)
Definition LF : string := String "010"%char "".

(** [asciiSpace]: the bytes '\t', '\n', '\v', '\f', '\r' and ' '. *)
Definition asciiSpace (n : nat) : bool :=
  ((9 <=? n) && (n <=? 13)) || (n =? 32).

(** Width in bytes of the white-space rune ([unicode.IsSpace]) encoded at
    the head of [s], or [0] when [s] does not start with one.  Besides the
    six ASCII bytes these are U+0085 and U+00A0 (two bytes), U+1680,
    U+2000..U+200A, U+2028, U+2029, U+202F, U+205F and U+3000 (three
    bytes).  A lead byte or an ASCII byte is never a continuation byte, so
    wherever one of these encodings occurs Go's decoder is at a rune
    boundary and reads exactly this rune. *)
Definition spaceWidth (s : string) : nat :=
  match s with
  | String c0 r0 =>
      let b0 := byte c0 in
      if asciiSpace b0 then 1
      else match r0 with
           | String c1 r1 =>
               let b1 := byte c1 in
               if (b0 =? 194) && ((b1 =? 133) || (b1 =? 160)) then 2
               else match r1 with
                    | String c2 _ =>
                        let b2 := byte c2 in
                        if (b0 =? 225) && (b1 =? 154) && (b2 =? 128) then 3
                        else if (b0 =? 226) && (b1 =? 128)
                                && (((128 <=? b2) && (b2 <=? 138))
                                    || (b2 =? 168) || (b2 =? 169) || (b2 =? 175))
                             then 3
                        else if (b0 =? 226) && (b1 =? 129) && (b2 =? 159) then 3
                        else if (b0 =? 227) && (b1 =? 128) && (b2 =? 128) then 3
                        else 0
                    | EmptyString => 0
                    end
           | EmptyString => 0
           end
  | EmptyString => 0
  end.

Definition flush (cur : option string) : list string :=
  match cur with Some f => [f] | None => [] end.

Definition push (cur : option string) (c : ascii) : option string :=
  Some (match cur with Some f => (f ++ String c "")%string | None => String c "" end).

(** The scan of [strings.Fields]: [skip] counts the remaining bytes of a
    white-space rune already recognised, [cur] is the field being read. *)
Fixpoint fieldsFrom (skip : nat) (cur : option string) (s : string) : list string :=
  match s with
  | EmptyString => flush cur
  | String c r =>
      match skip with
      | S k => fieldsFrom k cur r
      | O =>
          match spaceWidth s with
          | O => fieldsFrom 0 (push cur c) r
          | S k => flush cur ++ fieldsFrom k None r
          end
      end
  end.

(** [strings.Fields]: the maximal runs of non-space runes. *)
Definition Fields (s : string) : list string := fieldsFrom 0 None s.

(** [strings.HasPrefix]. *)
Fixpoint HasPrefix (s p : string) : bool :=
  match p, s with
  | EmptyString, _ => true
  | String a p', String b s' => Ascii.eqb a b && HasPrefix s' p'
  | String _ _, EmptyString => false
  end.

(** [strings.Contains]. *)
Fixpoint Contains (s substr : string) : bool :=
  HasPrefix s substr ||
  match s with
  | EmptyString => false
  | String _ r => Contains r substr
  end.

(** The scan of [strings.Split] for a non-empty separator: [skip] counts
    the remaining bytes of a separator already recognised. *)
Fixpoint splitFrom (sep : string) (skip : nat) (cur : string) (s : string) : list string :=
  match s with
  | EmptyString => [cur]
  | String c r =>
      match skip with
      | S k => splitFrom sep k cur r
      | O =>
          if HasPrefix s sep
          then cur :: splitFrom sep (String.length sep - 1) "" r
          else splitFrom sep 0 (cur ++ String c "")%string r
      end
  end.

Fixpoint explode (s : string) : list string :=
  match s with
  | EmptyString => []
  | String c r => String c "" :: explode r
  end.

(** [strings.Split].  With the empty separator Go cuts after every UTF-8
    sequence; the code never does that, and [explode] cuts after every
    byte, which is the same on ASCII input. *)
Definition Split (s sep : string) : list string :=
  match sep with
  | EmptyString => explode s
  | String _ _ => splitFrom sep 0 "" s
  end.

Fixpoint trimLeft (skip : nat) (s : string) : string :=
  match s with
  | EmptyString => EmptyString
  | String _ r =>
      match skip with
      | S k => trimLeft k r
      | O => match spaceWidth s with
             | O => s
             | S k => trimLeft k r
             end
      end
  end.

Fixpoint rev (s : string) : string :=
  match s with
  | EmptyString => EmptyString
  | String c r => (rev r ++ String c "")%string
  end.

(** Width of the white-space rune that ends the string whose bytes, last
    first, are [s]: the ending of the string is matched against the same
    encodings as in [spaceWidth]. *)
Definition spaceWidthLast (s : string) : nat :=
  match s with
  | String c0 r0 =>
      if asciiSpace (byte c0) then 1
      else match r0 with
           | String c1 r1 =>
               if Nat.eqb (spaceWidth (String c1 (String c0 ""))) 2 then 2
               else match r1 with
                    | String c2 _ =>
                        if Nat.eqb (spaceWidth (String c2 (String c1 (String c0 "")))) 3
                        then 3 else 0
                    | EmptyString => 0
                    end
           | EmptyString => 0
           end
  | EmptyString => 0
  end.

Fixpoint trimLast (skip : nat) (s : string) : string :=
  match s with
  | EmptyString => EmptyString
  | String _ r =>
      match skip with
      | S k => trimLast k r
      | O => match spaceWidthLast s with
             | O => s
             | S k => trimLast k r
             end
      end
  end.

(** [strings.TrimSpace]: white-space runes are removed at both ends. *)
Definition TrimSpace (s : string) : string :=
  rev (trimLast 0 (rev (trimLeft 0 s))).

End Strings.
Import Strings.

(** ** package_manager.go: update records and the output parsers *)

Record Update : Type := mkUpdate { PackageName : string; Version : string }.

(** [parts[i]] where the code has already checked [i < len(parts)]. *)
Definition at_ (parts : list string) (i : nat) : string := nth i parts "".

(** [AptPackageManager.parseAptUpdates]. *)
Definition parseAptUpdates (output : string) : list Update :=
  fold_left
    (fun updates line =>
       let parts := Fields line in
       if (length parts <? 5) || negb (at_ parts 4 =? "[upgradable")%string
       then updates
       else
         let packageName := at_ (Split (at_ parts 0) "/") 0 in
         let version := at_ parts 1 in
         updates ++ [mkUpdate packageName version])
    (Split output LF) [].

(** [parseUpdates], and [BrewPackageManager.parseUpdates], which has the
    same body. *)
Definition parseUpdates (output : string) : list Update :=
  fold_left
    (fun updates line =>
       let parts := Split line " " in
       if length parts <? 2 then updates
       else updates ++ [mkUpdate (at_ parts 0) (at_ parts 1)])
    (Split output LF) [].

(** ** Errors *)

(** Go [error] values: those the package creates itself, those it wraps with
    [%w], and those handed up by the operating system or the SSH library. *)
Inductive error : Type :=
| errorString (text : string)
| wrapError (text : string) (err : error)
| foreignError (text : string).

(** [err.Error()], which is also how [%v] prints an error. *)
Definition Error (e : error) : string :=
  match e with
  | errorString t => t
  | wrapError t _ => t
  | foreignError t => t
  end.

Definition errors_New (text : string) : error := errorString text.

(** [fmt.Errorf(format + "%v", err)]. *)
Definition Errorf_v (format : string) (err : error) : error :=
  errorString (format ++ Error err).

(** [fmt.Errorf(format + "%s", s)]. *)
Definition Errorf_s (format : string) (s : string) : error :=
  errorString (format ++ s).

(** [fmt.Errorf(format + "%w", err)]. *)
Definition Errorf_w (format : string) (err : error) : error :=
  wrapError (format ++ Error err) err.

(** ** Data model *)

Module CommandOptions.
Record t : Type := mk { UseSudo : bool; SudoPassword : string }.
End CommandOptions.

(** The two implementations of [SSHKeyManager] the code chooses between. *)
Inductive SSHKeyManager : Type := FileSSHKeyManager | AgentSSHKeyManager.

(** A private key as the SSH library holds it. *)
Definition Signer : Type := nat.

Inductive ssh_AuthMethod : Type :=
| ssh_Password (secret : string)
| ssh_PublicKeysCallback (keys : list Signer).

Inductive ssh_HostKeyCallback : Type := ssh_InsecureIgnoreHostKey.

Module ClientConfig.
Record t : Type := mk {
  User : string;
  Auth : list ssh_AuthMethod;
  HostKeyCallback : ssh_HostKeyCallback
}.
End ClientConfig.

(** Implementations of the [SSHClient] interface: the real one of the
    package, or one injected with [WithSSHClient]. *)
Inductive SSHClient : Type := RealSSHClient | InjectedSSHClient (id : nat).

(** Implementations of [CommandExecutor]: [DefaultCommandExecutor], bound
    to the host that owns it, or one injected with [WithCommandExecutor].
    The drivers call the interface with [CommandOptions]; what an executor
    answers is left to the environment. *)
Inductive CommandExecutor : Type := DefaultCommandExecutor | InjectedExecutor (id : nat).

Module UnixHost.
(** Modelled from the spec: the declaration of [UnixHost] is not among the
    sources; these are the fields the functions of the package read and
    write (address, login user, password, key passphrase, OS kind, SSH
    client, escalation password, executor). *)
Record t : Type := mk {
  HostString : string;
  User : string;
  Password : string;
  KeyPassphrase : string;
  OS : string;
  SSHClient : option SSHClient;
  SudoPassword : string;
  Executor : option CommandExecutor
}.
End UnixHost.

(** Modelled from the spec: the method [Hostname] is not among the sources;
    the host's address is the string [NewHost] stores in [HostString]. *)
Definition Hostname (h : UnixHost.t) : string := UnixHost.HostString h.

(** ** Effects *)

(** [time.Duration] counts nanoseconds. *)
Definition time_Second : Z := 1000000000%Z.

(** What the code asks of its collaborators, in the order it asks.
    [EvExec] is [exec.Command(name, args...)] run with [Output] or, when
    [combined] is set, [CombinedOutput]; [EvGoCombinedOutput] and
    [EvGoScpWriter] are the starts of the two goroutines; [EvSelect] is the
    [select] statement and how long it waited; [EvHostRunCommand] is the
    one-argument [RunCommand] of the host built by [NewHost]; [EvRunCommand]
    is a call of the executor of a driver; the two [EvLegacy] events are
    [ssh.Dial] and [session.CombinedOutput] as host.go calls them. *)
Inductive Event : Type :=
| EvExec (name : string) (args : list string) (stdin : option string) (combined : bool)
| EvUserCurrent
| EvReadPrivateKeys (km : SSHKeyManager) (passphrase : string)
| EvNetDialTimeout (network addr : string) (timeout : Z)
| EvNewClientConn (addr : string) (config : ClientConfig.t)
| EvInjectedDial (id : nat) (network addr : string) (config : ClientConfig.t) (timeout : Z)
| EvClientClose
| EvNewSession
| EvSessionClose
| EvGoCombinedOutput (cmd : string) (stdin : option string)
| EvSelect (waited : Z)
| EvOpen (path : string)
| EvStat
| EvFileClose
| EvGoScpWriter (size : Z) (remotePath : string)
| EvSessionRun (cmd : string)
| EvHostRunCommand (cmd : string)
| EvRunCommand (executor : CommandExecutor) (command : string) (options : CommandOptions.t)
| EvLegacyDial (network addr : string) (config : ClientConfig.t)
| EvLegacyCombinedOutput (cmd : string).

Definition Trace : Type := list Event.

(** What [session.CombinedOutput] does in its goroutine: how long it takes
    ([None]: it never returns) and what it then returns. *)
Record Collected : Type := mkCollected {
  took : option Z;
  collected : string;
  collectErr : option error
}.

(** The collaborators.  Every answer is a function of the trace up to and
    including the call it answers, so an answer may depend on the arguments
    of the call and on everything that happened before.  Only the
    collection of the output of a remote command can be said never to end
    ([took]); every other call is given by what it returns, so a run in
    which a local process, or the dial or the command of host.go, never
    returns is not described here, and what is proved about such a call is
    about the runs in which it returns. *)
Record Env : Type := mkEnv {
  exec_answer : Trace -> string * option error;
  user_Current : Trace -> string + error;
  ReadPrivateKeys : Trace -> list Signer + error;
  net_DialTimeout : Trace -> option error;
  ssh_NewClientConn : Trace -> option error;
  injected_Dial : Trace -> option error;
  client_NewSession : Trace -> option error;
  session_CombinedOutput : Trace -> Collected;
  select_outputFirst : Trace -> bool;
  os_Open : Trace -> option error;
  file_Stat : Trace -> Z + error;
  session_Run : Trace -> option error;
  host_RunCommand : Trace -> string * option error;
  executor_RunCommand : Trace -> string * option error;
  legacy_Dial : Trace -> option error;
  legacy_CombinedOutput : Trace -> string * option error
}.

(** How a call ends: it returns, it panics, or the process exits. *)
Inductive Outcome (A : Type) : Type :=
| Ret (a : A)
| Panic (msg : string)
| Exit (code : Z).
Arguments Ret {A} a.
Arguments Panic {A} msg.
Arguments Exit {A} code.

Definition M (A : Type) : Type := Trace -> Outcome A * Trace.

Definition ret {A} (a : A) : M A := fun tr => (Ret a, tr).

Definition bind {A B} (c : M A) (k : A -> M B) : M B :=
  fun tr =>
    match c tr with
    | (Ret a, tr') => k a tr'
    | (Panic msg, tr') => (Panic msg, tr')
    | (Exit code, tr') => (Exit code, tr')
    end.

Notation "x <- c ;; k" := (bind c (fun x => k))
  (at level 61, c at next level, right associativity).
Notation "c ;;; k" := (bind c (fun _ => k))
  (at level 61, right associativity).

Definition panic {A} (msg : string) : M A := fun tr => (Panic msg, tr).

(** A call to a collaborator: record it, then take the answer. *)
Definition call {A} (ev : Event) (answer : Trace -> A) : M A :=
  fun tr => let tr' := tr ++ [ev] in (Ret (answer tr'), tr').

(** [defer cleanup] followed by [body]: the clean-up runs when [body]
    returns and when it panics, not when the process exits. *)
Definition defer {A} (cleanup : M unit) (body : M A) : M A :=
  fun tr =>
    match body tr with
    | (Exit code, tr') => (Exit code, tr')
    | (r, tr') => (r, snd (cleanup tr'))
    end.

(** [log.Fatalf]: the message is written and the process exits with
    status 1. *)
Definition log_Fatalf {A} : M A := fun tr => (Exit 1%Z, tr).

Definition nilDeref : string := "invalid memory address or nil pointer dereference".
Definition indexOutOfRange : string := "index out of range [0] with length 0".

Notation "' pat <- c ;; k" := (bind c (fun x => match x with pat => k end))
  (at level 61, pat pattern, c at next level, right associativity).

(** The errors the specification names, as the code creates them. *)
Definition IncorrectSudoPassword : error := errors_New "sudo: incorrect password provided".
Definition NotInSudoers : error := errors_New "sudo: user is not in the sudoers file".
Definition TimeoutError : error := errors_New "command timed out".
Definition SameHostError : error := errors_New "source and destination are the same host".

(** The case of the [select] statement of [runRemoteCommand] that ran. *)
Inductive Selected : Type :=
| FromOutputCh (output : string)
| FromErrCh (err : error)
| FromTimer.

(** ** The host: command dispatch, probe, file copy *)
Section Host.
Variable env : Env.

(** [UnixHost.isLocal]. *)
Definition isLocal (h : UnixHost.t) : bool :=
  (Hostname h =? "localhost")%string || (Hostname h =? "127.0.0.1")%string.

Definition clientConfig (h : UnixHost.t) (authMethod : ssh_AuthMethod) : ClientConfig.t :=
  ClientConfig.mk (UnixHost.User h) [authMethod] ssh_InsecureIgnoreHostKey.

(** [UnixHost.getSSHConfig]. *)
Definition getSSHConfig (h : UnixHost.t) : M (ClientConfig.t + error) :=
  if negb (UnixHost.Password h =? "")%string then
    ret (inl (clientConfig h (ssh_Password (UnixHost.Password h))))
  else
    let keyManager :=
      if negb (UnixHost.KeyPassphrase h =? "")%string
      then FileSSHKeyManager else AgentSSHKeyManager in
    r <- call (EvReadPrivateKeys keyManager (UnixHost.KeyPassphrase h))
              (ReadPrivateKeys env) ;;
    match r with
    | inr err => ret (inr err)
    | inl keys => ret (inl (clientConfig h (ssh_PublicKeysCallback keys)))
    end.

(** [SSHClient.Dial]; [None] stands for a client and a [nil] error.
    [RealSSHClient.Dial] is the code of the package, an injected client
    answers as it likes. *)
Definition Dial (c : SSHClient) (network addr : string)
           (config : ClientConfig.t) (timeout : Z) : M (option error) :=
  match c with
  | RealSSHClient =>
      err <- call (EvNetDialTimeout network addr timeout) (net_DialTimeout env) ;;
      match err with
      | Some e => ret (Some e)
      | None => call (EvNewClientConn addr config) (ssh_NewClientConn env)
      end
  | InjectedSSHClient id =>
      call (EvInjectedDial id network addr config timeout) (injected_Dial env)
  end.

(** A method called on the [SSHClient] field: a [nil] interface panics. *)
Definition DialWith (c : option SSHClient) (network addr : string)
           (config : ClientConfig.t) (timeout : Z) : M (option error) :=
  match c with
  | None => panic nilDeref
  | Some c => Dial c network addr config timeout
  end.

Definition client_Close : M unit := call EvClientClose (fun _ => tt).
Definition session_Close : M unit := call EvSessionClose (fun _ => tt).
Definition file_Close : M unit := call EvFileClose (fun _ => tt).

(** [UnixHost.ping]. *)
Definition ping (h : UnixHost.t) : M (option error) :=
  let cmd := ("ping -c 1 " ++ Hostname h)%string in
  '(_, err) <- call (EvExec "bash" ["-c"; cmd] None false) (exec_answer env) ;;
  match err with
  | Some e => ret (Some (Errorf_v "ping test failed: " e))
  | None => ret None
  end.

(** [UnixHost.sshable]. *)
Definition sshable (h : UnixHost.t) : M (option error) :=
  if isLocal h then ret None
  else
    r <- getSSHConfig h ;;
    match r with
    | inr err => ret (Some err)
    | inl config =>
        let timeout := (5 * time_Second)%Z in
        err <- DialWith (UnixHost.SSHClient h) "tcp" (Hostname h ++ ":22")%string
                        config timeout ;;
        match err with
        | Some e => ret (Some (Errorf_v "SSH test failed: " e))
        | None => client_Close ;;; ret None
        end
    end.

(** [UnixHost.IsReachable]. *)
Definition IsReachable (h : UnixHost.t) : M (option error) :=
  if isLocal h then ret None
  else
    err <- ping h ;;
    match err with
    | Some e => ret (Some e)
    | None => sshable h
    end.

(** [UnixHost.runLocalCommand]. *)
Definition runLocalCommand (h : UnixHost.t) (cmd : string) (useSudo : bool)
           (sudoPassword : string) : M (string * option error) :=
  match Fields cmd with
  | [] => panic indexOutOfRange
  | head :: parts =>
      if useSudo && negb (sudoPassword =? "")%string then
        let sudoCmd := "-S" :: head :: parts in
        '(outputStr, err) <-
           call (EvExec "sudo" sudoCmd (Some (sudoPassword ++ LF)%string) true)
                (exec_answer env) ;;
        if Contains outputStr "incorrect password" then
          ret ("", Some IncorrectSudoPassword)
        else if Contains outputStr "is not in the sudoers file" then
          ret ("", Some NotInSudoers)
        else
          match err with
          | Some e => ret ("", Some e)
          | None => ret (outputStr, None)
          end
      else
        '(out, err) <- call (EvExec head parts None false) (exec_answer env) ;;
        match err with
        | Some e => ret ("", Some e)
        | None => ret (out, None)
        end
  end.

(** The goroutine and the [select] of [runRemoteCommand].  The goroutine
    sends on [errCh] or on [outputCh] when [session.CombinedOutput]
    returns, the timer fires [timeout] after the start; the earlier of the
    two is received, and when both are ready at once Go chooses. *)
Definition selectOutcome (timeout : Z) (c : Collected) : M Selected :=
  fun tr =>
    let ready :=
      match collectErr c with
      | Some e => FromErrCh e
      | None => FromOutputCh (collected c)
      end in
    match took c with
    | None => (Ret FromTimer, tr ++ [EvSelect timeout])
    | Some d =>
        if (d <? timeout)%Z then (Ret ready, tr ++ [EvSelect d])
        else if (timeout <? d)%Z then (Ret FromTimer, tr ++ [EvSelect timeout])
        else
          let tr' := tr ++ [EvSelect timeout] in
          (Ret (if select_outputFirst env tr' then ready else FromTimer), tr')
    end.

(** [UnixHost.runRemoteCommand]. *)
Definition runRemoteCommand (h : UnixHost.t) (cmd : string) (useSudo : bool)
           (sudoPassword : string) : M (string * option error) :=
  match UnixHost.SSHClient h with
  | None => ret ("", Some (errors_New "SSHClient is not initialized"))
  | Some c =>
      r <- getSSHConfig h ;;
      match r with
      | inr err => ret ("", Some err)
      | inl config =>
          let timeout := (5 * time_Second)%Z in
          err <- Dial c "tcp" (Hostname h ++ ":22")%string config timeout ;;
          match err with
          | Some e => ret ("", Some e)
          | None =>
              defer client_Close
                (err <- call EvNewSession (client_NewSession env) ;;
                 match err with
                 | Some e => ret ("", Some e)
                 | None =>
                     defer session_Close
                       (let stdin :=
                          if useSudo && negb (sudoPassword =? "")%string
                          then Some (sudoPassword ++ LF)%string else None in
                        c <- call (EvGoCombinedOutput cmd stdin)
                                  (session_CombinedOutput env) ;;
                        s <- selectOutcome timeout c ;;
                        match s with
                        | FromOutputCh outputStr =>
                            if Contains outputStr "incorrect password" then
                              ret ("", Some IncorrectSudoPassword)
                            else if Contains outputStr "is not in the sudoers file" then
                              ret ("", Some NotInSudoers)
                            else ret (outputStr, None)
                        | FromErrCh err => ret ("", Some err)
                        | FromTimer => ret ("", Some TimeoutError)
                        end)
                 end)
          end
      end
  end.

(** [UnixHost.runCommandInternal]. *)
Definition runCommandInternal (h : UnixHost.t) (cmd : string) (useSudo : bool)
           (sudoPassword : string) : M (string * option error) :=
  let cmd := if useSudo then ("sudo -S " ++ cmd)%string else cmd in
  let sudoPassword := if useSudo then UnixHost.SudoPassword h else sudoPassword in
  if isLocal h then runLocalCommand h cmd useSudo sudoPassword
  else runRemoteCommand h cmd useSudo sudoPassword.

(** [UnixHost.RunCommand]. *)
Definition RunCommand (h : UnixHost.t) (cmd : string) (options : CommandOptions.t)
  : M (string * option error) :=
  runCommandInternal h cmd (CommandOptions.UseSudo options)
                     (CommandOptions.SudoPassword options).

(** [UnixHost.CopyFile].  The goroutine that writes the control line, the
    bytes of the file and the closing zero byte to the session's input is
    recorded when it is started. *)
Definition CopyFile (h : UnixHost.t) (localPath remotePath : string) : M (option error) :=
  if isLocal h then ret (Some SameHostError)
  else
    err <- call (EvOpen localPath) (os_Open env) ;;
    match err with
    | Some e => ret (Some e)
    | None =>
        defer file_Close
          (r <- call EvStat (file_Stat env) ;;
           match r with
           | inr err => ret (Some err)
           | inl size =>
               r <- getSSHConfig h ;;
               match r with
               | inr err => ret (Some err)
               | inl config =>
                   let timeout := (5 * time_Second)%Z in
                   err <- DialWith (UnixHost.SSHClient h) "tcp"
                                   (Hostname h ++ ":22")%string config timeout ;;
                   match err with
                   | Some e => ret (Some e)
                   | None =>
                       defer client_Close
                         (err <- call EvNewSession (client_NewSession env) ;;
                          match err with
                          | Some e => ret (Some e)
                          | None =>
                              defer session_Close
                                (call (EvGoScpWriter size remotePath) (fun _ => tt) ;;;
                                 let cmd := ("scp -t " ++ remotePath)%string in
                                 err <- call (EvSessionRun cmd) (session_Run env) ;;
                                 match err with
                                 | Some e => ret (Some e)
                                 | None => ret None
                                 end)
                          end)
                   end
               end
           end)
    end.

(** [determineOS]. *)
Definition determineOS (host : UnixHost.t) : M (string * option error) :=
  '(output, err) <- RunCommand host "uname" (CommandOptions.mk false "") ;;
  match err with
  | Some e => ret ("", Some e)
  | None => ret (TrimSpace output, None)
  end.

End Host.

(** ** Host construction *)

(** The package-manager drivers; each holds its executor (the [Logger]
    field is never read). *)
Inductive PackageManager : Type :=
| YumPackageManager (Executor : option CommandExecutor)
| AptPackageManager (Executor : option CommandExecutor)
| BrewPackageManager (Executor : option CommandExecutor).

Module LinuxHost.
(** Modelled from the spec: the declaration of [LinuxHost] is not among
    the sources.  It embeds the [*UnixHost] built by [NewHost], so
    [linuxHost.Executor] is taken to be the embedded host's field. *)
Record t : Type := mk { UnixHost : UnixHost.t; PackageManager : option PackageManager }.
End LinuxHost.

Module MacOSHost.
(** Modelled from the spec: as for [LinuxHost]. *)
Record t : Type := mk { UnixHost : UnixHost.t; PackageManager : option PackageManager }.
End MacOSHost.

(** A non-nil value of the interface [Host] returned by [NewHost]. *)
Inductive Host : Type :=
| LinuxHostPtr (h : LinuxHost.t)
| MacOSHostPtr (h : MacOSHost.t).

(** [HostOption]: a function that updates the host under construction. *)
Definition HostOption : Type := UnixHost.t -> UnixHost.t.

Definition WithUser (user : string) : HostOption :=
  fun host => UnixHost.mk (UnixHost.HostString host) user (UnixHost.Password host)
    (UnixHost.KeyPassphrase host) (UnixHost.OS host) (UnixHost.SSHClient host)
    (UnixHost.SudoPassword host) (UnixHost.Executor host).

Definition WithPassword (password : string) : HostOption :=
  fun host => UnixHost.mk (UnixHost.HostString host) (UnixHost.User host) password
    (UnixHost.KeyPassphrase host) (UnixHost.OS host) (UnixHost.SSHClient host)
    (UnixHost.SudoPassword host) (UnixHost.Executor host).

Definition WithKeyPassphrase (keyPassphrase : string) : HostOption :=
  fun host => UnixHost.mk (UnixHost.HostString host) (UnixHost.User host)
    (UnixHost.Password host) keyPassphrase (UnixHost.OS host) (UnixHost.SSHClient host)
    (UnixHost.SudoPassword host) (UnixHost.Executor host).

Definition WithOS (os : string) : HostOption :=
  fun host => UnixHost.mk (UnixHost.HostString host) (UnixHost.User host)
    (UnixHost.Password host) (UnixHost.KeyPassphrase host) os (UnixHost.SSHClient host)
    (UnixHost.SudoPassword host) (UnixHost.Executor host).

Definition WithSSHClient (client : option SSHClient) : HostOption :=
  fun h => UnixHost.mk (UnixHost.HostString h) (UnixHost.User h)
    (UnixHost.Password h) (UnixHost.KeyPassphrase h) (UnixHost.OS h) client
    (UnixHost.SudoPassword h) (UnixHost.Executor h).

Definition WithSudoPassword (password : string) : HostOption :=
  fun host => UnixHost.mk (UnixHost.HostString host) (UnixHost.User host)
    (UnixHost.Password host) (UnixHost.KeyPassphrase host) (UnixHost.OS host)
    (UnixHost.SSHClient host) password (UnixHost.Executor host).

Definition WithCommandExecutor (executor : option CommandExecutor) : HostOption :=
  fun h => UnixHost.mk (UnixHost.HostString h) (UnixHost.User h)
    (UnixHost.Password h) (UnixHost.KeyPassphrase h) (UnixHost.OS h)
    (UnixHost.SSHClient h) (UnixHost.SudoPassword h) executor.

Section Construction.
Variable env : Env.

(** [&UnixHost{HostString: hostname}] after the options have run. *)
Definition configured (hostname : string) (options : list HostOption) : UnixHost.t :=
  fold_left (fun unixHost option => option unixHost) options
            (UnixHost.mk hostname "" "" "" "" None "" None).

(** "Set the executor if it's nil". *)
Definition withDefaultExecutor (unixHost : UnixHost.t) : UnixHost.t :=
  match UnixHost.Executor unixHost with
  | None => WithCommandExecutor (Some DefaultCommandExecutor) unixHost
  | Some _ => unixHost
  end.

(** The [switch unixHost.OS] of [NewHost].  The one-argument
    [linuxHost.RunCommand] is not among the sources: the environment
    answers for it. *)
Definition newHostSwitch (unixHost : UnixHost.t) : M (option Host * option error) :=
  if (UnixHost.OS unixHost =? "Linux")%string then
    let unixHost := withDefaultExecutor unixHost in
    '(osRelease, _) <- call (EvHostRunCommand "cat /etc/os-release") (host_RunCommand env) ;;
    let pm :=
      if Contains osRelease "ID=ubuntu" || Contains osRelease "ID=debian"
      then AptPackageManager (UnixHost.Executor unixHost)
      else YumPackageManager (UnixHost.Executor unixHost) in
    ret (Some (LinuxHostPtr (LinuxHost.mk unixHost (Some pm))), None)
  else if (UnixHost.OS unixHost =? "Darwin")%string then
    let unixHost := withDefaultExecutor unixHost in
    let pm := BrewPackageManager (UnixHost.Executor unixHost) in
    ret (Some (MacOSHostPtr (MacOSHost.mk unixHost (Some pm))), None)
  else
    ret (None, Some (Errorf_s "unsupported operating system: " (UnixHost.OS unixHost))).

(** "If the OS has not been specified, determine it", then the switch. *)
Definition newHostOS (unixHost : UnixHost.t) : M (option Host * option error) :=
  if (UnixHost.OS unixHost =? "")%string then
    '(os, err) <- determineOS env unixHost ;;
    match err with
    | Some e => ret (None, Some e)
    | None => newHostSwitch (WithOS os unixHost)
    end
  else newHostSwitch unixHost.

(** [NewHost]. *)
Definition NewHost (hostname : string) (options : list HostOption)
  : M (option Host * option error) :=
  let unixHost := configured hostname options in
  if (UnixHost.User unixHost =? "")%string then
    r <- call EvUserCurrent (user_Current env) ;;
    match r with
    | inr err => ret (None, Some (Errorf_v "could not get current user: " err))
    | inl username => newHostOS (WithUser username unixHost)
    end
  else newHostOS unixHost.

End Construction.

(** ** package_manager.go: the drivers

    A driver is its [Executor] field; [pm] below is that field. *)
Section Executor.
Variable env : Env.

(** [pm.Executor.RunCommand(command, options)]; a [nil] executor panics. *)
Definition Executor_RunCommand (pm : option CommandExecutor) (command : string)
           (options : CommandOptions.t) : M (string * option error) :=
  match pm with
  | None => panic nilDeref
  | Some e => call (EvRunCommand e command options) (executor_RunCommand env)
  end.

(** [CommandOptions{UseSudo: useSudo}]. *)
Definition sudo (useSudo : bool) : CommandOptions.t := CommandOptions.mk useSudo "".

Definition upgradeAllError (err : error) (output : string) : error :=
  errorString ("failed to upgrade all packages: " ++ Error err ++ ", Output: " ++ output).

(** The methods that run one command and split its output into lines. *)
Definition runAndSplit (pm : option CommandExecutor) (command : string)
           (useSudo : bool) : M (list string * option error) :=
  '(output, err) <- Executor_RunCommand pm command (sudo useSudo) ;;
  match err with
  | Some e => ret ([], Some e)
  | None => ret (Split output LF, None)
  end.

(** The methods that run one command and return its error. *)
Definition runOnly (pm : option CommandExecutor) (command : string)
           (useSudo : bool) : M (option error) :=
  '(_, err) <- Executor_RunCommand pm command (sudo useSudo) ;;
  ret err.

End Executor.

Module Yum.
Section Yum.
Variable env : Env.
Variable pm : option CommandExecutor.

Definition ListPackages (host : UnixHost.t) :=
  runAndSplit env pm "yum list installed" false.
Definition AddPackage (host : UnixHost.t) (pkg : string) :=
  runOnly env pm ("yum install -y " ++ pkg) true.
Definition RemovePackage (host : UnixHost.t) (pkg : string) :=
  runOnly env pm ("yum remove -y " ++ pkg) true.
Definition UpgradePackage (host : UnixHost.t) (pkg : string) :=
  runOnly env pm ("yum upgrade -y " ++ pkg) true.
Definition CheckOSUpdates (host : UnixHost.t) :=
  runAndSplit env pm "yum check-update" true.
Definition UpgradeAll (host : UnixHost.t) : M (list Update * option error) :=
  '(output, err) <- Executor_RunCommand env pm "yum update -y" (sudo true) ;;
  match err with
  | Some e => ret ([], Some (upgradeAllError e output))
  | None => ret (parseUpdates output, None)
  end.
End Yum.
End Yum.

Module Apt.
Section Apt.
Variable env : Env.
Variable pm : option CommandExecutor.

Definition ListPackages (host : UnixHost.t) :=
  runAndSplit env pm "apt list --installed" false.
Definition AddPackage (host : UnixHost.t) (pkg : string) :=
  runOnly env pm ("apt install -y " ++ pkg) true.
Definition RemovePackage (host : UnixHost.t) (pkg : string) :=
  runOnly env pm ("apt remove -y " ++ pkg) true.
Definition UpgradePackage (host : UnixHost.t) (pkg : string) :=
  runOnly env pm ("apt upgrade -y " ++ pkg) true.
Definition UpgradeAll (host : UnixHost.t) : M (list Update * option error) :=
  '(output, err) <- Executor_RunCommand env pm "apt upgrade -y" (sudo true) ;;
  match err with
  | Some e => ret ([], Some (upgradeAllError e output))
  | None => ret (parseAptUpdates output, None)
  end.

(** [AptPackageManager.CheckOSUpdates]: on a failed refresh the code
    calls [log.Fatalf] and only then has its [return] of the wrapped
    error. *)
Definition CheckOSUpdates (host : UnixHost.t) : M (list string * option error) :=
  '(_, err) <- Executor_RunCommand env pm "apt update" (sudo true) ;;
  match err with
  | Some e =>
      log_Fatalf (A := unit) ;;;
      ret ([], Some (Errorf_w "Failed to update apt: " e))
  | None =>
      '(output, err) <- Executor_RunCommand env pm "apt list --upgradable" (sudo false) ;;
      match err with
      | Some e => ret ([], Some e)
      | None => ret (Split output LF, None)
      end
  end.
End Apt.
End Apt.

Module Brew.
Section Brew.
Variable env : Env.
Variable pm : option CommandExecutor.

Definition ListPackages (host : UnixHost.t) :=
  runAndSplit env pm "brew list --version" false.
Definition AddPackage (host : UnixHost.t) (pkg : string) :=
  runOnly env pm ("brew install " ++ pkg) false.
Definition RemovePackage (host : UnixHost.t) (pkg : string) :=
  runOnly env pm ("brew uninstall " ++ pkg) false.
Definition UpgradePackage (host : UnixHost.t) (pkg : string) :=
  runOnly env pm ("brew upgrade " ++ pkg) false.
Definition CheckOSUpdates (host : UnixHost.t) :=
  runAndSplit env pm "brew outdated" false.

(** [BrewPackageManager.UpgradeAll]: "We explicitly don't want to run as
    root here, as brew will complain". *)
Definition UpgradeAll (host : UnixHost.t) : M (list Update * option error) :=
  '(output, err) <- Executor_RunCommand env pm "brew upgrade" (sudo false) ;;
  match err with
  | Some e => ret ([], Some (upgradeAllError e output))
  | None => ret (parseUpdates output, None)
  end.
End Brew.
End Brew.

(** ** host.go: the earlier form of the host *)
Module Legacy.

Module UnixHost.
Record t : Type := mk {
  Hostname : string;
  User : string;
  Password : string;
  KeyPassphrase : string;
  OS : string
}.
End UnixHost.

(** The drivers of this form of the package are empty structs. *)
Inductive PackageManager : Type :=
| AptPackageManager | YumPackageManager | BrewPackageManager.

Inductive Host : Type :=
| LinuxHost (h : UnixHost.t) (pm : PackageManager)
| MacOSHost (h : UnixHost.t) (pm : PackageManager).

Definition HostOption : Type := UnixHost.t -> UnixHost.t.

Definition WithUser (user : string) : HostOption :=
  fun host => UnixHost.mk (UnixHost.Hostname host) user (UnixHost.Password host)
    (UnixHost.KeyPassphrase host) (UnixHost.OS host).

Definition WithPassword (password : string) : HostOption :=
  fun host => UnixHost.mk (UnixHost.Hostname host) (UnixHost.User host) password
    (UnixHost.KeyPassphrase host) (UnixHost.OS host).

Definition WithKeyPassphrase (keyPassphrase : string) : HostOption :=
  fun host => UnixHost.mk (UnixHost.Hostname host) (UnixHost.User host)
    (UnixHost.Password host) keyPassphrase (UnixHost.OS host).

Definition WithOS (os : string) : HostOption :=
  fun host => UnixHost.mk (UnixHost.Hostname host) (UnixHost.User host)
    (UnixHost.Password host) (UnixHost.KeyPassphrase host) os.

Section Legacy.
Variable env : Env.

(** [UnixHost.RunCommand] of host.go. *)
Definition RunCommand (h : UnixHost.t) (cmd : string) : M (string * option error) :=
  if (UnixHost.Hostname h =? "localhost")%string
     || (UnixHost.Hostname h =? "127.0.0.1")%string then
    match Fields cmd with
    | [] => panic indexOutOfRange
    | head :: parts =>
        '(out, err) <- call (EvExec head parts None false) (exec_answer env) ;;
        match err with
        | Some e => ret ("", Some e)
        | None => ret (out, None)
        end
    end
  else
    r <- (if negb (UnixHost.Password h =? "")%string then
            ret (inl (ssh_Password (UnixHost.Password h)))
          else
            let keyManager :=
              if negb (UnixHost.KeyPassphrase h =? "")%string
              then FileSSHKeyManager else AgentSSHKeyManager in
            r <- call (EvReadPrivateKeys keyManager (UnixHost.KeyPassphrase h))
                      (ReadPrivateKeys env) ;;
            match r with
            | inr err => ret (inr err)
            | inl keys => ret (inl (ssh_PublicKeysCallback keys))
            end) ;;
    match r with
    | inr err => ret ("", Some err)
    | inl authMethod =>
        let config :=
          ClientConfig.mk (UnixHost.User h) [authMethod] ssh_InsecureIgnoreHostKey in
        err <- call (EvLegacyDial "tcp" (UnixHost.Hostname h ++ ":22")%string config)
                    (legacy_Dial env) ;;
        match err with
        | Some e => ret ("", Some e)
        | None =>
            defer (call EvClientClose (fun _ => tt))
              (err <- call EvNewSession (client_NewSession env) ;;
               match err with
               | Some e => ret ("", Some e)
               | None =>
                   defer (call EvSessionClose (fun _ => tt))
                     ('(output, err) <- call (EvLegacyCombinedOutput cmd)
                                             (legacy_CombinedOutput env) ;;
                      match err with
                      | Some e => ret ("", Some e)
                      | None => ret (output, None)
                      end)
               end)
        end
    end.

(** [determineOS] of host.go. *)
Definition determineOS (host : UnixHost.t) : M (string * option error) :=
  '(output, err) <- RunCommand host "uname" ;;
  match err with
  | Some e => ret ("", Some e)
  | None => ret (TrimSpace output, None)
  end.

Definition configured (hostname : string) (options : list HostOption) : UnixHost.t :=
  fold_left (fun host option => option host) options
            (UnixHost.mk hostname "" "" "" "").

(** The [switch host.OS] of [NewHost]. *)
Definition newHostSwitch (host : UnixHost.t) : M (option Host * option error) :=
  if (UnixHost.OS host =? "Linux")%string then
    '(osRelease, _) <- RunCommand host "cat /etc/os-release" ;;
    if Contains osRelease "ID=ubuntu" || Contains osRelease "ID=debian"
    then ret (Some (LinuxHost host AptPackageManager), None)
    else ret (Some (LinuxHost host YumPackageManager), None)
  else if (UnixHost.OS host =? "Darwin")%string then
    ret (Some (MacOSHost host BrewPackageManager), None)
  else
    ret (None, Some (Errorf_s "unsupported operating system: " (UnixHost.OS host))).

Definition newHostOS (host : UnixHost.t) : M (option Host * option error) :=
  if (UnixHost.OS host =? "")%string then
    '(os, err) <- determineOS host ;;
    match err with
    | Some e => ret (None, Some e)
    | None => newHostSwitch (WithOS os host)
    end
  else newHostSwitch host.

(** [NewHost] of host.go. *)
Definition NewHost (hostname : string) (options : list HostOption)
  : M (option Host * option error) :=
  let host := configured hostname options in
  if (UnixHost.User host =? "")%string then
    r <- call EvUserCurrent (user_Current env) ;;
    match r with
    | inr err => ret (None, Some (Errorf_v "could not get current user: " err))
    | inl username => newHostOS (WithUser username host)
    end
  else newHostOS host.

End Legacy.
End Legacy.

(** ** Concrete collaborators, used to run the model *)

Notation "tr +> ev" := (tr ++ [ev]) (at level 58, left associativity, only parsing).

(** Every call succeeds; every command, local or remote, prints [out] and
    ends with [exit] after a second. *)
Definition printingEnv (out : string) (exit : option error) : Env :=
  mkEnv (fun _ => (out, exit)) (fun _ => inl "operator") (fun _ => inl [1])
        (fun _ => None) (fun _ => None) (fun _ => None) (fun _ => None)
        (fun _ => mkCollected (Some time_Second) out exit) (fun _ => true)
        (fun _ => None) (fun _ => inl 0%Z) (fun _ => None)
        (fun _ => (out, exit)) (fun _ => (out, exit))
        (fun _ => None) (fun _ => (out, exit)).

Definition exitStatus1 : error := foreignError "exit status 1".

(** Commands print nothing and succeed. *)
Definition quietEnv : Env := printingEnv "" None.

(** Commands print nothing and fail. *)
Definition failingExecEnv : Env := printingEnv "" (Some exitStatus1).

(** As [quietEnv], but the network refuses every connection. *)
Definition refusedEnv : Env :=
  mkEnv (fun _ => ("", None)) (fun _ => inl "operator") (fun _ => inl [1])
        (fun _ => Some (foreignError "connection refused")) (fun _ => None)
        (fun _ => Some (foreignError "connection refused")) (fun _ => None)
        (fun _ => mkCollected (Some time_Second) "" None) (fun _ => true)
        (fun _ => None) (fun _ => inl 0%Z) (fun _ => None)
        (fun _ => ("", None)) (fun _ => ("", None))
        (fun _ => Some (foreignError "connection refused")) (fun _ => ("", None)).

(** As [quietEnv], but a command takes a minute and then prints "done". *)
Definition slowEnv : Env :=
  mkEnv (fun _ => ("", None)) (fun _ => inl "operator") (fun _ => inl [1])
        (fun _ => None) (fun _ => None) (fun _ => None) (fun _ => None)
        (fun _ => mkCollected (Some (60 * time_Second)%Z) "done" None) (fun _ => true)
        (fun _ => None) (fun _ => inl 0%Z) (fun _ => None)
        (fun _ => ("", None)) (fun _ => ("", None))
        (fun _ => None) (fun _ => ("", None)).

(** As [quietEnv], but the current user cannot be found. *)
Definition noUserEnv : Env :=
  mkEnv (fun _ => ("", None)) (fun _ => inr (foreignError "user: unknown userid 1001"))
        (fun _ => inl [1])
        (fun _ => None) (fun _ => None) (fun _ => None) (fun _ => None)
        (fun _ => mkCollected (Some time_Second) "" None) (fun _ => true)
        (fun _ => None) (fun _ => inl 0%Z) (fun _ => None)
        (fun _ => ("", None)) (fun _ => ("", None))
        (fun _ => None) (fun _ => ("", None)).

(** As [quietEnv], but the local file cannot be opened. *)
Definition failingOpenEnv : Env :=
  mkEnv (fun _ => ("", None)) (fun _ => inl "operator") (fun _ => inl [1])
        (fun _ => None) (fun _ => None) (fun _ => None) (fun _ => None)
        (fun _ => mkCollected (Some time_Second) "" None) (fun _ => true)
        (fun _ => Some (foreignError "open /etc/motd: no such file or directory"))
        (fun _ => inl 0%Z) (fun _ => None)
        (fun _ => ("", None)) (fun _ => ("", None))
        (fun _ => None) (fun _ => ("", None)).

(** What sudo prints when the password is wrong. *)
Definition sorry : string := "Sorry, try again. sudo: 1 incorrect password attempt".

(** What sudo prints for a user without the right to use it. *)
Definition notAllowed : string := "operator is not in the sudoers file.".

(** Output with the words "not in the sudoers file" but without "is". *)
Definition terse : string := "operator: not in the sudoers file".

(** Commands print [sorry], [notAllowed], both, or [terse]; exit status 0. *)
Definition sorryEnv : Env := printingEnv sorry None.
Definition notAllowedEnv : Env := printingEnv notAllowed None.
Definition bothEnv : Env := printingEnv (sorry ++ " " ++ notAllowed) None.
Definition terseEnv : Env := printingEnv terse None.

(** Commands print [sorry] and end with exit status 1, as sudo does after a
    wrong password. *)
Definition sorryExitEnv : Env := printingEnv sorry (Some exitStatus1).

(** Commands print "Plan9" and a line feed. *)
Definition plan9Env : Env := printingEnv ("Plan9" ++ LF) None.

(** A local host with an escalation password. *)
Definition localSudoHost : UnixHost.t :=
  UnixHost.mk "localhost" "operator" "" "" "Linux" None "hunter2" None.

(** Remote hosts with a password, and with a key passphrase. *)
Definition passwordHost : UnixHost.t :=
  UnixHost.mk "build01" "operator" "s3cret" "unused" "Linux" (Some RealSSHClient) "" None.
Definition passphraseHost : UnixHost.t :=
  UnixHost.mk "build01" "operator" "" "opensesame" "Linux" (Some RealSSHClient) "" None.

Definition legacyLocal : Legacy.UnixHost.t := Legacy.UnixHost.mk "localhost" "operator" "" "" "".
Definition legacyRemote : Legacy.UnixHost.t :=
  Legacy.UnixHost.mk "build01" "operator" "s3cret" "" "".

(** A remote host of host.go without a password and with a key passphrase. *)
Definition legacyKeyHost : Legacy.UnixHost.t :=
  Legacy.UnixHost.mk "build02" "operator" "" "opensesame" "".

(** As [quietEnv], but the key manager finds no key. *)
Definition noKeys : error := foreignError "no private keys found".
Definition noKeysEnv : Env :=
  mkEnv (fun _ => ("", None)) (fun _ => inl "operator") (fun _ => inr noKeys)
        (fun _ => None) (fun _ => None) (fun _ => None) (fun _ => None)
        (fun _ => mkCollected (Some time_Second) "" None) (fun _ => true)
        (fun _ => None) (fun _ => inl 0%Z) (fun _ => None)
        (fun _ => ("", None)) (fun _ => ("", None))
        (fun _ => None) (fun _ => ("", None)).

Definition localhost : UnixHost.t :=
  UnixHost.mk "localhost" "operator" "" "" "Linux" None "" None.

Definition loopback : UnixHost.t :=
  UnixHost.mk "127.0.0.1" "operator" "" "" "Linux" None "" None.

Definition remoteHost : UnixHost.t :=
  UnixHost.mk "build01" "operator" "" "" "Linux" (Some RealSSHClient) "hunter2" None.

(** On [remoteHost], with collaborators that let it, the session opens. *)
Ltac session_is_open :=
  exists RealSSHClient, (clientConfig remoteHost (ssh_PublicKeysCallback [1])),
    [EvReadPrivateKeys AgentSSHKeyManager ""];
  repeat split; reflexivity.

(** The example line of the comment in [parseAptUpdates]. *)
Definition documentedLine : string := "foo/xenial 2.0.1 amd64 [upgradable from: 1.9.3]".

(** The one command of the ping phase of the probe. *)
Definition pingEvent (h : UnixHost.t) : Event :=
  EvExec "bash" ["-c"; ("ping -c 1 " ++ Hostname h)%string] None false.

(** The address every dial of the package uses, and the value of the local
    variable [timeout], which bounds the dial and the wait for the output. *)
Definition sshAddr (h : UnixHost.t) : string := (Hostname h ++ ":22")%string.
Definition fiveSeconds : Z := (5 * time_Second)%Z.

(** The collection of the output is still running when [timeout] has
    passed. *)
Definition outlasts (c : Collected) (timeout : Z) : Prop :=
  match took c with
  | Some d => (timeout < d)%Z
  | None => True
  end.

(** Starting from trace [tr], the host has a client, its configuration is
    built, the dial succeeds leaving trace [tr2], and a session is opened. *)
Definition sessionOpened (env : Env) (h : UnixHost.t) (tr tr2 : Trace) : Prop :=
  exists c config tr1,
    UnixHost.SSHClient h = Some c
    /\ getSSHConfig env h tr = (Ret (inl config), tr1)
    /\ Dial env c "tcp" (sshAddr h) config fiveSeconds tr1 = (Ret None, tr2)
    /\ client_NewSession env (tr2 +> EvNewSession) = None.

(** What is sent as the session's input: the escalation password, when
    escalation is asked for and the host has one. *)
Definition sessionStdin (h : UnixHost.t) (useSudo : bool) : option string :=
  if useSudo && negb (UnixHost.SudoPassword h =? "")%string
  then Some (UnixHost.SudoPassword h ++ LF)%string else None.

(** The first step of [NewHost] leaves the host [known] and the trace
    [tr0]: the user was given by an option, or the current user was found. *)
Definition userResolved (env : Env) (unixHost : UnixHost.t) (tr : Trace)
           (known : UnixHost.t) (tr0 : Trace) : Prop :=
  (UnixHost.User unixHost <> "" /\ known = unixHost /\ tr0 = tr)
  \/ (UnixHost.User unixHost = ""
      /\ exists username,
          user_Current env (tr +> EvUserCurrent) = inl username
          /\ known = WithUser username unixHost
          /\ tr0 = tr +> EvUserCurrent).

(** The same for [NewHost] of host.go. *)
Definition legacyUserResolved (env : Env) (host : Legacy.UnixHost.t) (tr : Trace)
           (known : Legacy.UnixHost.t) (tr0 : Trace) : Prop :=
  (Legacy.UnixHost.User host <> "" /\ known = host /\ tr0 = tr)
  \/ (Legacy.UnixHost.User host = ""
      /\ exists username,
          user_Current env (tr +> EvUserCurrent) = inl username
          /\ known = Legacy.WithUser username host
          /\ tr0 = tr +> EvUserCurrent).

(** The OS kind of a host that [NewHost] returned. *)
Definition hostOS (host : Host) : string :=
  match host with
  | LinuxHostPtr l => UnixHost.OS (LinuxHost.UnixHost l)
  | MacOSHostPtr m => UnixHost.OS (MacOSHost.UnixHost m)
  end.

Definition legacyHostOS (host : Legacy.Host) : string :=
  match host with
  | Legacy.LinuxHost h _ => Legacy.UnixHost.OS h
  | Legacy.MacOSHost h _ => Legacy.UnixHost.OS h
  end.

(** The error of the [default] case of the switch on the OS. *)
Definition unsupportedOS (os : string) : error :=
  Errorf_s "unsupported operating system: " os.

Definition bytes (codes : list nat) : string :=
  fold_right (fun n s => String (ascii_of_nat n) s) "" codes.

(** The UTF-8 encodings of the runes for which [unicode.IsSpace] holds. *)
Definition spaceRunes : list string :=
  map bytes
      [[9]; [10]; [11]; [12]; [13]; [32]; [194; 133]; [194; 160]; [225; 154; 128];
       [226; 128; 128]; [226; 128; 129]; [226; 128; 130]; [226; 128; 131];
       [226; 128; 132]; [226; 128; 133]; [226; 128; 134]; [226; 128; 135];
       [226; 128; 136]; [226; 128; 137]; [226; 128; 138]; [226; 128; 168];
       [226; 128; 169]; [226; 128; 175]; [226; 129; 159]; [227; 128; 128]].

(** A command string that is empty or consists only of white space. *)
Inductive WhiteSpaceOnly : string -> Prop :=
| WhiteSpaceOnly_empty : WhiteSpaceOnly ""
| WhiteSpaceOnly_rune (rune rest : string) :
    In rune spaceRunes -> WhiteSpaceOnly rest -> WhiteSpaceOnly (rune ++ rest).

(** Membership in a list that is written out. *)
Ltac listed := vm_compute; tauto.

(** Membership in a trace that is written out. *)
Ltac pick H :=
  simpl in H;
  repeat match type of H with
         | _ \/ _ => destruct H as [H|H]; try discriminate H
         | False => contradiction
         end.

(** The added part of a trace, read off the trace itself. *)
Ltac asked_is_suffix :=
  eexists; split; [simpl; rewrite <- ?app_assoc; simpl; reflexivity|].

(** ** Notions used to state further properties *)

(** The byte [c] does not occur in [s]. *)
Fixpoint lacks (c : ascii) (s : string) : bool :=
  match s with
  | EmptyString => true
  | String a r => negb (Ascii.eqb c a) && lacks c r
  end.

Fixpoint allBytes (p : ascii -> bool) (s : string) : bool :=
  match s with
  | EmptyString => true
  | String a r => p a && allBytes p r
  end.

(** An ASCII byte that is not white space. *)
Definition wordByte (c : ascii) : bool :=
  (byte c <? 128) && negb (asciiSpace (byte c)).

(** A non-empty string of such bytes. *)
Definition asciiWord (w : string) : bool :=
  negb (w =? "")%string && allBytes wordByte w.

(** Words joined by single spaces. *)
Fixpoint unwords (ws : list string) : string :=
  match ws with
  | [] => ""
  | w :: rest =>
      match rest with
      | [] => w
      | _ :: _ => (w ++ " " ++ unwords rest)%string
      end
  end.

(** What one pass of the loop of [parseAptUpdates] appends for a line. *)
Definition aptRecords (line : string) : list Update :=
  let parts := Fields line in
  if (length parts <? 5) || negb (at_ parts 4 =? "[upgradable")%string
  then []
  else [mkUpdate (at_ (Split (at_ parts 0) "/") 0) (at_ parts 1)].

(** What one pass of the loop of [parseUpdates] appends for a line. *)
Definition plainRecords (line : string) : list Update :=
  let parts := Split line " " in
  if length parts <? 2 then [] else [mkUpdate (at_ parts 0) (at_ parts 1)].

(** The event is the start of a local process. *)
Definition isExec (ev : Event) : bool :=
  match ev with
  | EvExec _ _ _ _ => true
  | _ => false
  end.

(** The event is a reading of private keys or a dial: the steps at which
    an authentication method is chosen and used. *)
Definition isAuth (ev : Event) : bool :=
  match ev with
  | EvReadPrivateKeys _ _ => true
  | EvNetDialTimeout _ _ _ => true
  | EvNewClientConn _ _ => true
  | EvInjectedDial _ _ _ _ _ => true
  | EvLegacyDial _ _ _ => true
  | _ => false
  end.

(** The one dial of host.go's RunCommand, with [auth] as its only
    authentication method. *)
Definition legacyDialEvent (h : Legacy.UnixHost.t) (auth : ssh_AuthMethod) : Event :=
  EvLegacyDial "tcp" (Legacy.UnixHost.Hostname h ++ ":22")%string
               (ClientConfig.mk (Legacy.UnixHost.User h) [auth] ssh_InsecureIgnoreHostKey).

(** The key manager the code selects for a passphrase. *)
Definition keyManagerFor (passphrase : string) : SSHKeyManager :=
  if (passphrase =? "")%string then AgentSSHKeyManager else FileSSHKeyManager.

(** After [tr], the executor answers the command with [output] and no
    error. *)
Definition answers (env : Env) (e : CommandExecutor) (tr : Trace) (command : string)
           (useSudo : bool) (output : string) : Prop :=
  executor_RunCommand env (tr +> EvRunCommand e command (sudo useSudo)) = (output, None).

(** The command of the call being answered. *)
Definition lastCommand (t : Trace) : string :=
  match last t EvUserCurrent with
  | EvRunCommand _ command _ => command
  | _ => ""
  end.

(** What apt prints when it refreshes its lists, and when it lists what can
    be upgraded. *)
Definition aptRefreshed : string :=
  "Hit:1 http://deb.debian.org/debian stable InRelease" ++ LF.
Definition aptListing : string :=
  "Listing..." ++ LF ++ "vim/stable 2:9.1 amd64 [upgradable from: 2:9.0]" ++ LF.

(** As [quietEnv], with an executor that answers as apt does. *)
Definition aptEnv : Env :=
  mkEnv (fun _ => ("", None)) (fun _ => inl "operator") (fun _ => inl [1])
        (fun _ => None) (fun _ => None) (fun _ => None) (fun _ => None)
        (fun _ => mkCollected (Some time_Second) "" None) (fun _ => true)
        (fun _ => None) (fun _ => inl 0%Z) (fun _ => None)
        (fun _ => ("", None))
        (fun t => if (lastCommand t =? "apt update")%string
                  then (aptRefreshed, None) else (aptListing, None))
        (fun _ => None) (fun _ => ("", None)).

(** The options the package provides. *)
Inductive Provided : HostOption -> Prop :=
| Provided_WithUser (user : string) : Provided (WithUser user)
| Provided_WithPassword (password : string) : Provided (WithPassword password)
| Provided_WithKeyPassphrase (keyPassphrase : string) :
    Provided (WithKeyPassphrase keyPassphrase)
| Provided_WithOS (os : string) : Provided (WithOS os)
| Provided_WithSSHClient (client : option SSHClient) : Provided (WithSSHClient client)
| Provided_WithSudoPassword (password : string) : Provided (WithSudoPassword password)
| Provided_WithCommandExecutor (executor : option CommandExecutor) :
    Provided (WithCommandExecutor executor).

(** The [UnixHost] embedded in a host that [NewHost] returned, and its
    driver. *)
Definition hostUnix (host : Host) : UnixHost.t :=
  match host with
  | LinuxHostPtr l => LinuxHost.UnixHost l
  | MacOSHostPtr m => MacOSHost.UnixHost m
  end.

Definition hostDriver (host : Host) : option PackageManager :=
  match host with
  | LinuxHostPtr l => LinuxHost.PackageManager l
  | MacOSHostPtr m => MacOSHost.PackageManager m
  end.

(** Two hosts with the same address, credentials and SSH client. *)
Definition sameCredentials (a b : UnixHost.t) : Prop :=
  UnixHost.HostString a = UnixHost.HostString b
  /\ UnixHost.Password a = UnixHost.Password b
  /\ UnixHost.KeyPassphrase a = UnixHost.KeyPassphrase b
  /\ UnixHost.SSHClient a = UnixHost.SSHClient b
  /\ UnixHost.SudoPassword a = UnixHost.SudoPassword b.

(** The second step of [NewHost], after the user is known, leaves the host
    [ready] and the trace [tr1]: the OS kind was given by an option, or the
    probe ran "uname" and its output, trimmed, is the kind. *)
Definition osResolved (env : Env) (known : UnixHost.t) (tr0 : Trace)
           (ready : UnixHost.t) (tr1 : Trace) : Prop :=
  (UnixHost.OS known <> "" /\ ready = known /\ tr1 = tr0)
  \/ (UnixHost.OS known = ""
      /\ exists output,
          RunCommand env known "uname" (CommandOptions.mk false "") tr0
          = (Ret (output, None), tr1)
          /\ ready = WithOS (TrimSpace output) known).

(** The same for [NewHost] of host.go. *)
Definition legacyOsResolved (env : Env) (known : Legacy.UnixHost.t) (tr0 : Trace)
           (ready : Legacy.UnixHost.t) (tr1 : Trace) : Prop :=
  (Legacy.UnixHost.OS known <> "" /\ ready = known /\ tr1 = tr0)
  \/ (Legacy.UnixHost.OS known = ""
      /\ exists output,
          Legacy.RunCommand env known "uname" tr0 = (Ret (output, None), tr1)
          /\ ready = Legacy.WithOS (TrimSpace output) known).

(** What [NewHost] asks when the OS kind is supplied.  The current user is
    looked up when no option gave one. *)
Definition userLookup (given : UnixHost.t) : list Event :=
  if (UnixHost.User given =? "")%string then [EvUserCurrent] else [].

(** The user is known once that step is over: it was given, or the look-up
    after [tr] finds it. *)
Definition userKnown (env : Env) (given : UnixHost.t) (tr : Trace) : bool :=
  negb (UnixHost.User given =? "")%string
  || match user_Current env (tr +> EvUserCurrent) with
     | inl _ => true
     | inr _ => false
     end.

(** /etc/os-release is read through the host when the user is known and the
    supplied kind is "Linux". *)
Definition releaseRead (env : Env) (given : UnixHost.t) (tr : Trace) : list Event :=
  if userKnown env given tr && (UnixHost.OS given =? "Linux")%string
  then [EvHostRunCommand "cat /etc/os-release"] else [].

(** The program of the local process being answered. *)
Definition lastProgram (t : Trace) : string :=
  match last t EvUserCurrent with
  | EvExec name _ _ _ => name
  | _ => ""
  end.

(** What /etc/os-release holds on an Ubuntu machine, in part. *)
Definition ubuntuRelease : string :=
  "NAME=Ubuntu" ++ LF ++ "ID=ubuntu" ++ LF ++ "ID_LIKE=debian" ++ LF.

(** A Linux machine: "uname" prints "Linux", every other local program
    fails, and the host built by [NewHost] reads [ubuntuRelease]. *)
Definition linuxEnv : Env :=
  mkEnv (fun t => if (lastProgram t =? "uname")%string
                  then ("Linux" ++ LF, None)%string else ("", Some exitStatus1))
        (fun _ => inl "operator") (fun _ => inl [1])
        (fun _ => None) (fun _ => None) (fun _ => None) (fun _ => None)
        (fun _ => mkCollected (Some time_Second) "" None) (fun _ => true)
        (fun _ => None) (fun _ => inl 0%Z) (fun _ => None)
        (fun _ => (ubuntuRelease, None)) (fun _ => ("", None))
        (fun _ => None) (fun _ => ("", None)).

(** As [asked_is_suffix], also when nothing was asked. *)
Ltac asked_suffix :=
  eexists; split;
  [first [symmetry; apply app_nil_r
         | simpl; rewrite <- ?app_assoc; simpl; reflexivity]|].

(** Unfolding of the effects, and case analysis on what the collaborators
    answer. *)
Ltac run_in H :=
  cbv beta iota zeta delta
      [RunCommand runCommandInternal runLocalCommand runRemoteCommand getSSHConfig
       Dial DialWith bind call ret defer panic client_Close session_Close file_Close
       selectOutcome CopyFile IsReachable ping sshable
       Legacy.RunCommand fst snd] in H.

Ltac run :=
  cbv beta iota zeta delta
      [RunCommand runCommandInternal runLocalCommand runRemoteCommand getSSHConfig
       Dial DialWith bind call ret defer panic client_Close session_Close file_Close
       selectOutcome CopyFile IsReachable ping sshable
       Legacy.RunCommand fst snd].

Ltac answer_in H :=
  repeat (match type of H with
          | context [match ?x with _ => _ end] =>
              lazymatch x with
              | context [match _ with _ => _ end] => fail
              | _ => destruct x
              end
          end; try discriminate H).

Ltac answer :=
  repeat match goal with
         | |- context [match ?x with _ => _ end] =>
             lazymatch x with
             | context [match _ with _ => _ end] => fail
             | _ => destruct x
             end
         end.

(** * Properties *)

(** ** The string functions on examples *)

Example Fields_spaces : Fields "  apt   list --installed " = ["apt"; "list"; "--installed"].
Proof. reflexivity. Qed.

Example Fields_tabs_and_newlines :
  Fields ("a" ++ bytes [9] ++ "b" ++ LF ++ bytes [13] ++ "c") = ["a"; "b"; "c"].
Proof. reflexivity. Qed.

(** U+00A0 and U+3000 separate fields, the euro sign U+20AC does not. *)
Example Fields_unicode :
  Fields ("a" ++ bytes [194; 160] ++ "b" ++ bytes [227; 128; 128] ++ bytes [226; 130; 172])
  = ["a"; "b"; bytes [226; 130; 172]].
Proof. reflexivity. Qed.

Example Split_slash : Split "a/b//c" "/" = ["a"; "b"; ""; "c"].
Proof. reflexivity. Qed.

Example Split_empty_string : Split "" LF = [""].
Proof. reflexivity. Qed.

Example Split_long_separator : Split "a--b-c--" "--" = ["a"; "b-c"; ""].
Proof. reflexivity. Qed.

Example TrimSpace_uname : TrimSpace ("  Linux " ++ LF) = "Linux".
Proof. reflexivity. Qed.

Example TrimSpace_unicode :
  TrimSpace (bytes [226; 128; 131] ++ "Dar win" ++ bytes [194; 133]) = "Dar win".
Proof. reflexivity. Qed.

Example Contains_examples :
  Contains "sudo: 1 incorrect password attempt" "incorrect password" = true
  /\ Contains "bob is not in the sudoers file." "is not in the sudoers file" = true
  /\ Contains "ID=ubuntu" "ID=debian" = false
  /\ Contains "" "" = true.
Proof. repeat split. Qed.

Example parseUpdates_lines :
  parseUpdates ("foo 1.0" ++ LF ++ "bar" ++ LF ++ "a b c")
  = [mkUpdate "foo" "1.0"; mkUpdate "a" "b"].
Proof. reflexivity. Qed.

(** [strings.Split] with a separator always returns at least one string, so
    [strings.Split(parts[0], "/")[0]] exists. *)
Lemma Split_not_empty (s sep : string) : sep <> "" -> Split s sep <> [].
Proof.
  intros Hsep. destruct sep as [|c sep']; [contradiction|]. unfold Split.
  generalize 0 as skip. generalize "" as cur.
  induction s as [|a s IH]; intros cur skip; simpl; [discriminate|].
  destruct skip as [|k]; [|apply IH].
  destruct (Ascii.eqb c a && HasPrefix s sep'); [discriminate | apply IH].
Qed.

(** ** The Debian-family parser *)

(** On one line without line feed the parser looks at that line only. *)
Lemma Fields_documentedLine :
  Fields documentedLine = ["foo/xenial"; "2.0.1"; "amd64"; "[upgradable"; "from:"; "1.9.3]"].
Proof. reflexivity. Qed.

(** A line whose fifth field is the marker is turned into a record. *)
Lemma parseAptUpdates_fifth_field :
  parseAptUpdates "foo/xenial 2.0.1 amd64 now [upgradable from: 1.9.3]"
  = [mkUpdate "foo" "2.0.1"].
Proof. reflexivity. Qed.

(** C1: for the line "foo/xenial 2.0.1 amd64 [upgradable from: 1.9.3]" the
    Debian-family parser is said to yield the one record (foo, 2.0.1).  The
    code compares the fifth field, which is "from:", with the marker
    "[upgradable", which is the fourth: it yields no record for this line.
    For "not a valid line" it yields no record either, without an error. *)
Theorem parseAptUpdates_documented_line_dropped :
  parseAptUpdates documentedLine = []
  /\ nth_error (Fields documentedLine) 3 = Some "[upgradable"
  /\ nth_error (Fields documentedLine) 4 = Some "from:"
  /\ parseAptUpdates documentedLine <> [mkUpdate "foo" "2.0.1"]
  /\ parseAptUpdates "not a valid line" = [].
Proof.
  repeat split; try reflexivity.
  vm_compute. discriminate.
Qed.

(** ** The drivers *)

(** When the refresh succeeds the listing follows it, without escalation. *)
Lemma Apt_CheckOSUpdates_order (env : Env) (e : CommandExecutor) (host : UnixHost.t)
      (tr : Trace) (out : string) :
  executor_RunCommand env (tr +> EvRunCommand e "apt update" (sudo true)) = (out, None) ->
  snd (Apt.CheckOSUpdates env (Some e) host tr)
  = tr +> EvRunCommand e "apt update" (sudo true)
       +> EvRunCommand e "apt list --upgradable" (sudo false).
Proof.
  intros Hrefresh.
  unfold Apt.CheckOSUpdates, Executor_RunCommand, bind, call.
  rewrite Hrefresh.
  destruct (executor_RunCommand env (_ +> EvRunCommand e "apt list --upgradable" _))
    as [output [err|]]; reflexivity.
Qed.

(** C4: when the refresh step of the Debian-family check-updates fails, the
    claim has the failure returned to the caller.  The code calls
    [log.Fatalf] first: the process exits with status 1, nothing is
    returned, and the [return] of the wrapped error is never reached.  The
    listing step is not run and the refresh is not tried again. *)
Theorem Apt_CheckOSUpdates_refresh_failure_exits
        (env : Env) (e : CommandExecutor) (host : UnixHost.t) (tr : Trace)
        (out : string) (err : error) :
  executor_RunCommand env (tr +> EvRunCommand e "apt update" (sudo true)) = (out, Some err) ->
  Apt.CheckOSUpdates env (Some e) host tr
  = (Exit 1%Z, tr +> EvRunCommand e "apt update" (sudo true)).
Proof.
  intros Hrefresh.
  unfold Apt.CheckOSUpdates, Executor_RunCommand, bind, call, log_Fatalf.
  rewrite Hrefresh. reflexivity.
Qed.

Lemma Apt_CheckOSUpdates_refresh_failure_exits_witness :
  Apt.CheckOSUpdates failingExecEnv (Some DefaultCommandExecutor) localhost []
  = (Exit 1%Z, [EvRunCommand DefaultCommandExecutor "apt update" (sudo true)]).
Proof.
  apply (@Apt_CheckOSUpdates_refresh_failure_exits failingExecEnv DefaultCommandExecutor
           localhost [] "" exitStatus1).
  reflexivity.
Defined.

(** C9: for every host, whatever its escalation password, UpgradeAll of the
    Homebrew driver issues one command, "brew upgrade", with the escalation
    flag unset (and none at all when the driver has no executor). *)
Theorem Brew_UpgradeAll_never_escalates
        (env : Env) (pm : option CommandExecutor) (host : UnixHost.t) (tr : Trace) :
  snd (Brew.UpgradeAll env pm host tr)
  = tr ++ match pm with
          | Some e => [EvRunCommand e "brew upgrade" (CommandOptions.mk false "")]
          | None => []
          end.
Proof.
  unfold Brew.UpgradeAll, Executor_RunCommand, bind, call, panic.
  destruct pm as [e|]; simpl.
  - destruct (executor_RunCommand env _) as [output [err|]]; reflexivity.
  - now rewrite app_nil_r.
Qed.

(** ** File copy *)

Lemma isLocal_true (h : UnixHost.t) :
  Hostname h = "localhost" \/ Hostname h = "127.0.0.1" -> isLocal h = true.
Proof.
  unfold isLocal. intros [-> | ->]; reflexivity.
Qed.

Lemma isLocal_false (h : UnixHost.t) :
  Hostname h <> "localhost" -> Hostname h <> "127.0.0.1" -> isLocal h = false.
Proof.
  unfold isLocal. intros H1 H2.
  apply String.eqb_neq in H1. apply String.eqb_neq in H2.
  now rewrite H1, H2.
Qed.

(** C7: on a host whose address is "localhost" or "127.0.0.1" CopyFile
    returns the same-host error for every local and remote path, and nothing
    has been asked of the file system or the network when it does. *)
Theorem CopyFile_same_host_refused
        (env : Env) (h : UnixHost.t) (localPath remotePath : string) (tr : Trace) :
  Hostname h = "localhost" \/ Hostname h = "127.0.0.1" ->
  CopyFile env h localPath remotePath tr = (Ret (Some SameHostError), tr).
Proof.
  intros Hlocal. unfold CopyFile.
  now rewrite (isLocal_true h Hlocal).
Qed.

Lemma CopyFile_same_host_refused_witness :
  CopyFile quietEnv loopback "/etc/motd" "/tmp/motd" [] = (Ret (Some SameHostError), []).
Proof.
  apply (@CopyFile_same_host_refused quietEnv loopback "/etc/motd" "/tmp/motd" []).
  right. reflexivity.
Defined.

(** ** Reachability probe *)

Lemma ping_answer (env : Env) (h : UnixHost.t) (tr : Trace) :
  ping env h tr
  = (Ret match snd (exec_answer env (tr +> pingEvent h)) with
         | Some cause => Some (Errorf_v "ping test failed: " cause)
         | None => None
         end, tr +> pingEvent h).
Proof.
  unfold ping, bind, call, pingEvent.
  destruct (exec_answer env _) as [out [cause|]]; reflexivity.
Qed.

(** The two phases wrap their causes under different texts. *)
Lemma ping_error_not_ssh_error (c1 c2 : error) :
  Errorf_v "ping test failed: " c1 <> Errorf_v "SSH test failed: " c2.
Proof. unfold Errorf_v. simpl. discriminate. Qed.

(** C6: on a host whose address is "localhost" or "127.0.0.1" IsReachable
    succeeds and asks nothing of its collaborators.  On every other host it
    succeeds exactly when the ping succeeds and then the SSH configuration
    is built, the dial succeeds and the client is closed; a failed ping ends
    the probe at once with an error that differs from the one a failed dial
    gives. *)
Theorem IsReachable_two_phases (env : Env) (h : UnixHost.t) (tr : Trace) :
  (Hostname h = "localhost" \/ Hostname h = "127.0.0.1" ->
   IsReachable env h tr = (Ret None, tr))
  /\ (Hostname h <> "localhost" -> Hostname h <> "127.0.0.1" ->
      (forall tr',
          IsReachable env h tr = (Ret None, tr') <->
          snd (exec_answer env (tr +> pingEvent h)) = None
          /\ exists config tr1 tr2,
              getSSHConfig env h (tr +> pingEvent h) = (Ret (inl config), tr1)
              /\ DialWith env (UnixHost.SSHClient h) "tcp" (sshAddr h) config fiveSeconds tr1
                 = (Ret None, tr2)
              /\ tr' = tr2 +> EvClientClose)
      /\ (forall cause,
             snd (exec_answer env (tr +> pingEvent h)) = Some cause ->
             IsReachable env h tr
             = (Ret (Some (Errorf_v "ping test failed: " cause)), tr +> pingEvent h))
      /\ (forall config tr1 tr2 cause,
             snd (exec_answer env (tr +> pingEvent h)) = None ->
             getSSHConfig env h (tr +> pingEvent h) = (Ret (inl config), tr1) ->
             DialWith env (UnixHost.SSHClient h) "tcp" (sshAddr h) config fiveSeconds tr1
             = (Ret (Some cause), tr2) ->
             IsReachable env h tr
             = (Ret (Some (Errorf_v "SSH test failed: " cause)), tr2))
      /\ (forall c1 c2,
             Errorf_v "ping test failed: " c1 <> Errorf_v "SSH test failed: " c2)).
Proof.
  split.
  - intros Hlocal. unfold IsReachable. now rewrite (isLocal_true h Hlocal).
  - intros H1 H2. pose proof (isLocal_false h H1 H2) as Hremote.
    assert (Hstep : IsReachable env h tr
                    = match snd (exec_answer env (tr +> pingEvent h)) with
                      | Some cause =>
                          (Ret (Some (Errorf_v "ping test failed: " cause)), tr +> pingEvent h)
                      | None => sshable env h (tr +> pingEvent h)
                      end).
    { unfold IsReachable. rewrite Hremote. unfold bind. rewrite ping_answer.
      destruct (snd (exec_answer env _)); reflexivity. }
    assert (Hssh : forall t, sshable env h t
                   = match getSSHConfig env h t with
                     | (Ret (inl config), tr1) =>
                         match DialWith env (UnixHost.SSHClient h) "tcp" (sshAddr h)
                                        config fiveSeconds tr1 with
                         | (Ret None, tr2) => (Ret None, tr2 +> EvClientClose)
                         | (Ret (Some cause), tr2) =>
                             (Ret (Some (Errorf_v "SSH test failed: " cause)), tr2)
                         | (Panic msg, tr2) => (Panic msg, tr2)
                         | (Exit code, tr2) => (Exit code, tr2)
                         end
                     | (Ret (inr err), tr1) => (Ret (Some err), tr1)
                     | (Panic msg, tr1) => (Panic msg, tr1)
                     | (Exit code, tr1) => (Exit code, tr1)
                     end).
    { intros t. unfold sshable. rewrite Hremote. unfold bind, sshAddr, fiveSeconds.
      destruct (getSSHConfig env h t) as [[[config|err]|msg|code] tr1]; try reflexivity.
      destruct (DialWith env _ _ _ _ _ tr1) as [[[cause|]|msg|code] tr2]; reflexivity. }
    repeat split.
    + rewrite Hstep in H. destruct (snd (exec_answer env _)); [discriminate|reflexivity].
    + rewrite Hstep in H.
      destruct (snd (exec_answer env _)); [discriminate|].
      rewrite Hssh in H.
      destruct (getSSHConfig env h _) as [[[config|err]|msg|code] tr1]; try discriminate.
      exists config, tr1.
      destruct (DialWith env _ _ _ _ _ tr1) as [[[cause|]|msg|code] tr2]; try discriminate.
      exists tr2. repeat split. now inversion H.
    + intros [Hping (config & tr1 & tr2 & Hcfg & Hdial & ->)].
      rewrite Hstep, Hping, Hssh, Hcfg, Hdial. reflexivity.
    + intros cause Hping. rewrite Hstep, Hping. reflexivity.
    + intros config tr1 tr2 cause Hping Hcfg Hdial.
      rewrite Hstep, Hping, Hssh, Hcfg, Hdial. reflexivity.
    + apply ping_error_not_ssh_error.
Qed.

Lemma IsReachable_two_phases_witness :
  IsReachable quietEnv localhost [] = (Ret None, [])
  /\ IsReachable quietEnv remoteHost []
     = (Ret None,
        [pingEvent remoteHost; EvReadPrivateKeys AgentSSHKeyManager "";
         EvNetDialTimeout "tcp" "build01:22" fiveSeconds;
         EvNewClientConn "build01:22"
           (clientConfig remoteHost (ssh_PublicKeysCallback [1]));
         EvClientClose])
  /\ IsReachable failingExecEnv remoteHost []
     = (Ret (Some (Errorf_v "ping test failed: " exitStatus1)),
        [pingEvent remoteHost])
  /\ IsReachable refusedEnv remoteHost []
     = (Ret (Some (Errorf_v "SSH test failed: " (foreignError "connection refused"))),
        [pingEvent remoteHost; EvReadPrivateKeys AgentSSHKeyManager "";
         EvNetDialTimeout "tcp" "build01:22" fiveSeconds]).
Proof.
  assert (Hname1 : Hostname remoteHost <> "localhost") by (vm_compute; discriminate).
  assert (Hname2 : Hostname remoteHost <> "127.0.0.1") by (vm_compute; discriminate).
  split; [|split; [|split]].
  - apply (proj1 (IsReachable_two_phases quietEnv localhost [])).
    left. reflexivity.
  - destruct (proj2 (IsReachable_two_phases quietEnv remoteHost []) Hname1 Hname2)
      as [Hiff _].
    apply Hiff. split; [reflexivity|].
    exists (clientConfig remoteHost (ssh_PublicKeysCallback [1])).
    exists [pingEvent remoteHost; EvReadPrivateKeys AgentSSHKeyManager ""].
    exists [pingEvent remoteHost; EvReadPrivateKeys AgentSSHKeyManager "";
            EvNetDialTimeout "tcp" "build01:22" fiveSeconds;
            EvNewClientConn "build01:22"
              (clientConfig remoteHost (ssh_PublicKeysCallback [1]))].
    repeat split; reflexivity.
  - destruct (proj2 (IsReachable_two_phases failingExecEnv remoteHost []) Hname1 Hname2)
      as (_ & Hping & _).
    apply Hping. reflexivity.
  - destruct (proj2 (IsReachable_two_phases refusedEnv remoteHost []) Hname1 Hname2)
      as (_ & _ & Hdial & _).
    apply (Hdial (clientConfig remoteHost (ssh_PublicKeysCallback [1]))
                 [pingEvent remoteHost; EvReadPrivateKeys AgentSSHKeyManager ""]);
      reflexivity.
Defined.

(** ** Authentication *)

Lemma eqb_empty_false (s : string) : s <> "" -> (s =? "")%string = false.
Proof. apply String.eqb_neq. Qed.

(** The remote branch of host.go's RunCommand: the method it selects, and
    the one dial it makes with it. *)
Lemma Legacy_RunCommand_dial
      (env : Env) (h : Legacy.UnixHost.t) (cmd : string) (tr : Trace) :
  Legacy.UnixHost.Hostname h <> "localhost" ->
  Legacy.UnixHost.Hostname h <> "127.0.0.1" ->
  (Legacy.UnixHost.Password h <> "" ->
   exists rest,
     snd (Legacy.RunCommand env h cmd tr)
     = (tr +> legacyDialEvent h (ssh_Password (Legacy.UnixHost.Password h))) ++ rest
     /\ forallb (fun ev => negb (isAuth ev)) rest = true)
  /\ (Legacy.UnixHost.Password h = "" ->
      let passphrase := Legacy.UnixHost.KeyPassphrase h in
      let tr1 := tr +> EvReadPrivateKeys (keyManagerFor passphrase) passphrase in
      match ReadPrivateKeys env tr1 with
      | inl keys =>
          exists rest,
            snd (Legacy.RunCommand env h cmd tr)
            = (tr1 +> legacyDialEvent h (ssh_PublicKeysCallback keys)) ++ rest
            /\ forallb (fun ev => negb (isAuth ev)) rest = true
      | inr err => Legacy.RunCommand env h cmd tr = (Ret ("", Some err), tr1)
      end).
Proof.
  intros H1 H2. unfold Legacy.RunCommand, legacyDialEvent, keyManagerFor.
  apply String.eqb_neq in H1. apply String.eqb_neq in H2. rewrite H1, H2.
  cbv beta iota zeta delta [orb bind call defer ret].
  split.
  - intros Hpw. rewrite (eqb_empty_false Hpw). cbv beta iota delta [negb].
    destruct (legacy_Dial env _) as [?|].
    + exists []. split; [symmetry; apply app_nil_r | reflexivity].
    + destruct (client_NewSession env _) as [?|].
      * exists [EvNewSession; EvClientClose].
        split; [cbn [snd]; rewrite <- !app_assoc; reflexivity | reflexivity].
      * destruct (legacy_CombinedOutput env _) as [output [?|]];
          (exists [EvNewSession; EvLegacyCombinedOutput cmd; EvSessionClose; EvClientClose];
           split; [cbn [snd]; rewrite <- !app_assoc; reflexivity | reflexivity]).
  - intros Hpw. rewrite Hpw. cbn [String.eqb negb].
    destruct (Legacy.UnixHost.KeyPassphrase h =? "")%string;
      cbv beta iota zeta delta [negb];
      (destruct (ReadPrivateKeys env _) as [keys|err]; [|reflexivity]);
      (destruct (legacy_Dial env _) as [?|];
       [exists []; split; [symmetry; apply app_nil_r | reflexivity]|]);
      (destruct (client_NewSession env _) as [?|];
       [exists [EvNewSession; EvClientClose];
        split; [cbn [snd]; rewrite <- !app_assoc; reflexivity | reflexivity]|]);
      destruct (legacy_CombinedOutput env _) as [output [?|]];
      (exists [EvNewSession; EvLegacyCombinedOutput cmd; EvSessionClose; EvClientClose];
       split; [cbn [snd]; rewrite <- !app_assoc; reflexivity | reflexivity]).
Qed.

(** C5: a session configuration that is built has exactly one authentication
    method.  A non-empty password gives password authentication and no key
    manager is consulted, whatever the passphrase.  With an empty password a
    non-empty passphrase consults the file key manager only, an empty one
    the agent key manager only; the keys read become the single public-key
    method, and when the reading fails the error is returned and no other
    method is tried.  The earlier RunCommand of host.go selects in the same
    way: with a password its first step is the dial, with the password as
    the only method; without one it reads the keys from the key manager the
    passphrase selects and then dials with exactly the keys read as the only
    method, or returns the error of the reading without dialling; after the
    dial it reads no keys and dials no more. *)
Theorem getSSHConfig_single_method (env : Env) (h : UnixHost.t) (tr : Trace) :
  (forall config tr',
      getSSHConfig env h tr = (Ret (inl config), tr') ->
      length (ClientConfig.Auth config) = 1)
  /\ (UnixHost.Password h <> "" ->
      getSSHConfig env h tr
      = (Ret (inl (ClientConfig.mk (UnixHost.User h) [ssh_Password (UnixHost.Password h)]
                                   ssh_InsecureIgnoreHostKey)), tr))
  /\ (UnixHost.Password h = "" -> UnixHost.KeyPassphrase h <> "" ->
      let tr1 := tr +> EvReadPrivateKeys FileSSHKeyManager (UnixHost.KeyPassphrase h) in
      getSSHConfig env h tr
      = (match ReadPrivateKeys env tr1 with
         | inl keys =>
             Ret (inl (ClientConfig.mk (UnixHost.User h) [ssh_PublicKeysCallback keys]
                                       ssh_InsecureIgnoreHostKey))
         | inr err => Ret (inr err)
         end, tr1))
  /\ (UnixHost.Password h = "" -> UnixHost.KeyPassphrase h = "" ->
      let tr1 := tr +> EvReadPrivateKeys AgentSSHKeyManager "" in
      getSSHConfig env h tr
      = (match ReadPrivateKeys env tr1 with
         | inl keys =>
             Ret (inl (ClientConfig.mk (UnixHost.User h) [ssh_PublicKeysCallback keys]
                                       ssh_InsecureIgnoreHostKey))
         | inr err => Ret (inr err)
         end, tr1))
  /\ (forall (old : Legacy.UnixHost.t) (cmd : string),
         Legacy.UnixHost.Hostname old <> "localhost" ->
         Legacy.UnixHost.Hostname old <> "127.0.0.1" ->
         (Legacy.UnixHost.Password old <> "" ->
          exists rest,
            snd (Legacy.RunCommand env old cmd tr)
            = (tr +> legacyDialEvent old (ssh_Password (Legacy.UnixHost.Password old)))
                ++ rest
            /\ forallb (fun ev => negb (isAuth ev)) rest = true)
         /\ (Legacy.UnixHost.Password old = "" ->
             let passphrase := Legacy.UnixHost.KeyPassphrase old in
             let tr1 := tr +> EvReadPrivateKeys (keyManagerFor passphrase) passphrase in
             match ReadPrivateKeys env tr1 with
             | inl keys =>
                 exists rest,
                   snd (Legacy.RunCommand env old cmd tr)
                   = (tr1 +> legacyDialEvent old (ssh_PublicKeysCallback keys)) ++ rest
                   /\ forallb (fun ev => negb (isAuth ev)) rest = true
             | inr err => Legacy.RunCommand env old cmd tr = (Ret ("", Some err), tr1)
             end)).
Proof.
  split; [|split; [|split; [|split]]];
    [| | | | intros old cmd; apply Legacy_RunCommand_dial].
  all: unfold getSSHConfig, bind, call, ret, clientConfig.
  - intros config tr'.
    destruct (UnixHost.Password h =? "")%string; simpl.
    + destruct (ReadPrivateKeys env _) as [keys|err]; intros H; inversion H; reflexivity.
    + intros H; inversion H; reflexivity.
  - intros Hpw. now rewrite (eqb_empty_false Hpw).
  - intros Hpw Hpp. rewrite Hpw, (eqb_empty_false Hpp). simpl.
    destruct (ReadPrivateKeys env _) as [keys|err]; reflexivity.
  - intros Hpw Hpp. rewrite Hpw, Hpp. simpl.
    destruct (ReadPrivateKeys env _) as [keys|err]; reflexivity.
Qed.


Lemma getSSHConfig_single_method_witness :
  getSSHConfig quietEnv passwordHost []
  = (Ret (inl (ClientConfig.mk "operator" [ssh_Password "s3cret"]
                               ssh_InsecureIgnoreHostKey)), [])
  /\ getSSHConfig quietEnv passphraseHost []
     = (Ret (inl (ClientConfig.mk "operator" [ssh_PublicKeysCallback [1]]
                                  ssh_InsecureIgnoreHostKey)),
        [EvReadPrivateKeys FileSSHKeyManager "opensesame"])
  /\ getSSHConfig quietEnv remoteHost []
     = (Ret (inl (ClientConfig.mk "operator" [ssh_PublicKeysCallback [1]]
                                  ssh_InsecureIgnoreHostKey)),
        [EvReadPrivateKeys AgentSSHKeyManager ""])
  /\ length (ClientConfig.Auth (clientConfig remoteHost (ssh_PublicKeysCallback [1]))) = 1
  /\ (exists rest,
        snd (Legacy.RunCommand quietEnv legacyRemote "uname" [])
        = [EvLegacyDial "tcp" "build01:22"
             (ClientConfig.mk "operator" [ssh_Password "s3cret"] ssh_InsecureIgnoreHostKey)]
            ++ rest
        /\ forallb (fun ev => negb (isAuth ev)) rest = true)
  /\ (exists rest,
        snd (Legacy.RunCommand quietEnv legacyKeyHost "uname" [])
        = [EvReadPrivateKeys FileSSHKeyManager "opensesame";
           EvLegacyDial "tcp" "build02:22"
             (ClientConfig.mk "operator" [ssh_PublicKeysCallback [1]]
                              ssh_InsecureIgnoreHostKey)]
            ++ rest
        /\ forallb (fun ev => negb (isAuth ev)) rest = true)
  /\ Legacy.RunCommand noKeysEnv legacyKeyHost "uname" []
     = (Ret ("", Some noKeys), [EvReadPrivateKeys FileSSHKeyManager "opensesame"]).
Proof.
  split; [|split; [|split; [|split; [|split; [|split]]]]].
  - apply (proj1 (proj2 (getSSHConfig_single_method quietEnv passwordHost []))).
    vm_compute. discriminate.
  - apply (proj1 (proj2 (proj2 (getSSHConfig_single_method quietEnv passphraseHost [])))).
    + reflexivity.
    + vm_compute. discriminate.
  - apply (proj1 (proj2 (proj2 (proj2
             (getSSHConfig_single_method quietEnv remoteHost []))))); reflexivity.
  - apply (proj1 (getSSHConfig_single_method quietEnv remoteHost [])
                 (clientConfig remoteHost (ssh_PublicKeysCallback [1]))
                 [EvReadPrivateKeys AgentSSHKeyManager ""]).
    reflexivity.
  - refine (proj1 (proj2 (proj2 (proj2 (proj2
              (getSSHConfig_single_method quietEnv remoteHost []))))
              legacyRemote "uname" _ _) _); vm_compute; discriminate.
  - refine (proj2 (proj2 (proj2 (proj2 (proj2
              (getSSHConfig_single_method quietEnv remoteHost []))))
              legacyKeyHost "uname" _ _) _); [| |reflexivity]; vm_compute; discriminate.
  - refine (proj2 (proj2 (proj2 (proj2 (proj2
              (getSSHConfig_single_method noKeysEnv remoteHost []))))
              legacyKeyHost "uname" _ _) _); [| |reflexivity]; vm_compute; discriminate.
Defined.

(** ** Remote execution: the race with the deadline *)

Lemma selectOutcome_timer (env : Env) (timeout : Z) (c : Collected) (tr : Trace) :
  outlasts c timeout ->
  selectOutcome env timeout c tr = (Ret FromTimer, tr +> EvSelect timeout).
Proof.
  unfold outlasts, selectOutcome. destruct (took c) as [d|]; [|reflexivity].
  intros Hlate.
  assert (Hge : (d <? timeout)%Z = false) by (apply Z.ltb_ge; lia).
  assert (Hlt : (timeout <? d)%Z = true) by (apply Z.ltb_lt; lia).
  now rewrite Hge, Hlt.
Qed.

Lemma selectOutcome_ready (env : Env) (timeout d : Z) (c : Collected) (tr : Trace) :
  took c = Some d -> (d < timeout)%Z ->
  selectOutcome env timeout c tr
  = (Ret match collectErr c with
         | Some e => FromErrCh e
         | None => FromOutputCh (collected c)
         end, tr +> EvSelect d).
Proof.
  unfold selectOutcome. intros -> Hearly.
  apply Z.ltb_lt in Hearly. now rewrite Hearly.
Qed.

(** Once the session is open, the remote path is the collection of the
    output, the race, and the two deferred closes. *)
Lemma runRemoteCommand_opened (env : Env) (h : UnixHost.t) (cmd : string)
      (useSudo : bool) (sudoPassword : string) (tr tr2 : Trace) :
  sessionOpened env h tr tr2 ->
  let stdin := if useSudo && negb (sudoPassword =? "")%string
               then Some (sudoPassword ++ LF)%string else None in
  let tr3 := tr2 +> EvNewSession +> EvGoCombinedOutput cmd stdin in
  forall s tr4,
    selectOutcome env fiveSeconds (session_CombinedOutput env tr3) tr3 = (Ret s, tr4) ->
    runRemoteCommand env h cmd useSudo sudoPassword tr
    = (Ret match s with
           | FromOutputCh outputStr =>
               if Contains outputStr "incorrect password"
               then ("", Some IncorrectSudoPassword)
               else if Contains outputStr "is not in the sudoers file"
                    then ("", Some NotInSudoers)
                    else (outputStr, None)
           | FromErrCh err => ("", Some err)
           | FromTimer => ("", Some TimeoutError)
           end, tr4 +> EvSessionClose +> EvClientClose).
Proof.
  intros (c & config & tr1 & Hclient & Hconfig & Hdial & Hsession) stdin tr3 s tr4 Hselect.
  unfold runRemoteCommand. rewrite Hclient.
  unfold bind at 1. rewrite Hconfig.
  unfold bind at 1. unfold sshAddr, fiveSeconds in Hdial. rewrite Hdial.
  unfold defer, bind, call, client_Close, session_Close.
  rewrite Hsession.
  fold stdin. fold tr3. fold fiveSeconds. rewrite Hselect.
  destruct s as [outputStr|err|]; simpl; try reflexivity.
  destruct (Contains outputStr "incorrect password"); [reflexivity|].
  destruct (Contains outputStr "is not in the sudoers file"); reflexivity.
Qed.

(** C3: on a remote host, once the session is open, a command whose output
    is still being collected when the five seconds of [timeout] have passed
    makes RunCommand return the time-out error with empty output.  The wait
    ends at the deadline, which is before the collection ends, and whatever
    the collection returns later is not part of the result. *)
Theorem RunCommand_timeout
        (env : Env) (h : UnixHost.t) (cmd : string) (options : CommandOptions.t)
        (tr tr2 : Trace) :
  Hostname h <> "localhost" -> Hostname h <> "127.0.0.1" ->
  sessionOpened env h tr tr2 ->
  let useSudo := CommandOptions.UseSudo options in
  let sent := if useSudo then ("sudo -S " ++ cmd)%string else cmd in
  let tr3 := tr2 +> EvNewSession +> EvGoCombinedOutput sent (sessionStdin h useSudo) in
  outlasts (session_CombinedOutput env tr3) fiveSeconds ->
  RunCommand env h cmd options tr
  = (Ret ("", Some TimeoutError),
     tr3 +> EvSelect fiveSeconds +> EvSessionClose +> EvClientClose)
  /\ fiveSeconds = 5000000000%Z.
Proof.
  intros H1 H2 Hopen useSudo sent tr3 Hlate.
  split; [|reflexivity].
  unfold RunCommand, runCommandInternal. rewrite (isLocal_false h H1 H2).
  fold useSudo. fold sent.
  assert (Hsel := @selectOutcome_timer env fiveSeconds _ tr3 Hlate).
  subst tr3 sent. destruct useSudo.
  - exact (@runRemoteCommand_opened env h _ true (UnixHost.SudoPassword h) tr tr2 Hopen
             FromTimer _ Hsel).
  - exact (@runRemoteCommand_opened env h _ false (CommandOptions.SudoPassword options)
             tr tr2 Hopen FromTimer _ Hsel).
Qed.

Lemma RunCommand_timeout_witness :
  RunCommand slowEnv remoteHost "make world" (CommandOptions.mk true "") []
  = (Ret ("", Some TimeoutError),
     [EvReadPrivateKeys AgentSSHKeyManager "";
      EvNetDialTimeout "tcp" "build01:22" fiveSeconds;
      EvNewClientConn "build01:22" (clientConfig remoteHost (ssh_PublicKeysCallback [1]));
      EvNewSession;
      EvGoCombinedOutput "sudo -S make world" (Some ("hunter2" ++ LF)%string);
      EvSelect fiveSeconds; EvSessionClose; EvClientClose]).
Proof.
  refine (proj1 (@RunCommand_timeout slowEnv remoteHost "make world"
                   (CommandOptions.mk true "") []
                   [EvReadPrivateKeys AgentSSHKeyManager "";
                    EvNetDialTimeout "tcp" "build01:22" fiveSeconds;
                    EvNewClientConn "build01:22"
                      (clientConfig remoteHost (ssh_PublicKeysCallback [1]))]
                   _ _ _ _)).
  - vm_compute. discriminate.
  - vm_compute. discriminate.
  - session_is_open.
  - vm_compute. reflexivity.
Defined.

(** ** Escalation: the scan of the captured output *)

(** The fields of an escalated command start with "sudo" and "-S". *)
Lemma Fields_sudo_prefix (cmd : string) :
  Fields ("sudo -S " ++ cmd) = "sudo" :: "-S" :: Fields cmd.
Proof. destruct cmd; reflexivity. Qed.

(** The local path with escalation and an escalation password. *)
Lemma runLocalCommand_sudo (env : Env) (h : UnixHost.t) (cmd : string) (pw : string)
      (tr : Trace) :
  pw <> "" ->
  let tr1 := tr +> EvExec "sudo" ("-S" :: "sudo" :: "-S" :: Fields cmd)
                          (Some (pw ++ LF)%string) true in
  runLocalCommand env h ("sudo -S " ++ cmd) true pw tr
  = (Ret (let (outputStr, err) := exec_answer env tr1 in
          if Contains outputStr "incorrect password"
          then ("", Some IncorrectSudoPassword)
          else if Contains outputStr "is not in the sudoers file"
               then ("", Some NotInSudoers)
               else match err with
                    | Some e => ("", Some e)
                    | None => (outputStr, None)
                    end), tr1).
Proof.
  intros Hpw tr1. unfold runLocalCommand.
  rewrite Fields_sudo_prefix, (eqb_empty_false Hpw). simpl.
  unfold bind, call. fold tr1.
  destruct (exec_answer env tr1) as [outputStr err].
  destruct (Contains outputStr "incorrect password"); [reflexivity|].
  destruct (Contains outputStr "is not in the sudoers file"); [reflexivity|].
  destruct err; reflexivity.
Qed.

(** The local path with escalation and no escalation password. *)
Lemma runLocalCommand_sudo_no_password (env : Env) (h : UnixHost.t) (cmd : string)
      (tr : Trace) :
  let tr1 := tr +> EvExec "sudo" ("-S" :: Fields cmd) None false in
  runLocalCommand env h ("sudo -S " ++ cmd) true "" tr
  = (Ret (let (out, err) := exec_answer env tr1 in
          match err with
          | Some e => ("", Some e)
          | None => (out, None)
          end), tr1).
Proof.
  intros tr1. unfold runLocalCommand.
  rewrite Fields_sudo_prefix. simpl.
  unfold bind, call. fold tr1.
  destruct (exec_answer env tr1) as [out [e|]]; reflexivity.
Qed.

(** C2: the scan of the captured output is not the same on the two paths.
    With escalation requested, the local path (on a host with an escalation
    password) scans the output before it looks at the error of the command:
    output that contains "incorrect password" gives the incorrect-password
    error, and output that does not but contains "is not in the sudoers
    file" gives the not-in-sudoers error, whatever the exit status.  The
    remote path scans only what arrives on the output channel: when the
    command ends with an error, a non-zero exit status among them, that
    error arrives on the error channel and is returned as it is, whatever
    the output contains.  When the remote command ends without error the
    scan is the one of the local path. *)
Theorem RunCommand_sudo_failed_exit_unscanned
        (env : Env) (cmd : string) (options : CommandOptions.t) (tr : Trace) :
  CommandOptions.UseSudo options = true ->
  (forall h,
      Hostname h = "localhost" \/ Hostname h = "127.0.0.1" ->
      UnixHost.SudoPassword h <> "" ->
      let tr1 := tr +> EvExec "sudo" ("-S" :: "sudo" :: "-S" :: Fields cmd)
                              (Some (UnixHost.SudoPassword h ++ LF)%string) true in
      let outputStr := fst (exec_answer env tr1) in
      (Contains outputStr "incorrect password" = true ->
       RunCommand env h cmd options tr = (Ret ("", Some IncorrectSudoPassword), tr1))
      /\ (Contains outputStr "incorrect password" = false ->
          Contains outputStr "is not in the sudoers file" = true ->
          RunCommand env h cmd options tr = (Ret ("", Some NotInSudoers), tr1)))
  /\ (forall h tr2 d,
         Hostname h <> "localhost" -> Hostname h <> "127.0.0.1" ->
         sessionOpened env h tr tr2 ->
         let tr3 := tr2 +> EvNewSession
                        +> EvGoCombinedOutput ("sudo -S " ++ cmd) (sessionStdin h true) in
         let c := session_CombinedOutput env tr3 in
         let tr4 := tr3 +> EvSelect d +> EvSessionClose +> EvClientClose in
         took c = Some d -> (d < fiveSeconds)%Z ->
         (forall exit,
             collectErr c = Some exit ->
             RunCommand env h cmd options tr = (Ret ("", Some exit), tr4))
         /\ (collectErr c = None ->
             (Contains (collected c) "incorrect password" = true ->
              RunCommand env h cmd options tr = (Ret ("", Some IncorrectSudoPassword), tr4))
             /\ (Contains (collected c) "incorrect password" = false ->
                 Contains (collected c) "is not in the sudoers file" = true ->
                 RunCommand env h cmd options tr = (Ret ("", Some NotInSudoers), tr4)))).
Proof.
  intros Hsudo. unfold RunCommand, runCommandInternal. rewrite Hsudo.
  split.
  - intros h Hlocal Hpw. cbv zeta. rewrite (isLocal_true h Hlocal).
    rewrite (@runLocalCommand_sudo env h cmd _ tr Hpw).
    destruct (exec_answer env _) as [out err]. simpl.
    split.
    + intros ->. reflexivity.
    + intros -> ->. reflexivity.
  - intros h tr2 d H1 H2 Hopen. cbv zeta. intros Htook Hearly.
    rewrite (isLocal_false h H1 H2).
    pose proof (@selectOutcome_ready env fiveSeconds d _
                  (tr2 +> EvNewSession
                       +> EvGoCombinedOutput ("sudo -S " ++ cmd) (sessionStdin h true))
                  Htook Hearly) as Hsel.
    split.
    + intros exit Hexit. rewrite Hexit in Hsel.
      exact (@runRemoteCommand_opened env h ("sudo -S " ++ cmd) true
               (UnixHost.SudoPassword h) tr tr2 Hopen _ _ Hsel).
    + intros Hnil. rewrite Hnil in Hsel.
      rewrite (@runRemoteCommand_opened env h ("sudo -S " ++ cmd) true
                 (UnixHost.SudoPassword h) tr tr2 Hopen _ _ Hsel).
      split.
      * intros ->. reflexivity.
      * intros -> ->. reflexivity.
Qed.

Lemma RunCommand_sudo_failed_exit_unscanned_witness :
  Contains sorry "incorrect password" = true
  /\ RunCommand sorryExitEnv localSudoHost "id" (CommandOptions.mk true "") []
     = (Ret ("", Some IncorrectSudoPassword),
        [EvExec "sudo" ["-S"; "sudo"; "-S"; "id"] (Some ("hunter2" ++ LF)%string) true])
  /\ RunCommand sorryExitEnv remoteHost "id" (CommandOptions.mk true "") []
     = (Ret ("", Some exitStatus1),
        [EvReadPrivateKeys AgentSSHKeyManager "";
         EvNetDialTimeout "tcp" "build01:22" fiveSeconds;
         EvNewClientConn "build01:22" (clientConfig remoteHost (ssh_PublicKeysCallback [1]));
         EvNewSession;
         EvGoCombinedOutput "sudo -S id" (Some ("hunter2" ++ LF)%string);
         EvSelect time_Second; EvSessionClose; EvClientClose])
  /\ exitStatus1 <> IncorrectSudoPassword
  /\ RunCommand sorryEnv remoteHost "id" (CommandOptions.mk true "") []
     = (Ret ("", Some IncorrectSudoPassword),
        [EvReadPrivateKeys AgentSSHKeyManager "";
         EvNetDialTimeout "tcp" "build01:22" fiveSeconds;
         EvNewClientConn "build01:22" (clientConfig remoteHost (ssh_PublicKeysCallback [1]));
         EvNewSession;
         EvGoCombinedOutput "sudo -S id" (Some ("hunter2" ++ LF)%string);
         EvSelect time_Second; EvSessionClose; EvClientClose])
  /\ RunCommand notAllowedEnv localSudoHost "id" (CommandOptions.mk true "") []
     = (Ret ("", Some NotInSudoers),
        [EvExec "sudo" ["-S"; "sudo"; "-S"; "id"] (Some ("hunter2" ++ LF)%string) true]).
Proof.
  assert (Hname1 : Hostname remoteHost <> "localhost") by (vm_compute; discriminate).
  assert (Hname2 : Hostname remoteHost <> "127.0.0.1") by (vm_compute; discriminate).
  assert (Hpw : UnixHost.SudoPassword localSudoHost <> "") by (vm_compute; discriminate).
  split; [reflexivity|].
  split; [|split; [|split; [discriminate|split]]].
  - apply (proj1 (@RunCommand_sudo_failed_exit_unscanned sorryExitEnv "id"
                    (CommandOptions.mk true "") [] eq_refl) localSudoHost);
      [left; reflexivity | exact Hpw | reflexivity].
  - refine (proj1 (proj2 (@RunCommand_sudo_failed_exit_unscanned sorryExitEnv "id"
                     (CommandOptions.mk true "") [] eq_refl) remoteHost
                     [EvReadPrivateKeys AgentSSHKeyManager "";
                      EvNetDialTimeout "tcp" "build01:22" fiveSeconds;
                      EvNewClientConn "build01:22"
                        (clientConfig remoteHost (ssh_PublicKeysCallback [1]))]
                     time_Second Hname1 Hname2 _ _ _) exitStatus1 _).
    + session_is_open.
    + reflexivity.
    + reflexivity.
    + reflexivity.
  - refine (proj1 (proj2 (proj2 (@RunCommand_sudo_failed_exit_unscanned sorryEnv "id"
                     (CommandOptions.mk true "") [] eq_refl) remoteHost
                     [EvReadPrivateKeys AgentSSHKeyManager "";
                      EvNetDialTimeout "tcp" "build01:22" fiveSeconds;
                      EvNewClientConn "build01:22"
                        (clientConfig remoteHost (ssh_PublicKeysCallback [1]))]
                     time_Second Hname1 Hname2 _ _ _) _) _).
    + session_is_open.
    + reflexivity.
    + reflexivity.
    + reflexivity.
    + reflexivity.
  - apply (proj1 (@RunCommand_sudo_failed_exit_unscanned notAllowedEnv "id"
                    (CommandOptions.mk true "") [] eq_refl) localSudoHost);
      [left; reflexivity | exact Hpw | reflexivity | reflexivity].
Defined.

(** Where else the scan parts from its description.  It is guarded by the
    escalation password on the local path only: on a local host that has
    none, a command run with escalation whose output contains "incorrect
    password" returns that output and no error.  Output that contains "not
    in the sudoers file" without "is" before it is returned as it is.
    Output that contains both phrases gives the incorrect-password error,
    not the other one. *)
Lemma RunCommand_sudo_scan_exceptions :
  (Contains sorry "incorrect password" = true
   /\ RunCommand sorryEnv localhost "id" (CommandOptions.mk true "") []
      = (Ret (sorry, None), [EvExec "sudo" ["-S"; "id"] None false])
   /\ fst (RunCommand sorryEnv localhost "id" (CommandOptions.mk true "") [])
      <> Ret ("", Some IncorrectSudoPassword))
  /\ (Contains terse "not in the sudoers file" = true
      /\ fst (RunCommand terseEnv localSudoHost "id" (CommandOptions.mk true "") [])
         = Ret (terse, None)
      /\ fst (RunCommand terseEnv remoteHost "id" (CommandOptions.mk true "") [])
         = Ret (terse, None))
  /\ (Contains (sorry ++ " " ++ notAllowed) "not in the sudoers file" = true
      /\ fst (RunCommand bothEnv localSudoHost "id" (CommandOptions.mk true "") [])
         = Ret ("", Some IncorrectSudoPassword)
      /\ fst (RunCommand bothEnv remoteHost "id" (CommandOptions.mk true "") [])
         = Ret ("", Some IncorrectSudoPassword)
      /\ IncorrectSudoPassword <> NotInSudoers).
Proof.
  repeat split; try reflexivity; vm_compute; discriminate.
Qed.

(** Where the two paths part: when the command ends with a non-zero exit
    status, the local path scans the output all the same, the remote path
    returns the error of the exit status. *)
Lemma failed_exit_local_and_remote :
  RunCommand sorryExitEnv localSudoHost "id" (CommandOptions.mk true "") []
  = (Ret ("", Some IncorrectSudoPassword),
     [EvExec "sudo" ["-S"; "sudo"; "-S"; "id"] (Some ("hunter2" ++ LF)%string) true])
  /\ fst (RunCommand sorryExitEnv remoteHost "id" (CommandOptions.mk true "") [])
     = Ret ("", Some exitStatus1).
Proof. split; reflexivity. Qed.

(** ** Host construction: the OS kind *)

Lemma newHostSwitch_unsupported (env : Env) (unixHost : UnixHost.t) (tr : Trace) :
  UnixHost.OS unixHost <> "Linux" -> UnixHost.OS unixHost <> "Darwin" ->
  newHostSwitch env unixHost tr = (Ret (None, Some (unsupportedOS (UnixHost.OS unixHost))), tr).
Proof.
  intros H1 H2. unfold newHostSwitch.
  apply String.eqb_neq in H1. apply String.eqb_neq in H2. now rewrite H1, H2.
Qed.

(** What the switch returns is a host of a supported kind and no error, or
    no host and an error. *)
Lemma newHostSwitch_all_or_nothing (env : Env) (unixHost : UnixHost.t) (tr tr' : Trace)
      (host : option Host) (err : option error) :
  newHostSwitch env unixHost tr = (Ret (host, err), tr') ->
  match host, err with
  | Some h, None => hostOS h = "Linux" \/ hostOS h = "Darwin"
  | None, Some _ => True
  | _, _ => False
  end.
Proof.
  unfold newHostSwitch, bind, call, ret, withDefaultExecutor.
  destruct (UnixHost.OS unixHost =? "Linux")%string eqn:Hlinux.
  - apply String.eqb_eq in Hlinux.
    destruct (host_RunCommand env _) as [osRelease ignored].
    intros H. inversion H; subst. left. simpl.
    now destruct (UnixHost.Executor unixHost).
  - destruct (UnixHost.OS unixHost =? "Darwin")%string eqn:Hdarwin.
    + apply String.eqb_eq in Hdarwin.
      intros H. inversion H; subst. right. simpl.
      now destruct (UnixHost.Executor unixHost).
    + intros H. inversion H; subst. exact I.
Qed.

Lemma newHostOS_all_or_nothing (env : Env) (unixHost : UnixHost.t) (tr tr' : Trace)
      (host : option Host) (err : option error) :
  newHostOS env unixHost tr = (Ret (host, err), tr') ->
  match host, err with
  | Some h, None => hostOS h = "Linux" \/ hostOS h = "Darwin"
  | None, Some _ => True
  | _, _ => False
  end.
Proof.
  unfold newHostOS.
  destruct (UnixHost.OS unixHost =? "")%string; [|apply newHostSwitch_all_or_nothing].
  unfold bind.
  destruct (determineOS env unixHost tr) as [[[os [e|]]|msg|code] tr1];
    try discriminate.
  - intros H. inversion H; subst. exact I.
  - apply newHostSwitch_all_or_nothing.
Qed.

Lemma NewHost_all_or_nothing (env : Env) (hostname : string) (options : list HostOption)
      (tr tr' : Trace) (host : option Host) (err : option error) :
  NewHost env hostname options tr = (Ret (host, err), tr') ->
  match host, err with
  | Some h, None => hostOS h = "Linux" \/ hostOS h = "Darwin"
  | None, Some _ => True
  | _, _ => False
  end.
Proof.
  unfold NewHost.
  destruct (UnixHost.User (configured hostname options) =? "")%string;
    [|apply newHostOS_all_or_nothing].
  unfold bind, call.
  destruct (user_Current env _) as [username|e].
  - apply newHostOS_all_or_nothing.
  - intros H. inversion H; subst. exact I.
Qed.

Lemma NewHost_known_user (env : Env) (hostname : string) (options : list HostOption)
      (tr : Trace) (known : UnixHost.t) (tr0 : Trace) :
  userResolved env (configured hostname options) tr known tr0 ->
  NewHost env hostname options tr = newHostOS env known tr0
  /\ UnixHost.OS known = UnixHost.OS (configured hostname options).
Proof.
  unfold NewHost.
  intros [(Huser & -> & ->) | (Huser & username & Hfound & -> & ->)].
  - now rewrite (eqb_empty_false Huser).
  - rewrite Huser. simpl. unfold bind, call. now rewrite Hfound.
Qed.

Lemma Legacy_newHostSwitch_unsupported (env : Env) (host : Legacy.UnixHost.t) (tr : Trace) :
  Legacy.UnixHost.OS host <> "Linux" -> Legacy.UnixHost.OS host <> "Darwin" ->
  Legacy.newHostSwitch env host tr
  = (Ret (None, Some (unsupportedOS (Legacy.UnixHost.OS host))), tr).
Proof.
  intros H1 H2. unfold Legacy.newHostSwitch.
  apply String.eqb_neq in H1. apply String.eqb_neq in H2. now rewrite H1, H2.
Qed.

Lemma Legacy_newHostSwitch_all_or_nothing
      (env : Env) (u : Legacy.UnixHost.t) (tr tr' : Trace)
      (host : option Legacy.Host) (err : option error) :
  Legacy.newHostSwitch env u tr = (Ret (host, err), tr') ->
  match host, err with
  | Some h, None => legacyHostOS h = "Linux" \/ legacyHostOS h = "Darwin"
  | None, Some _ => True
  | _, _ => False
  end.
Proof.
  unfold Legacy.newHostSwitch, bind, ret.
  destruct (Legacy.UnixHost.OS u =? "Linux")%string eqn:Hlinux.
  - apply String.eqb_eq in Hlinux.
    destruct (Legacy.RunCommand env u _ tr) as [[[osRelease ignored]|msg|code] tr1];
      try discriminate.
    destruct (Contains osRelease "ID=ubuntu" || Contains osRelease "ID=debian");
      intros H; inversion H; subst; now left.
  - destruct (Legacy.UnixHost.OS u =? "Darwin")%string eqn:Hdarwin.
    + apply String.eqb_eq in Hdarwin. intros H. inversion H; subst. now right.
    + intros H. inversion H; subst. exact I.
Qed.

Lemma Legacy_NewHost_all_or_nothing
      (env : Env) (hostname : string) (options : list Legacy.HostOption)
      (tr tr' : Trace) (host : option Legacy.Host) (err : option error) :
  Legacy.NewHost env hostname options tr = (Ret (host, err), tr') ->
  match host, err with
  | Some h, None => legacyHostOS h = "Linux" \/ legacyHostOS h = "Darwin"
  | None, Some _ => True
  | _, _ => False
  end.
Proof.
  assert (Hos : forall u t,
             Legacy.newHostOS env u t = (Ret (host, err), tr') ->
             match host, err with
             | Some h, None => legacyHostOS h = "Linux" \/ legacyHostOS h = "Darwin"
             | None, Some _ => True
             | _, _ => False
             end).
  { intros u t. unfold Legacy.newHostOS.
    destruct (Legacy.UnixHost.OS u =? "")%string;
      [|apply Legacy_newHostSwitch_all_or_nothing].
    unfold bind.
    destruct (Legacy.determineOS env u t) as [[[os [e|]]|msg|code] tr1];
      try discriminate.
    - intros H. inversion H; subst. exact I.
    - apply Legacy_newHostSwitch_all_or_nothing. }
  unfold Legacy.NewHost.
  destruct (Legacy.UnixHost.User (Legacy.configured hostname options) =? "")%string;
    [|apply Hos].
  unfold bind, call.
  destruct (user_Current env _) as [username|e].
  - apply Hos.
  - intros H. inversion H; subst. exact I.
Qed.

Lemma Legacy_NewHost_known_user
      (env : Env) (hostname : string) (options : list Legacy.HostOption)
      (tr : Trace) (known : Legacy.UnixHost.t) (tr0 : Trace) :
  legacyUserResolved env (Legacy.configured hostname options) tr known tr0 ->
  Legacy.NewHost env hostname options tr = Legacy.newHostOS env known tr0.
Proof.
  unfold Legacy.NewHost.
  intros [(Huser & -> & ->) | (Huser & username & Hfound & -> & ->)].
  - now rewrite (eqb_empty_false Huser).
  - rewrite Huser. simpl. unfold bind, call. now rewrite Hfound.
Qed.

(** C8, as the code has it: once the user is known (given by an option, or
    found as the current user), an OS kind that is neither "Linux" nor
    "Darwin" -- supplied by an option, or the trimmed output of the probe --
    makes NewHost return the unsupported-operating-system error and no host.
    Whatever happens, NewHost returns either a host of kind "Linux" or
    "Darwin" and no error, or an error and no host.  The same holds for
    NewHost of host.go. *)
Theorem NewHost_unsupported_os
        (env : Env) (hostname : string) (options : list HostOption)
        (oldOptions : list Legacy.HostOption) (tr : Trace) :
  (forall known tr0,
      userResolved env (configured hostname options) tr known tr0 ->
      (UnixHost.OS known <> "" ->
       UnixHost.OS known <> "Linux" -> UnixHost.OS known <> "Darwin" ->
       NewHost env hostname options tr
       = (Ret (None, Some (unsupportedOS (UnixHost.OS known))), tr0))
      /\ (UnixHost.OS known = "" ->
          forall output tr',
            RunCommand env known "uname" (CommandOptions.mk false "") tr0
            = (Ret (output, None), tr') ->
            TrimSpace output <> "Linux" -> TrimSpace output <> "Darwin" ->
            NewHost env hostname options tr
            = (Ret (None, Some (unsupportedOS (TrimSpace output))), tr')))
  /\ (forall host err tr',
         NewHost env hostname options tr = (Ret (host, err), tr') ->
         match host, err with
         | Some h, None => hostOS h = "Linux" \/ hostOS h = "Darwin"
         | None, Some _ => True
         | _, _ => False
         end)
  /\ (forall known tr0,
         legacyUserResolved env (Legacy.configured hostname oldOptions) tr known tr0 ->
         (Legacy.UnixHost.OS known <> "" ->
          Legacy.UnixHost.OS known <> "Linux" -> Legacy.UnixHost.OS known <> "Darwin" ->
          Legacy.NewHost env hostname oldOptions tr
          = (Ret (None, Some (unsupportedOS (Legacy.UnixHost.OS known))), tr0))
         /\ (Legacy.UnixHost.OS known = "" ->
             forall output tr',
               Legacy.RunCommand env known "uname" tr0 = (Ret (output, None), tr') ->
               TrimSpace output <> "Linux" -> TrimSpace output <> "Darwin" ->
               Legacy.NewHost env hostname oldOptions tr
               = (Ret (None, Some (unsupportedOS (TrimSpace output))), tr')))
  /\ (forall host err tr',
         Legacy.NewHost env hostname oldOptions tr = (Ret (host, err), tr') ->
         match host, err with
         | Some h, None => legacyHostOS h = "Linux" \/ legacyHostOS h = "Darwin"
         | None, Some _ => True
         | _, _ => False
         end).
Proof.
  split; [|split; [|split]].
  - intros known tr0 Hknown.
    destruct (@NewHost_known_user env hostname options tr known tr0 Hknown) as [-> _].
    unfold newHostOS. split.
    + intros Hgiven H1 H2. rewrite (eqb_empty_false Hgiven).
      now apply newHostSwitch_unsupported.
    + intros Hempty output tr' Hprobe H1 H2. rewrite Hempty. simpl.
      unfold bind, determineOS. unfold bind at 1. rewrite Hprobe. simpl.
      now apply newHostSwitch_unsupported.
  - intros host err tr'. apply NewHost_all_or_nothing.
  - intros known tr0 Hknown.
    rewrite (@Legacy_NewHost_known_user env hostname oldOptions tr known tr0 Hknown).
    unfold Legacy.newHostOS. split.
    + intros Hgiven H1 H2. rewrite (eqb_empty_false Hgiven).
      now apply Legacy_newHostSwitch_unsupported.
    + intros Hempty output tr' Hprobe H1 H2. rewrite Hempty. simpl.
      unfold bind, Legacy.determineOS. unfold bind at 1. rewrite Hprobe. simpl.
      now apply Legacy_newHostSwitch_unsupported.
  - intros host err tr'. apply Legacy_NewHost_all_or_nothing.
Qed.

Lemma NewHost_unsupported_os_witness :
  NewHost quietEnv "localhost" [WithUser "operator"; WithOS "Plan9"] []
  = (Ret (None, Some (unsupportedOS "Plan9")), [])
  /\ NewHost plan9Env "localhost" [] []
     = (Ret (None, Some (unsupportedOS "Plan9")),
        [EvUserCurrent; EvExec "uname" [] None false])
  /\ Legacy.NewHost quietEnv "localhost" [Legacy.WithUser "operator"; Legacy.WithOS "Plan9"] []
     = (Ret (None, Some (unsupportedOS "Plan9")), [])
  /\ Legacy.NewHost plan9Env "localhost" [] []
     = (Ret (None, Some (unsupportedOS "Plan9")),
        [EvUserCurrent; EvExec "uname" [] None false]).
Proof.
  split; [|split; [|split]].
  - refine (proj1 (proj1 (@NewHost_unsupported_os quietEnv "localhost"
                     [WithUser "operator"; WithOS "Plan9"] [] [])
                     (configured "localhost" [WithUser "operator"; WithOS "Plan9"]) [] _)
                  _ _ _).
    + left. repeat split. vm_compute. discriminate.
    + vm_compute. discriminate.
    + vm_compute. discriminate.
    + vm_compute. discriminate.
  - refine (proj2 (proj1 (@NewHost_unsupported_os plan9Env "localhost" [] [] [])
                     (WithUser "operator" (configured "localhost" [])) [EvUserCurrent] _)
                  _ ("Plan9" ++ LF)%string _ _ _ _).
    + right. split; [reflexivity|]. exists "operator". repeat split.
    + reflexivity.
    + reflexivity.
    + vm_compute. discriminate.
    + vm_compute. discriminate.
  - refine (proj1 (proj1 (proj2 (proj2 (@NewHost_unsupported_os quietEnv "localhost" []
                     [Legacy.WithUser "operator"; Legacy.WithOS "Plan9"] [])))
                     (Legacy.configured "localhost"
                        [Legacy.WithUser "operator"; Legacy.WithOS "Plan9"]) [] _)
                  _ _ _).
    + left. repeat split. vm_compute. discriminate.
    + vm_compute. discriminate.
    + vm_compute. discriminate.
    + vm_compute. discriminate.
  - refine (proj2 (proj1 (proj2 (proj2 (@NewHost_unsupported_os plan9Env "localhost" []
                     [] [])))
                     (Legacy.WithUser "operator" (Legacy.configured "localhost" []))
                     [EvUserCurrent] _)
                  _ ("Plan9" ++ LF)%string _ _ _ _).
    + right. split; [reflexivity|]. exists "operator". repeat split.
    + reflexivity.
    + reflexivity.
    + vm_compute. discriminate.
    + vm_compute. discriminate.
Defined.

(** The user is looked up before the OS kind is examined: with an
    unsupported OS kind supplied and no user, a failed look-up is what
    NewHost reports. *)
Lemma NewHost_user_lookup_fails_first :
  UnixHost.OS (configured "build01" [WithOS "Plan9"]) = "Plan9"
  /\ NewHost noUserEnv "build01" [WithOS "Plan9"] []
     = (Ret (None, Some (Errorf_v "could not get current user: "
                                  (foreignError "user: unknown userid 1001"))),
        [EvUserCurrent])
  /\ Errorf_v "could not get current user: " (foreignError "user: unknown userid 1001")
     <> unsupportedOS "Plan9".
Proof.
  repeat split. vm_compute. discriminate.
Qed.

(** ** The empty command *)

Lemma fieldsFrom_rune (rune rest : string) :
  In rune spaceRunes -> fieldsFrom 0 None (rune ++ rest) = fieldsFrom 0 None rest.
Proof.
  intros Hin. unfold spaceRunes in Hin. simpl in Hin.
  repeat (destruct Hin as [<-|Hin]; [reflexivity|]).
  contradiction.
Qed.

(** A string of white space has no fields. *)
Lemma Fields_WhiteSpaceOnly (s : string) : WhiteSpaceOnly s -> Fields s = [].
Proof.
  unfold Fields. induction 1 as [|rune rest Hin Hrest IH]; [reflexivity|].
  now rewrite (fieldsFrom_rune rest Hin).
Qed.

Lemma byte_is (c : ascii) (n : nat) : byte c = n -> c = ascii_of_nat n.
Proof. intros <-. unfold byte. now rewrite ascii_nat_embedding. Qed.

Lemma rune1 (c0 : ascii) (rest : string) (n0 : nat) :
  byte c0 = n0 -> In (bytes [n0]) spaceRunes ->
  exists rune tail, String c0 rest = (rune ++ tail)%string /\ In rune spaceRunes.
Proof.
  intros H0 Hin. exists (bytes [n0]), rest. split; [|exact Hin].
  simpl. now rewrite (byte_is c0 H0).
Qed.

Lemma rune2 (c0 c1 : ascii) (rest : string) (n0 n1 : nat) :
  byte c0 = n0 -> byte c1 = n1 -> In (bytes [n0; n1]) spaceRunes ->
  exists rune tail,
    String c0 (String c1 rest) = (rune ++ tail)%string /\ In rune spaceRunes.
Proof.
  intros H0 H1 Hin. exists (bytes [n0; n1]), rest. split; [|exact Hin].
  simpl. now rewrite (byte_is c0 H0), (byte_is c1 H1).
Qed.

Lemma rune3 (c0 c1 c2 : ascii) (rest : string) (n0 n1 n2 : nat) :
  byte c0 = n0 -> byte c1 = n1 -> byte c2 = n2 -> In (bytes [n0; n1; n2]) spaceRunes ->
  exists rune tail,
    String c0 (String c1 (String c2 rest)) = (rune ++ tail)%string /\ In rune spaceRunes.
Proof.
  intros H0 H1 H2 Hin. exists (bytes [n0; n1; n2]), rest. split; [|exact Hin].
  simpl. now rewrite (byte_is c0 H0), (byte_is c1 H1), (byte_is c2 H2).
Qed.

(** Where [spaceWidth] finds a rune, the string starts with one of the
    encodings of [spaceRunes]. *)
Lemma spaceWidth_rune (s : string) :
  spaceWidth s <> 0 ->
  exists rune tail, s = (rune ++ tail)%string /\ In rune spaceRunes.
Proof.
  destruct s as [|c0 r0]; [simpl; congruence|].
  lazy beta iota zeta delta [spaceWidth].
  destruct (asciiSpace (byte c0)) eqn:Hascii.
  { intros _. unfold asciiSpace in Hascii.
    apply orb_true_iff in Hascii. destruct Hascii as [Hrange|Hsp].
    - apply andb_true_iff in Hrange. destruct Hrange as [Hlo Hhi].
      apply Nat.leb_le in Hlo. apply Nat.leb_le in Hhi.
      assert (Hn : byte c0 = 9 \/ byte c0 = 10 \/ byte c0 = 11 \/ byte c0 = 12
                   \/ byte c0 = 13) by lia.
      destruct Hn as [H|[H|[H|[H|H]]]]; apply (rune1 c0 r0 H); listed.
    - apply Nat.eqb_eq in Hsp. apply (rune1 c0 r0 Hsp); listed. }
  destruct r0 as [|c1 r1]; [congruence|]. lazy beta iota.
  destruct ((byte c0 =? 194) && ((byte c1 =? 133) || (byte c1 =? 160))) eqn:Htwo.
  { intros _. apply andb_true_iff in Htwo. destruct Htwo as [H0 H1].
    apply Nat.eqb_eq in H0. apply orb_true_iff in H1.
    destruct H1 as [H1|H1]; apply Nat.eqb_eq in H1;
      apply (rune2 c0 c1 r1 H0 H1); listed. }
  destruct r1 as [|c2 r2]; [congruence|]. lazy beta iota.
  destruct ((byte c0 =? 225) && (byte c1 =? 154) && (byte c2 =? 128)) eqn:Hogham.
  { intros _. apply andb_true_iff in Hogham. destruct Hogham as [H01 H2].
    apply andb_true_iff in H01. destruct H01 as [H0 H1].
    apply Nat.eqb_eq in H0. apply Nat.eqb_eq in H1. apply Nat.eqb_eq in H2.
    apply (rune3 c0 c1 c2 r2 H0 H1 H2); listed. }
  destruct ((byte c0 =? 226) && (byte c1 =? 128)
            && ((128 <=? byte c2) && (byte c2 <=? 138)
                || (byte c2 =? 168) || (byte c2 =? 169) || (byte c2 =? 175)))
           eqn:Hgeneral.
  { intros _. apply andb_true_iff in Hgeneral. destruct Hgeneral as [H01 H2].
    apply andb_true_iff in H01. destruct H01 as [H0 H1].
    apply Nat.eqb_eq in H0. apply Nat.eqb_eq in H1.
    assert (Hn : (128 <= byte c2 <= 138) \/ byte c2 = 168 \/ byte c2 = 169
                 \/ byte c2 = 175).
    { repeat (apply orb_true_iff in H2; destruct H2 as [H2|H2]).
      - apply andb_true_iff in H2. destruct H2 as [Hlo Hhi].
        apply Nat.leb_le in Hlo. apply Nat.leb_le in Hhi. left. lia.
      - apply Nat.eqb_eq in H2. tauto.
      - apply Nat.eqb_eq in H2. tauto.
      - apply Nat.eqb_eq in H2. tauto. }
    assert (Hc : byte c2 = 128 \/ byte c2 = 129 \/ byte c2 = 130 \/ byte c2 = 131
                 \/ byte c2 = 132 \/ byte c2 = 133 \/ byte c2 = 134 \/ byte c2 = 135
                 \/ byte c2 = 136 \/ byte c2 = 137 \/ byte c2 = 138 \/ byte c2 = 168
                 \/ byte c2 = 169 \/ byte c2 = 175) by lia.
    repeat (destruct Hc as [Hc|Hc]; [apply (rune3 c0 c1 c2 r2 H0 H1 Hc); listed|]).
    apply (rune3 c0 c1 c2 r2 H0 H1 Hc); listed. }
  destruct ((byte c0 =? 226) && (byte c1 =? 129) && (byte c2 =? 159)) eqn:Hmath.
  { intros _. apply andb_true_iff in Hmath. destruct Hmath as [H01 H2].
    apply andb_true_iff in H01. destruct H01 as [H0 H1].
    apply Nat.eqb_eq in H0. apply Nat.eqb_eq in H1. apply Nat.eqb_eq in H2.
    apply (rune3 c0 c1 c2 r2 H0 H1 H2); listed. }
  destruct ((byte c0 =? 227) && (byte c1 =? 128) && (byte c2 =? 128)) eqn:Hideo.
  { intros _. apply andb_true_iff in Hideo. destruct Hideo as [H01 H2].
    apply andb_true_iff in H01. destruct H01 as [H0 H1].
    apply Nat.eqb_eq in H0. apply Nat.eqb_eq in H1. apply Nat.eqb_eq in H2.
    apply (rune3 c0 c1 c2 r2 H0 H1 H2); listed. }
  congruence.
Qed.

Lemma fieldsFrom_step (skip : nat) (cur : option string) (c : ascii) (r : string) :
  fieldsFrom skip cur (String c r)
  = match skip with
    | S k => fieldsFrom k cur r
    | O => match spaceWidth (String c r) with
           | O => fieldsFrom 0 (push cur c) r
           | S k => flush cur ++ fieldsFrom k None r
           end
    end.
Proof. reflexivity. Qed.

(** Once a field is being read, there is at least one field. *)
Lemma fieldsFrom_field_open (s : string) (skip : nat) (f : string) :
  fieldsFrom skip (Some f) s <> [].
Proof.
  revert skip f. induction s as [|c r IH]; intros skip f; [discriminate|].
  rewrite fieldsFrom_step.
  destruct skip as [|k]; [|apply IH].
  destruct (spaceWidth (String c r)); [apply IH | discriminate].
Qed.

Lemma rune_not_empty (rune : string) : In rune spaceRunes -> 0 < String.length rune.
Proof.
  intros Hin. unfold spaceRunes in Hin. simpl in Hin.
  repeat (destruct Hin as [<-|Hin]; [simpl; lia|]). contradiction.
Qed.

Lemma length_append (a b : string) :
  String.length (a ++ b) = String.length a + String.length b.
Proof. induction a as [|c a IH]; simpl; [reflexivity | now rewrite IH]. Qed.

(** A string has no fields exactly when it is white space only. *)
Lemma Fields_nil_iff (s : string) : Fields s = [] <-> WhiteSpaceOnly s.
Proof.
  split; [|apply Fields_WhiteSpaceOnly].
  unfold Fields.
  remember (String.length s) as n eqn:Hn. revert s Hn.
  induction n as [n IH] using lt_wf_ind. intros s Hn Hnone.
  destruct s as [|c r]; [apply WhiteSpaceOnly_empty|].
  destruct (spaceWidth (String c r)) as [|k] eqn:Hwidth.
  - rewrite fieldsFrom_step, Hwidth in Hnone.
    now apply fieldsFrom_field_open in Hnone.
  - destruct (@spaceWidth_rune (String c r)) as (rune & tail & Heq & Hin);
      [congruence|].
    rewrite Heq in *. rewrite (fieldsFrom_rune tail Hin) in Hnone.
    apply WhiteSpaceOnly_rune; [exact Hin|].
    apply (IH (String.length tail)); [|reflexivity|exact Hnone].
    rewrite Hn, length_append. pose proof (rune_not_empty Hin). lia.
Qed.

(** With a command that has a field, the local path returns. *)
Lemma runLocalCommand_returns (env : Env) (h : UnixHost.t) (cmd : string)
      (useSudo : bool) (sudoPassword : string) (tr : Trace) :
  Fields cmd <> [] ->
  exists r tr', runLocalCommand env h cmd useSudo sudoPassword tr = (Ret r, tr').
Proof.
  intros Hfields. unfold runLocalCommand, bind, call, ret.
  destruct (Fields cmd) as [|head parts]; [contradiction|].
  destruct (useSudo && negb (sudoPassword =? "")%string).
  - destruct (exec_answer env _) as [outputStr err].
    destruct (Contains outputStr "incorrect password"); [eauto|].
    destruct (Contains outputStr "is not in the sudoers file"); [eauto|].
    destruct err; eauto.
  - destruct (exec_answer env _) as [out [e|]]; eauto.
Qed.

(** C10, as the code has it: on a host whose address is "localhost" or
    "127.0.0.1", a command string that is empty or white space only makes
    RunCommand of host.go, runLocalCommand, and RunCommand without
    escalation take the first element of an empty field list: they panic,
    and nothing has been executed.  With escalation RunCommand prefixes the
    command with "sudo -S ", the field list is not empty, and the call
    returns. *)
Theorem RunCommand_empty_command_panics (env : Env) (cmd : string) (tr : Trace) :
  WhiteSpaceOnly cmd ->
  (forall old : Legacy.UnixHost.t,
      Legacy.UnixHost.Hostname old = "localhost"
      \/ Legacy.UnixHost.Hostname old = "127.0.0.1" ->
      Legacy.RunCommand env old cmd tr = (Panic indexOutOfRange, tr))
  /\ (forall h useSudo sudoPassword,
         runLocalCommand env h cmd useSudo sudoPassword tr = (Panic indexOutOfRange, tr))
  /\ (forall h options,
         Hostname h = "localhost" \/ Hostname h = "127.0.0.1" ->
         CommandOptions.UseSudo options = false ->
         RunCommand env h cmd options tr = (Panic indexOutOfRange, tr))
  /\ (forall h options,
         Hostname h = "localhost" \/ Hostname h = "127.0.0.1" ->
         CommandOptions.UseSudo options = true ->
         exists r tr', RunCommand env h cmd options tr = (Ret r, tr')).
Proof.
  intros Hblank. pose proof (Fields_WhiteSpaceOnly Hblank) as Hnone.
  split; [|split; [|split]].
  - intros old Hlocal. unfold Legacy.RunCommand.
    assert (Hl : ((Legacy.UnixHost.Hostname old =? "localhost")%string
                  || (Legacy.UnixHost.Hostname old =? "127.0.0.1")%string) = true)
      by (destruct Hlocal as [-> | ->]; reflexivity).
    now rewrite Hl, Hnone.
  - intros h useSudo sudoPassword. unfold runLocalCommand. now rewrite Hnone.
  - intros h options Hlocal Hplain.
    unfold RunCommand, runCommandInternal.
    rewrite Hplain, (isLocal_true h Hlocal). unfold runLocalCommand. now rewrite Hnone.
  - intros h options Hlocal Hsudo.
    unfold RunCommand, runCommandInternal.
    rewrite Hsudo, (isLocal_true h Hlocal).
    apply runLocalCommand_returns. rewrite Fields_sudo_prefix. discriminate.
Qed.

Lemma RunCommand_empty_command_panics_witness :
  Legacy.RunCommand quietEnv legacyLocal "  " [] = (Panic indexOutOfRange, [])
  /\ runLocalCommand quietEnv localhost "  " true "hunter2" [] = (Panic indexOutOfRange, [])
  /\ RunCommand quietEnv localhost "  " (CommandOptions.mk false "") []
     = (Panic indexOutOfRange, [])
  /\ exists r tr', RunCommand quietEnv localhost "  " (CommandOptions.mk true "") []
                   = (Ret r, tr').
Proof.
  assert (Hblank : WhiteSpaceOnly "  ").
  { apply (@WhiteSpaceOnly_rune " " " ");
      [vm_compute; tauto|].
    apply (@WhiteSpaceOnly_rune " " "");
      [vm_compute; tauto | apply WhiteSpaceOnly_empty]. }
  destruct (@RunCommand_empty_command_panics quietEnv "  " [] Hblank)
    as (Hold & Hlocal & Hplain & Hsudo).
  split; [|split; [|split]].
  - apply Hold. left. reflexivity.
  - apply Hlocal.
  - apply Hplain; [left|]; reflexivity.
  - apply Hsudo; [left|]; reflexivity.
Defined.

(** With escalation the empty command reaches sudo and the call returns. *)
Lemma RunCommand_empty_command_with_sudo_returns :
  WhiteSpaceOnly ""
  /\ Hostname localhost = "localhost"
  /\ RunCommand quietEnv localhost "" (CommandOptions.mk true "") []
     = (Ret ("", None), [EvExec "sudo" ["-S"] None false]).
Proof.
  split; [apply WhiteSpaceOnly_empty|]. split; reflexivity.
Qed.


(** * Further properties *)

Unset Implicit Arguments.

(** ** The parsers, line by line *)

Lemma fold_left_records (g : list Update -> string -> list Update)
      (f : string -> list Update) (lines : list string) (acc : list Update) :
  (forall updates line, g updates line = updates ++ f line) ->
  fold_left g lines acc = acc ++ flat_map f lines.
Proof.
  intros Hg. revert acc. induction lines as [|l lines IH]; intros acc; simpl.
  - now rewrite app_nil_r.
  - now rewrite IH, Hg, app_assoc.
Qed.

Lemma parseAptUpdates_by_line (output : string) :
  parseAptUpdates output = flat_map aptRecords (Split output LF).
Proof.
  unfold parseAptUpdates. rewrite (fold_left_records _ aptRecords); [reflexivity|].
  intros updates line. unfold aptRecords.
  destruct ((length (Fields line) <? 5)
            || negb (at_ (Fields line) 4 =? "[upgradable")%string);
    [now rewrite app_nil_r | reflexivity].
Qed.

Lemma parseUpdates_by_line (output : string) :
  parseUpdates output = flat_map plainRecords (Split output LF).
Proof.
  unfold parseUpdates. rewrite (fold_left_records _ plainRecords); [reflexivity|].
  intros updates line. unfold plainRecords.
  destruct (length (Split line " ") <? 2); [now rewrite app_nil_r | reflexivity].
Qed.

Lemma append_empty (s : string) : (s ++ "")%string = s.
Proof. induction s as [|c s IH]; simpl; congruence. Qed.

Lemma append_assoc (a b c : string) : ((a ++ b) ++ c)%string = (a ++ b ++ c)%string.
Proof. induction a as [|x a IH]; simpl; congruence. Qed.

Lemma HasPrefix_empty (s : string) : HasPrefix s "" = true.
Proof. now destruct s. Qed.

(** Splitting at a one-byte separator, one occurrence at a time. *)
Lemma splitFrom_byte_app (c : ascii) (a b cur : string) :
  splitFrom (String c "") 0 cur (a ++ String c b)
  = splitFrom (String c "") 0 cur a ++ splitFrom (String c "") 0 "" b.
Proof.
  revert cur. induction a as [|x a IH]; intros cur; simpl.
  - now rewrite Ascii.eqb_refl, HasPrefix_empty.
  - rewrite !HasPrefix_empty. destruct (Ascii.eqb c x); simpl; now rewrite IH.
Qed.

Lemma Split_byte_app (c : ascii) (a b : string) :
  Split (a ++ String c b) (String c "") = Split a (String c "") ++ Split b (String c "").
Proof. apply splitFrom_byte_app. Qed.

Lemma splitFrom_lacks (c : ascii) (a cur : string) :
  lacks c a = true -> splitFrom (String c "") 0 cur a = [(cur ++ a)%string].
Proof.
  revert cur. induction a as [|x a IH]; intros cur Ha; simpl.
  - now rewrite append_empty.
  - simpl in Ha. apply andb_true_iff in Ha. destruct Ha as [Hx Ha].
    apply negb_true_iff in Hx. rewrite Hx. simpl.
    rewrite (IH (cur ++ String x "")%string Ha). now rewrite append_assoc.
Qed.

Lemma Split_lacks (c : ascii) (a : string) :
  lacks c a = true -> Split a (String c "") = [a].
Proof. intros Ha. unfold Split. now rewrite (splitFrom_lacks c a "" Ha). Qed.

(** X1: both parsers work line by line: the records of two outputs joined by
    a line feed are the records of the first followed by those of the
    second. *)
Theorem parsers_line_by_line (a b : string) :
  parseAptUpdates (a ++ LF ++ b) = parseAptUpdates a ++ parseAptUpdates b
  /\ parseUpdates (a ++ LF ++ b) = parseUpdates a ++ parseUpdates b.
Proof.
  rewrite !parseAptUpdates_by_line, !parseUpdates_by_line.
  change (a ++ LF ++ b)%string with (a ++ String "010"%char b)%string.
  unfold LF. rewrite Split_byte_app, !flat_map_app. split; reflexivity.
Qed.

Lemma at_nth_error (parts : list string) (i : nat) :
  i < length parts -> nth_error parts i = Some (at_ parts i).
Proof. intros Hi. unfold at_. now apply nth_error_nth'. Qed.

(** No field is empty. *)
Lemma fieldsFrom_fields_not_empty (s : string) (skip : nat) (cur : option string) (f : string) :
  (forall g, cur = Some g -> g <> "") ->
  In f (fieldsFrom skip cur s) -> f <> "".
Proof.
  revert skip cur. induction s as [|c r IH]; intros skip cur Hcur Hin.
  - destruct cur as [g|]; simpl in Hin; [|contradiction].
    destruct Hin as [<-|[]]. now apply Hcur.
  - rewrite fieldsFrom_step in Hin. destruct skip as [|k]; [|now apply (IH k cur)].
    destruct (spaceWidth (String c r)) as [|k].
    + apply (IH 0 (push cur c)); [|exact Hin].
      intros g Hg. destruct cur as [h|]; simpl in Hg; inversion Hg.
      * destruct h; discriminate.
      * discriminate.
    + apply in_app_or in Hin. destruct Hin as [Hin|Hin].
      * destruct cur as [g|]; simpl in Hin; [|contradiction].
        destruct Hin as [<-|[]]. now apply Hcur.
      * apply (IH k None); [discriminate | exact Hin].
Qed.

Lemma Fields_not_empty (s f : string) : In f (Fields s) -> f <> "".
Proof. apply fieldsFrom_fields_not_empty. discriminate. Qed.

(** The first piece of a split at a byte is what precedes the first
    occurrence of the byte. *)
Lemma splitFrom_first (c : ascii) (s cur : string) :
  exists p rest others,
    splitFrom (String c "") 0 cur s = (cur ++ p)%string :: others
    /\ lacks c p = true /\ s = (p ++ rest)%string
    /\ (rest = "" \/ exists r, rest = String c r).
Proof.
  revert cur. induction s as [|x s IH]; intros cur; simpl.
  - exists "", "", []. rewrite append_empty. repeat split. now left.
  - rewrite HasPrefix_empty. destruct (Ascii.eqb c x) eqn:Hx; simpl.
    + exists "", (String x s), (splitFrom (String c "") 0 "" s).
      rewrite append_empty. repeat split.
      right. exists s. apply Ascii.eqb_eq in Hx. now subst x.
    + destruct (IH (cur ++ String x "")%string)
        as (p & rest & others & Hs & Hp & Heq & Hrest).
      exists (String x p), rest, others. simpl. rewrite Hx, Hp, Hs, append_assoc.
      simpl. repeat split; [now rewrite Heq | exact Hrest].
Qed.

(** The first element of [Split s c] is [s] up to its first [c]. *)
Lemma Split_first (c : ascii) (s : string) :
  exists rest, s = (at_ (Split s (String c "")) 0 ++ rest)%string
               /\ lacks c (at_ (Split s (String c "")) 0) = true
               /\ (rest = "" \/ exists r, rest = String c r).
Proof.
  destruct (splitFrom_first c s "") as (p & rest & others & Hs & Hp & Heq & Hrest).
  unfold Split. rewrite Hs. simpl. exists rest. now repeat split.
Qed.

(** X2: every record of the Debian-family parser comes from a line of the
    output that has at least five fields, the fifth being "[upgradable";
    its version is the second field, which is not empty, and its name is
    the first field up to its first "/": the name contains no "/", and the
    first field is the name alone or the name followed by "/" and more.
    There are never more records than lines. *)
Theorem parseAptUpdates_records (output : string) (u : Update) :
  In u (parseAptUpdates output) ->
  (exists line,
      In line (Split output LF)
      /\ 5 <= length (Fields line)
      /\ nth_error (Fields line) 4 = Some "[upgradable"
      /\ nth_error (Fields line) 1 = Some (Version u)
      /\ Version u <> ""
      /\ lacks "/" (PackageName u) = true
      /\ (nth_error (Fields line) 0 = Some (PackageName u)
          \/ exists suite,
              nth_error (Fields line) 0 = Some (PackageName u ++ "/" ++ suite)%string))
  /\ length (parseAptUpdates output) <= length (Split output LF).
Proof.
  rewrite parseAptUpdates_by_line. intros Hin. split.
  - apply in_flat_map in Hin. destruct Hin as (line & Hline & Hu).
    exists line. split; [exact Hline|].
    unfold aptRecords in Hu.
    destruct (length (Fields line) <? 5) eqn:Hlen; [contradiction|].
    apply Nat.ltb_ge in Hlen. cbn [orb] in Hu.
    destruct (at_ (Fields line) 4 =? "[upgradable")%string eqn:Hmark; [|contradiction].
    cbn [negb] in Hu.
    apply String.eqb_eq in Hmark. destruct Hu as [<-|[]].
    lazy beta iota delta [PackageName Version].
    split; [exact Hlen|].
    split; [rewrite <- Hmark; apply at_nth_error; lia|].
    split; [apply at_nth_error; lia|].
    split.
    { apply (Fields_not_empty line). unfold at_. apply nth_In. lia. }
    destruct (Split_first "/"%char (at_ (Fields line) 0)) as (rest & Heq & Hlacks & Hrest).
    split; [exact Hlacks|].
    assert (Hfirst : nth_error (Fields line) 0 = Some (at_ (Fields line) 0))
      by (apply at_nth_error; lia).
    destruct Hrest as [->|(suite & ->)].
    + left. rewrite append_empty in Heq. now rewrite <- Heq.
    + right. exists suite. rewrite Hfirst. f_equal. exact Heq.
  - clear Hin. induction (Split output LF) as [|l lines IH]; simpl; [lia|].
    rewrite length_app. unfold aptRecords at 1.
    destruct ((length (Fields l) <? 5)
              || negb (at_ (Fields l) 4 =? "[upgradable")%string); simpl; lia.
Qed.

Lemma parseAptUpdates_records_witness :
  exists line,
    In line (Split ("vim/stable 9.1 amd64 now [upgradable" ++ LF ++ "x") LF)
    /\ 5 <= length (Fields line)
    /\ nth_error (Fields line) 4 = Some "[upgradable"
    /\ nth_error (Fields line) 1 = Some "9.1"
    /\ (nth_error (Fields line) 0 = Some "vim"
        \/ exists suite, nth_error (Fields line) 0 = Some ("vim" ++ "/" ++ suite)%string).
Proof.
  destruct (proj1 (parseAptUpdates_records
                     ("vim/stable 9.1 amd64 now [upgradable" ++ LF ++ "x")
                     (mkUpdate "vim" "9.1") (or_introl eq_refl)))
    as (line & H1 & H2 & H3 & H4 & _ & _ & H5).
  exists line. repeat split; assumption.
Defined.

(** ** Lines made of words *)

Lemma spaceWidth_wordByte (c : ascii) (r : string) :
  wordByte c = true -> spaceWidth (String c r) = 0.
Proof.
  unfold wordByte. intros Hc. apply andb_true_iff in Hc. destruct Hc as [Hlow Hns].
  apply Nat.ltb_lt in Hlow. apply negb_true_iff in Hns.
  assert (H194 : (byte c =? 194) = false) by (apply Nat.eqb_neq; lia).
  assert (H225 : (byte c =? 225) = false) by (apply Nat.eqb_neq; lia).
  assert (H226 : (byte c =? 226) = false) by (apply Nat.eqb_neq; lia).
  assert (H227 : (byte c =? 227) = false) by (apply Nat.eqb_neq; lia).
  lazy beta iota zeta delta [spaceWidth]. rewrite Hns.
  destruct r as [|c1 r1]; [reflexivity|]. rewrite H194. cbn [andb].
  destruct r1 as [|c2 r2]; [reflexivity|]. rewrite H225, H226, H227. reflexivity.
Qed.

Lemma fieldsFrom_word_more (w f rest : string) :
  allBytes wordByte w = true ->
  fieldsFrom 0 (Some f) (w ++ rest) = fieldsFrom 0 (Some (f ++ w)%string) rest.
Proof.
  revert f. induction w as [|c w IH]; intros f Hw.
  - now rewrite append_empty.
  - simpl in Hw. apply andb_true_iff in Hw. destruct Hw as [Hc Hw].
    change (String c w ++ rest)%string with (String c (w ++ rest)).
    rewrite fieldsFrom_step, (spaceWidth_wordByte c _ Hc).
    lazy beta iota delta [push]. rewrite (IH _ Hw), append_assoc. reflexivity.
Qed.

Lemma fieldsFrom_word (w rest : string) :
  asciiWord w = true ->
  fieldsFrom 0 None (w ++ rest) = fieldsFrom 0 (Some w) rest.
Proof.
  unfold asciiWord. intros Hw. apply andb_true_iff in Hw. destruct Hw as [Hne Hw].
  destruct w as [|c w]; [discriminate|].
  simpl in Hw. apply andb_true_iff in Hw. destruct Hw as [Hc Hw].
  change (String c w ++ rest)%string with (String c (w ++ rest)).
  rewrite fieldsFrom_step, (spaceWidth_wordByte c _ Hc).
  lazy beta iota delta [push]. now rewrite (fieldsFrom_word_more w _ rest Hw).
Qed.

(** [strings.Fields] undoes the joining of words by single spaces. *)
Lemma Fields_unwords (ws : list string) :
  forallb asciiWord ws = true -> Fields (unwords ws) = ws.
Proof.
  unfold Fields. induction ws as [|w ws IH]; intros Hws; [reflexivity|].
  simpl in Hws. apply andb_true_iff in Hws. destruct Hws as [Hw Hws].
  destruct ws as [|w' ws'].
  - cbn [unwords]. rewrite <- (append_empty w) at 1.
    now rewrite (fieldsFrom_word w "" Hw).
  - change (unwords (w :: w' :: ws'))
      with (w ++ String " "%char (unwords (w' :: ws')))%string.
    rewrite (fieldsFrom_word w _ Hw), fieldsFrom_step.
    change (spaceWidth (String " "%char (unwords (w' :: ws')))) with 1.
    cbn [flush app]. now rewrite (IH Hws).
Qed.

Lemma lacks_app (c : ascii) (a b : string) :
  lacks c (a ++ b) = lacks c a && lacks c b.
Proof.
  induction a as [|x a IH]; simpl; [reflexivity|]. now rewrite IH, andb_assoc.
Qed.

Lemma wordBytes_lack_LF (w : string) :
  allBytes wordByte w = true -> lacks "010"%char w = true.
Proof.
  induction w as [|c w IH]; [reflexivity|]. cbn [allBytes lacks].
  intros Hw. apply andb_true_iff in Hw. destruct Hw as [Hc Hw].
  rewrite (IH Hw), andb_true_r.
  destruct (Ascii.eqb "010"%char c) eqn:Heq; [|reflexivity].
  apply Ascii.eqb_eq in Heq. subst c. discriminate.
Qed.

Lemma unwords_lacks_LF (ws : list string) :
  forallb asciiWord ws = true -> lacks "010"%char (unwords ws) = true.
Proof.
  induction ws as [|w ws IH]; intros Hws; [reflexivity|].
  simpl in Hws. apply andb_true_iff in Hws. destruct Hws as [Hw Hws].
  unfold asciiWord in Hw. apply andb_true_iff in Hw. destruct Hw as [_ Hw].
  destruct ws as [|w' ws']; [now apply wordBytes_lack_LF|].
  change (unwords (w :: w' :: ws'))
    with (w ++ String " "%char (unwords (w' :: ws')))%string.
  rewrite lacks_app, (wordBytes_lack_LF w Hw). cbn [lacks andb].
  now rewrite (IH Hws).
Qed.

(** One line of words goes through the loop of [parseAptUpdates] once. *)
Lemma parseAptUpdates_unwords (ws : list string) :
  forallb asciiWord ws = true ->
  parseAptUpdates (unwords ws)
  = if (length ws <? 5) || negb (at_ ws 4 =? "[upgradable")%string
    then []
    else [mkUpdate (at_ (Split (at_ ws 0) "/") 0) (at_ ws 1)].
Proof.
  intros Hws. rewrite parseAptUpdates_by_line. unfold LF.
  rewrite (Split_lacks _ _ (unwords_lacks_LF ws Hws)). cbn [flat_map].
  rewrite app_nil_r. unfold aptRecords. now rewrite (Fields_unwords ws Hws).
Qed.

(** X3: a line of five or more words separated by single spaces, whose
    fifth word is "[upgradable" and whose first word is a name, a "/" and a
    suite, gives exactly one record: the name and the second word. *)
Theorem parseAptUpdates_fifth_word_marker
        (name suite version arch w3 : string) (more : list string) :
  asciiWord name = true -> lacks "/" name = true -> allBytes wordByte suite = true ->
  asciiWord version = true -> asciiWord arch = true -> asciiWord w3 = true ->
  forallb asciiWord more = true ->
  parseAptUpdates
    (unwords ((name ++ "/" ++ suite)%string :: version :: arch :: w3
                :: "[upgradable" :: more))
  = [mkUpdate name version].
Proof.
  intros Hname Hslash Hsuite Hversion Harch Hw3 Hmore.
  assert (Hfirst : asciiWord (name ++ "/" ++ suite) = true).
  { unfold asciiWord in *. apply andb_true_iff in Hname. destruct Hname as [Hne Hname].
    apply andb_true_iff. split.
    - destruct name; [discriminate|reflexivity].
    - clear Hne Hslash. induction name as [|c name IH]; simpl in *.
      + exact Hsuite.
      + apply andb_true_iff in Hname. destruct Hname as [Hc Hname].
        now rewrite Hc, (IH Hname). }
  rewrite parseAptUpdates_unwords.
  - cbn [length Nat.ltb Nat.leb orb at_ nth]. cbn [String.eqb Ascii.eqb Bool.eqb negb].
    change (name ++ "/" ++ suite)%string with (name ++ String "/"%char suite)%string.
    rewrite Split_byte_app, (Split_lacks _ _ Hslash). reflexivity.
  - cbn [forallb]. now rewrite Hfirst, Hversion, Harch, Hw3, Hmore.
Qed.

Lemma parseAptUpdates_fifth_word_marker_witness :
  parseAptUpdates "foo/xenial 2.0.1 amd64 now [upgradable from: 1.9.3]"
  = [mkUpdate "foo" "2.0.1"].
Proof.
  apply (parseAptUpdates_fifth_word_marker "foo" "xenial" "2.0.1" "amd64" "now"
           ["from:"; "1.9.3]"]); reflexivity.
Defined.

(** X4: a line in the format of the comment in the code -- a package word,
    a version, an architecture and "[upgradable from: old]" -- has the
    marker as its fourth word and "from:" as its fifth: whatever the
    package, version, architecture and old version are, the parser gives
    no record for it. *)
Theorem parseAptUpdates_documented_format_dropped (pkg version arch old : string) :
  asciiWord pkg = true -> asciiWord version = true -> asciiWord arch = true ->
  allBytes wordByte old = true ->
  parseAptUpdates
    (pkg ++ " " ++ version ++ " " ++ arch ++ " [upgradable from: " ++ old ++ "]")
  = [].
Proof.
  intros Hpkg Hversion Harch Hold.
  assert (Hlast : asciiWord (old ++ "]") = true).
  { unfold asciiWord. apply andb_true_iff. split.
    - destruct old; reflexivity.
    - induction old as [|c old IH]; simpl in *; [reflexivity|].
      apply andb_true_iff in Hold. destruct Hold as [Hc Hold].
      now rewrite Hc, (IH Hold). }
  change (pkg ++ " " ++ version ++ " " ++ arch ++ " [upgradable from: " ++ old ++ "]")%string
    with (unwords [pkg; version; arch; "[upgradable"; "from:"; (old ++ "]")%string]).
  rewrite parseAptUpdates_unwords; [reflexivity|].
  cbn [forallb]. now rewrite Hpkg, Hversion, Harch, Hlast.
Qed.

Lemma parseAptUpdates_documented_format_dropped_witness :
  parseAptUpdates "libssl3/jammy-updates 3.0.2-0ubuntu1.18 amd64 [upgradable from: 3.0.2-0ubuntu1.17]"
  = [].
Proof.
  apply (parseAptUpdates_documented_format_dropped
           "libssl3/jammy-updates" "3.0.2-0ubuntu1.18" "amd64" "3.0.2-0ubuntu1.17");
    reflexivity.
Defined.

(** X5: the generic parser cuts a line at single spaces only.  A line
    without a space gives no record; otherwise the record is what precedes
    the first space and what lies between the first and the second space.
    Either may be empty, and tabs do not separate. *)
Theorem parseUpdates_line (name version tail : string) :
  lacks " " name = true -> lacks " " version = true ->
  lacks "010" name = true -> lacks "010" version = true -> lacks "010" tail = true ->
  parseUpdates name = []
  /\ parseUpdates (name ++ " " ++ version) = [mkUpdate name version]
  /\ parseUpdates (name ++ " " ++ version ++ " " ++ tail) = [mkUpdate name version].
Proof.
  intros Hn Hv Hln Hlv Hlt.
  change (name ++ " " ++ version ++ " " ++ tail)%string
    with (name ++ String " "%char (version ++ String " "%char tail))%string.
  change (name ++ " " ++ version)%string with (name ++ String " "%char version)%string.
  assert (H2 : lacks "010" (name ++ String " "%char version) = true).
  { rewrite lacks_app. cbn [lacks]. now rewrite Hln, Hlv. }
  assert (H3 : lacks "010" (name ++ String " "%char (version ++ String " "%char tail))
               = true).
  { rewrite !lacks_app. cbn [lacks]. rewrite lacks_app. cbn [lacks].
    now rewrite Hln, Hlv, Hlt. }
  rewrite !parseUpdates_by_line. unfold LF.
  rewrite (Split_lacks _ _ Hln), (Split_lacks _ _ H2), (Split_lacks _ _ H3).
  cbn [flat_map]. rewrite !app_nil_r. unfold plainRecords.
  rewrite !Split_byte_app, !(Split_lacks _ _ Hn), !(Split_lacks _ _ Hv).
  repeat split.
Qed.

Lemma parseUpdates_line_witness :
  parseUpdates "wget" = []
  /\ parseUpdates "wget 1.24.5" = [mkUpdate "wget" "1.24.5"]
  /\ parseUpdates "wget 1.24.5 -> 1.25.0" = [mkUpdate "wget" "1.24.5"].
Proof.
  apply (parseUpdates_line "wget" "1.24.5" "-> 1.25.0"); reflexivity.
Defined.

(** ** The drivers, verb by verb *)

Lemma Split_trailing_LF (body : string) :
  Split (body ++ LF) LF = Split body LF ++ [""].
Proof. unfold LF. now rewrite Split_byte_app. Qed.

Lemma runAndSplit_ok (env : Env) (e : CommandExecutor) (command : string)
      (useSudo : bool) (tr : Trace) (output : string) :
  answers env e tr command useSudo output ->
  runAndSplit env (Some e) command useSudo tr
  = (Ret (Split output LF, None), tr +> EvRunCommand e command (sudo useSudo)).
Proof.
  unfold answers. intros Hanswer. unfold runAndSplit, Executor_RunCommand, bind, call.
  now rewrite Hanswer.
Qed.

(** X6: a listing verb returns the output of its own command cut at line
    feeds: when the executor answers that command with [output] and no
    error, the lines of [output] are the result.  The Debian-family
    check for updates asks twice; its result is the output of the second
    command, the listing, whatever the refresh printed, and when the
    listing fails after a successful refresh its error is returned
    unchanged with no lines.  The list of lines is never empty: empty
    output gives one empty string, and output that ends in a line feed
    gives a last entry that is empty. *)
Theorem listing_verbs_split_output
        (env : Env) (e : CommandExecutor) (host : UnixHost.t) (tr : Trace)
        (output : string) :
  let lines := Split output LF in
  (answers env e tr "yum list installed" false output ->
   fst (Yum.ListPackages env (Some e) host tr) = Ret (lines, None))
  /\ (answers env e tr "apt list --installed" false output ->
      fst (Apt.ListPackages env (Some e) host tr) = Ret (lines, None))
  /\ (answers env e tr "brew list --version" false output ->
      fst (Brew.ListPackages env (Some e) host tr) = Ret (lines, None))
  /\ (answers env e tr "yum check-update" true output ->
      fst (Yum.CheckOSUpdates env (Some e) host tr) = Ret (lines, None))
  /\ (answers env e tr "brew outdated" false output ->
      fst (Brew.CheckOSUpdates env (Some e) host tr) = Ret (lines, None))
  /\ (forall refreshed,
         answers env e tr "apt update" true refreshed ->
         let tr1 := tr +> EvRunCommand e "apt update" (sudo true) in
         (answers env e tr1 "apt list --upgradable" false output ->
          fst (Apt.CheckOSUpdates env (Some e) host tr) = Ret (lines, None))
         /\ (forall err,
                executor_RunCommand env
                  (tr1 +> EvRunCommand e "apt list --upgradable" (sudo false))
                = (output, Some err) ->
                fst (Apt.CheckOSUpdates env (Some e) host tr) = Ret ([], Some err)))
  /\ lines <> []
  /\ (output = "" -> lines = [""])
  /\ (forall body, output = (body ++ LF)%string -> lines = Split body LF ++ [""]).
Proof.
  intros lines.
  unfold Yum.ListPackages, Apt.ListPackages, Brew.ListPackages,
    Yum.CheckOSUpdates, Brew.CheckOSUpdates.
  split; [|split; [|split; [|split; [|split; [|split; [|split; [|split]]]]]]].
  1-5: intros Hanswer; now rewrite (runAndSplit_ok env e _ _ tr output Hanswer).
  - intros refreshed Hrefresh. unfold answers in *.
    unfold Apt.CheckOSUpdates, Executor_RunCommand.
    cbv beta iota zeta delta [bind call ret].
    rewrite Hrefresh. split.
    + intros Hlist. now rewrite Hlist.
    + intros err Hlist. now rewrite Hlist.
  - apply Split_not_empty. discriminate.
  - intros ->. reflexivity.
  - intros body ->. apply Split_trailing_LF.
Qed.

Lemma listing_verbs_split_output_witness :
  fst (Apt.CheckOSUpdates aptEnv (Some DefaultCommandExecutor) localhost [])
  = Ret (["Listing..."; "vim/stable 2:9.1 amd64 [upgradable from: 2:9.0]"; ""], None)
  /\ fst (Apt.ListPackages aptEnv (Some DefaultCommandExecutor) localhost [])
     = Ret (Split aptListing LF, None).
Proof.
  split.
  - apply (proj1 (proj2 (proj2 (proj2 (proj2 (proj2
             (listing_verbs_split_output aptEnv DefaultCommandExecutor localhost []
                aptListing))))))
             aptRefreshed); reflexivity.
  - apply (proj1 (proj2
             (listing_verbs_split_output aptEnv DefaultCommandExecutor localhost []
                aptListing))).
    reflexivity.
Defined.

(** X7: a driver whose executor fails returns no result with the error.
    The listing verbs and the verbs for one package hand the executor's
    error on unchanged; UpgradeAll makes a new error whose text has the
    cause and the output. *)
Theorem driver_errors
        (env : Env) (e : CommandExecutor) (host : UnixHost.t) (pkg : string) (tr : Trace)
        (output : string) (err : error) :
  (forall t, executor_RunCommand env t = (output, Some err)) ->
  (fst (Yum.ListPackages env (Some e) host tr) = Ret ([], Some err)
   /\ fst (Apt.ListPackages env (Some e) host tr) = Ret ([], Some err)
   /\ fst (Brew.ListPackages env (Some e) host tr) = Ret ([], Some err)
   /\ fst (Yum.CheckOSUpdates env (Some e) host tr) = Ret ([], Some err)
   /\ fst (Brew.CheckOSUpdates env (Some e) host tr) = Ret ([], Some err))
  /\ (fst (Yum.AddPackage env (Some e) host pkg tr) = Ret (Some err)
      /\ fst (Yum.RemovePackage env (Some e) host pkg tr) = Ret (Some err)
      /\ fst (Yum.UpgradePackage env (Some e) host pkg tr) = Ret (Some err)
      /\ fst (Apt.AddPackage env (Some e) host pkg tr) = Ret (Some err)
      /\ fst (Apt.RemovePackage env (Some e) host pkg tr) = Ret (Some err)
      /\ fst (Apt.UpgradePackage env (Some e) host pkg tr) = Ret (Some err)
      /\ fst (Brew.AddPackage env (Some e) host pkg tr) = Ret (Some err)
      /\ fst (Brew.RemovePackage env (Some e) host pkg tr) = Ret (Some err)
      /\ fst (Brew.UpgradePackage env (Some e) host pkg tr) = Ret (Some err))
  /\ (let wrapped :=
        errorString ("failed to upgrade all packages: " ++ Error err
                     ++ ", Output: " ++ output) in
      fst (Yum.UpgradeAll env (Some e) host tr) = Ret ([], Some wrapped)
      /\ fst (Apt.UpgradeAll env (Some e) host tr) = Ret ([], Some wrapped)
      /\ fst (Brew.UpgradeAll env (Some e) host tr) = Ret ([], Some wrapped)).
Proof.
  intros Hall.
  unfold Yum.ListPackages, Apt.ListPackages, Brew.ListPackages,
    Yum.CheckOSUpdates, Brew.CheckOSUpdates,
    Yum.AddPackage, Yum.RemovePackage, Yum.UpgradePackage,
    Apt.AddPackage, Apt.RemovePackage, Apt.UpgradePackage,
    Brew.AddPackage, Brew.RemovePackage, Brew.UpgradePackage,
    Yum.UpgradeAll, Apt.UpgradeAll, Brew.UpgradeAll,
    runAndSplit, runOnly, Executor_RunCommand, bind, call, ret, upgradeAllError.
  rewrite !Hall. repeat split.
Qed.

Lemma driver_errors_witness :
  fst (Yum.UpgradeAll failingExecEnv (Some DefaultCommandExecutor) localhost [])
  = Ret ([], Some (errorString
                     "failed to upgrade all packages: exit status 1, Output: ")).
Proof.
  apply (driver_errors failingExecEnv DefaultCommandExecutor localhost "" [] ""
           exitStatus1).
  reflexivity.
Defined.

(** What a verb for one package asks: one command, the verb's text followed
    by the package as it is given. *)
Lemma runOnly_asks (env : Env) (e : CommandExecutor) (command : string)
      (useSudo : bool) (tr : Trace) :
  snd (runOnly env (Some e) command useSudo tr)
  = tr +> EvRunCommand e command (CommandOptions.mk useSudo "").
Proof.
  unfold runOnly, Executor_RunCommand, bind, call.
  now destruct (executor_RunCommand env _).
Qed.

Lemma runAndSplit_asks (env : Env) (e : CommandExecutor) (command : string)
      (useSudo : bool) (tr : Trace) :
  snd (runAndSplit env (Some e) command useSudo tr)
  = tr +> EvRunCommand e command (CommandOptions.mk useSudo "").
Proof.
  unfold runAndSplit, Executor_RunCommand, bind, call.
  now destruct (executor_RunCommand env _) as [output [err|]].
Qed.

(** X8: which verbs escalate.  The Debian and Red Hat drivers issue the
    verbs that change packages (install, remove, upgrade one, upgrade all)
    with the escalation flag set and list the installed packages without
    it; the Homebrew driver issues every verb without it.  Each of these
    verbs issues exactly one command, and the package is appended to the
    command text as it is given. *)
Theorem driver_escalation
        (env : Env) (e : CommandExecutor) (host : UnixHost.t) (pkg : string) (tr : Trace) :
  let asks (t : Trace) (command : string) (useSudo : bool) :=
    t = tr +> EvRunCommand e command (CommandOptions.mk useSudo "") in
  (asks (snd (Apt.ListPackages env (Some e) host tr)) "apt list --installed" false
   /\ asks (snd (Apt.AddPackage env (Some e) host pkg tr)) ("apt install -y " ++ pkg)%string true
   /\ asks (snd (Apt.RemovePackage env (Some e) host pkg tr)) ("apt remove -y " ++ pkg)%string true
   /\ asks (snd (Apt.UpgradePackage env (Some e) host pkg tr)) ("apt upgrade -y " ++ pkg)%string true
   /\ asks (snd (Apt.UpgradeAll env (Some e) host tr)) "apt upgrade -y" true)
  /\ (asks (snd (Yum.ListPackages env (Some e) host tr)) "yum list installed" false
      /\ asks (snd (Yum.AddPackage env (Some e) host pkg tr)) ("yum install -y " ++ pkg)%string true
      /\ asks (snd (Yum.RemovePackage env (Some e) host pkg tr)) ("yum remove -y " ++ pkg)%string true
      /\ asks (snd (Yum.UpgradePackage env (Some e) host pkg tr)) ("yum upgrade -y " ++ pkg)%string true
      /\ asks (snd (Yum.CheckOSUpdates env (Some e) host tr)) "yum check-update" true
      /\ asks (snd (Yum.UpgradeAll env (Some e) host tr)) "yum update -y" true)
  /\ (asks (snd (Brew.ListPackages env (Some e) host tr)) "brew list --version" false
      /\ asks (snd (Brew.AddPackage env (Some e) host pkg tr)) ("brew install " ++ pkg)%string false
      /\ asks (snd (Brew.RemovePackage env (Some e) host pkg tr)) ("brew uninstall " ++ pkg)%string false
      /\ asks (snd (Brew.UpgradePackage env (Some e) host pkg tr)) ("brew upgrade " ++ pkg)%string false
      /\ asks (snd (Brew.CheckOSUpdates env (Some e) host tr)) "brew outdated" false).
Proof.
  intros asks. subst asks. cbv beta.
  unfold Apt.ListPackages, Apt.AddPackage, Apt.RemovePackage, Apt.UpgradePackage,
    Yum.ListPackages, Yum.AddPackage, Yum.RemovePackage, Yum.UpgradePackage,
    Yum.CheckOSUpdates, Brew.ListPackages, Brew.AddPackage, Brew.RemovePackage,
    Brew.UpgradePackage, Brew.CheckOSUpdates.
  rewrite !runOnly_asks, !runAndSplit_asks.
  repeat split;
    unfold Apt.UpgradeAll, Yum.UpgradeAll, Executor_RunCommand, bind, call;
    now destruct (executor_RunCommand env _) as [output [err|]].
Qed.

(** A driver without an executor panics on every verb, before anything is
    asked. *)
Lemma driver_without_executor_panics
        (env : Env) (host : UnixHost.t) (pkg : string) (tr : Trace) :
  (Yum.ListPackages env None host tr = (Panic nilDeref, tr)
   /\ Yum.AddPackage env None host pkg tr = (Panic nilDeref, tr)
   /\ Yum.RemovePackage env None host pkg tr = (Panic nilDeref, tr)
   /\ Yum.UpgradePackage env None host pkg tr = (Panic nilDeref, tr)
   /\ Yum.CheckOSUpdates env None host tr = (Panic nilDeref, tr)
   /\ Yum.UpgradeAll env None host tr = (Panic nilDeref, tr))
  /\ (Apt.ListPackages env None host tr = (Panic nilDeref, tr)
      /\ Apt.AddPackage env None host pkg tr = (Panic nilDeref, tr)
      /\ Apt.RemovePackage env None host pkg tr = (Panic nilDeref, tr)
      /\ Apt.UpgradePackage env None host pkg tr = (Panic nilDeref, tr)
      /\ Apt.CheckOSUpdates env None host tr = (Panic nilDeref, tr)
      /\ Apt.UpgradeAll env None host tr = (Panic nilDeref, tr))
  /\ (Brew.ListPackages env None host tr = (Panic nilDeref, tr)
      /\ Brew.AddPackage env None host pkg tr = (Panic nilDeref, tr)
      /\ Brew.RemovePackage env None host pkg tr = (Panic nilDeref, tr)
      /\ Brew.UpgradePackage env None host pkg tr = (Panic nilDeref, tr)
      /\ Brew.CheckOSUpdates env None host tr = (Panic nilDeref, tr)
      /\ Brew.UpgradeAll env None host tr = (Panic nilDeref, tr)).
Proof. repeat split. Qed.

(** ** Command dispatch *)

(** X9: the [SudoPassword] of the options is never used: the result of
    RunCommand and everything it asks depend on the options only through
    the escalation flag.  With escalation the password is the host's. *)
Theorem RunCommand_ignores_option_password
        (env : Env) (h : UnixHost.t) (cmd : string) (useSudo : bool)
        (p1 p2 : string) (tr : Trace) :
  RunCommand env h cmd (CommandOptions.mk useSudo p1) tr
  = RunCommand env h cmd (CommandOptions.mk useSudo p2) tr.
Proof.
  unfold RunCommand, runCommandInternal. cbn [CommandOptions.UseSudo CommandOptions.SudoPassword].
  destruct useSudo; [reflexivity|].
  destruct (isLocal h); [reflexivity|]. reflexivity.
Qed.

Lemma Legacy_RunCommand_error_empty
      (env : Env) (old : Legacy.UnixHost.t) (cmd : string) (tr tr' : Trace)
      (out : string) (err : error) :
  Legacy.RunCommand env old cmd tr = (Ret (out, Some err), tr') -> out = "".
Proof. intros H. run_in H. answer_in H; now inversion H. Qed.

(** X10: whenever RunCommand returns an error, the output it returns with it
    is empty, on the local and on the remote path, and in host.go. *)
Theorem RunCommand_error_without_output
        (env : Env) (h : UnixHost.t) (old : Legacy.UnixHost.t) (cmd : string)
        (options : CommandOptions.t) (tr tr' : Trace) (out : string) (err : error) :
  (RunCommand env h cmd options tr = (Ret (out, Some err), tr') -> out = "")
  /\ (Legacy.RunCommand env old cmd tr = (Ret (out, Some err), tr') -> out = "").
Proof.
  split; intros H.
  - run_in H. answer_in H; now inversion H.
  - exact (Legacy_RunCommand_error_empty env old cmd tr tr' out err H).
Qed.

Lemma RunCommand_error_without_output_witness :
  RunCommand sorryExitEnv remoteHost "id" (CommandOptions.mk true "") []
  = (Ret ("", Some exitStatus1),
     [EvReadPrivateKeys AgentSSHKeyManager "";
      EvNetDialTimeout "tcp" "build01:22" fiveSeconds;
      EvNewClientConn "build01:22" (clientConfig remoteHost (ssh_PublicKeysCallback [1]));
      EvNewSession;
      EvGoCombinedOutput "sudo -S id" (Some ("hunter2" ++ LF)%string);
      EvSelect time_Second; EvSessionClose; EvClientClose])
  /\ "" = "".
Proof.
  split; [reflexivity|].
  eapply (proj1 (RunCommand_error_without_output sorryExitEnv remoteHost legacyRemote "id"
                   (CommandOptions.mk true "") [] _ "" exitStatus1)).
  vm_compute. reflexivity.
Defined.

(** X11: a local host never opens a connection and a remote host never
    starts a local process.  On a host whose address is "localhost" or
    "127.0.0.1" RunCommand asks for at most one thing, the start of a
    process; on every other host nothing it asks is the start of a
    process. *)
Theorem RunCommand_dispatch
        (env : Env) (h : UnixHost.t) (cmd : string) (options : CommandOptions.t)
        (tr : Trace) :
  exists asked,
    snd (RunCommand env h cmd options tr) = tr ++ asked
    /\ (Hostname h = "localhost" \/ Hostname h = "127.0.0.1" ->
        forallb isExec asked = true /\ length asked <= 1)
    /\ (Hostname h <> "localhost" -> Hostname h <> "127.0.0.1" ->
        forallb (fun ev => negb (isExec ev)) asked = true).
Proof.
  unfold RunCommand, runCommandInternal.
  destruct (isLocal h) eqn:Hlocal.
  - run. answer; asked_suffix; (split; [intros _; split; [reflexivity | simpl; lia]|]);
      intros H1 H2; now rewrite (isLocal_false h H1 H2) in Hlocal.
  - run. answer; asked_suffix;
      (split; [intros Hl; now rewrite (isLocal_true h Hl) in Hlocal|]);
      intros _ _; reflexivity.
Qed.

Lemma RunCommand_dispatch_witness :
  (exists asked,
      snd (RunCommand quietEnv localhost "id" (CommandOptions.mk false "") []) = [] ++ asked
      /\ forallb isExec asked = true /\ length asked <= 1)
  /\ (exists asked,
         snd (RunCommand quietEnv remoteHost "id" (CommandOptions.mk false "") [])
         = [] ++ asked
         /\ forallb (fun ev => negb (isExec ev)) asked = true).
Proof.
  split.
  - destruct (RunCommand_dispatch quietEnv localhost "id" (CommandOptions.mk false "") [])
      as (asked & Htrace & Hlocal & _).
    exists asked. split; [exact Htrace|]. apply Hlocal. left. reflexivity.
  - destruct (RunCommand_dispatch quietEnv remoteHost "id" (CommandOptions.mk false "") [])
      as (asked & Htrace & _ & Hremote).
    exists asked. split; [exact Htrace|].
    apply Hremote; vm_compute; discriminate.
Defined.

(** ** The remote path *)

(** The wait of the [select] never exceeds the timeout. *)
Lemma selectOutcome_bounded (env : Env) (timeout : Z) (c : Collected) (tr : Trace) :
  exists s waited,
    selectOutcome env timeout c tr = (Ret s, tr +> EvSelect waited)
    /\ (waited <= timeout)%Z.
Proof.
  unfold selectOutcome. destruct (took c) as [d|].
  - destruct (d <? timeout)%Z eqn:Hearly.
    + apply Z.ltb_lt in Hearly. eexists _, d. split; [reflexivity | lia].
    + destruct (timeout <? d)%Z; eexists _, timeout; (split; [reflexivity | lia]).
  - eexists _, timeout. split; [reflexivity | lia].
Qed.

(** X12: on a remote host, once the session is open, RunCommand returns
    whatever the command does, even if it never ends: it waits for the
    output no longer than five seconds, and before it returns it closes the
    session and then the client.  With escalation the command sent is the
    given one after "sudo -S ". *)
Theorem RunCommand_remote_bounded_and_closed
        (env : Env) (h : UnixHost.t) (cmd : string) (options : CommandOptions.t)
        (tr tr2 : Trace) :
  Hostname h <> "localhost" -> Hostname h <> "127.0.0.1" ->
  sessionOpened env h tr tr2 ->
  let useSudo := CommandOptions.UseSudo options in
  let sent := if useSudo then ("sudo -S " ++ cmd)%string else cmd in
  exists r waited,
    RunCommand env h cmd options tr
    = (Ret r, tr2 +> EvNewSession +> EvGoCombinedOutput sent (sessionStdin h useSudo)
                  +> EvSelect waited +> EvSessionClose +> EvClientClose)
    /\ (waited <= fiveSeconds)%Z.
Proof.
  intros H1 H2 Hopen useSudo sent.
  unfold RunCommand, runCommandInternal. rewrite (isLocal_false h H1 H2).
  fold useSudo. fold sent.
  destruct (selectOutcome_bounded env fiveSeconds
              (session_CombinedOutput env
                 (tr2 +> EvNewSession +> EvGoCombinedOutput sent (sessionStdin h useSudo)))
              (tr2 +> EvNewSession +> EvGoCombinedOutput sent (sessionStdin h useSudo)))
    as (s & waited & Hsel & Hbound).
  eexists _, waited. split; [|exact Hbound].
  subst sent. destruct useSudo.
  - exact (@runRemoteCommand_opened env h _ true (UnixHost.SudoPassword h) tr tr2 Hopen
             s _ Hsel).
  - exact (@runRemoteCommand_opened env h _ false (CommandOptions.SudoPassword options)
             tr tr2 Hopen s _ Hsel).
Qed.

Lemma RunCommand_remote_bounded_and_closed_witness :
  exists r waited,
    RunCommand slowEnv remoteHost "make world" (CommandOptions.mk false "") []
    = (Ret r,
       [EvReadPrivateKeys AgentSSHKeyManager "";
        EvNetDialTimeout "tcp" "build01:22" fiveSeconds;
        EvNewClientConn "build01:22" (clientConfig remoteHost (ssh_PublicKeysCallback [1]))]
         +> EvNewSession +> EvGoCombinedOutput "make world" None
         +> EvSelect waited +> EvSessionClose +> EvClientClose)
    /\ (waited <= fiveSeconds)%Z.
Proof.
  refine (RunCommand_remote_bounded_and_closed slowEnv remoteHost "make world"
            (CommandOptions.mk false "") []
            [EvReadPrivateKeys AgentSSHKeyManager "";
             EvNetDialTimeout "tcp" "build01:22" fiveSeconds;
             EvNewClientConn "build01:22"
               (clientConfig remoteHost (ssh_PublicKeysCallback [1]))]
            _ _ _).
  - vm_compute. discriminate.
  - vm_compute. discriminate.
  - session_is_open.
Defined.

(** X13: what RunCommand on a remote host does when a step before the
    command fails.  Without an SSH client it returns an error and asks
    nothing.  When the configuration cannot be built it returns that error
    and does not dial.  When the dial fails it returns that error; nothing
    was opened and nothing is closed.  When the session cannot be opened it
    returns that error and closes the client. *)
Theorem RunCommand_remote_early_failures
        (env : Env) (h : UnixHost.t) (cmd : string) (options : CommandOptions.t)
        (tr : Trace) :
  Hostname h <> "localhost" -> Hostname h <> "127.0.0.1" ->
  (UnixHost.SSHClient h = None ->
   RunCommand env h cmd options tr
   = (Ret ("", Some (errors_New "SSHClient is not initialized")), tr))
  /\ (forall c err tr1,
         UnixHost.SSHClient h = Some c ->
         getSSHConfig env h tr = (Ret (inr err), tr1) ->
         RunCommand env h cmd options tr = (Ret ("", Some err), tr1))
  /\ (forall c config err tr1 tr2,
         UnixHost.SSHClient h = Some c ->
         getSSHConfig env h tr = (Ret (inl config), tr1) ->
         Dial env c "tcp" (sshAddr h) config fiveSeconds tr1 = (Ret (Some err), tr2) ->
         RunCommand env h cmd options tr = (Ret ("", Some err), tr2))
  /\ (forall c config err tr1 tr2,
         UnixHost.SSHClient h = Some c ->
         getSSHConfig env h tr = (Ret (inl config), tr1) ->
         Dial env c "tcp" (sshAddr h) config fiveSeconds tr1 = (Ret None, tr2) ->
         client_NewSession env (tr2 +> EvNewSession) = Some err ->
         RunCommand env h cmd options tr
         = (Ret ("", Some err), tr2 +> EvNewSession +> EvClientClose)).
Proof.
  intros H1 H2. unfold RunCommand, runCommandInternal.
  rewrite (isLocal_false h H1 H2). unfold runRemoteCommand.
  split; [|split; [|split]].
  - intros ->. reflexivity.
  - intros c err tr1 -> Hcfg. unfold bind at 1. now rewrite Hcfg.
  - intros c config err tr1 tr2 -> Hcfg Hdial. unfold bind at 1. rewrite Hcfg.
    unfold bind at 1. unfold sshAddr, fiveSeconds in Hdial. now rewrite Hdial.
  - intros c config err tr1 tr2 -> Hcfg Hdial Hsession. unfold bind at 1. rewrite Hcfg.
    unfold bind at 1. unfold sshAddr, fiveSeconds in Hdial. rewrite Hdial.
    unfold defer, bind, call, client_Close. now rewrite Hsession.
Qed.

Lemma RunCommand_remote_early_failures_witness :
  RunCommand quietEnv (WithSSHClient None remoteHost) "id" (CommandOptions.mk false "") []
  = (Ret ("", Some (errors_New "SSHClient is not initialized")), [])
  /\ RunCommand refusedEnv remoteHost "id" (CommandOptions.mk false "") []
     = (Ret ("", Some (foreignError "connection refused")),
        [EvReadPrivateKeys AgentSSHKeyManager "";
         EvNetDialTimeout "tcp" "build01:22" fiveSeconds]).
Proof.
  assert (Hname1 : Hostname remoteHost <> "localhost") by (vm_compute; discriminate).
  assert (Hname2 : Hostname remoteHost <> "127.0.0.1") by (vm_compute; discriminate).
  split.
  - apply (proj1 (RunCommand_remote_early_failures quietEnv
                    (WithSSHClient None remoteHost) "id" (CommandOptions.mk false "") []
                    Hname1 Hname2)).
    reflexivity.
  - apply (proj1 (proj2 (proj2 (RunCommand_remote_early_failures refusedEnv remoteHost "id"
                    (CommandOptions.mk false "") [] Hname1 Hname2)))
                 RealSSHClient (clientConfig remoteHost (ssh_PublicKeysCallback [1]))
                 (foreignError "connection refused")
                 [EvReadPrivateKeys AgentSSHKeyManager ""]);
      reflexivity.
Defined.

(** ** Hosts without an SSH client *)

(** X14: RunCommand checks that the host has an SSH client; the probe and
    the file copy do not.  On a remote host without one, IsReachable panics
    once the ping has succeeded and the configuration is built, and
    CopyFile panics once the file is opened and the configuration is built,
    still closing the file. *)
Theorem missing_client_panics
        (env : Env) (h : UnixHost.t) (localPath remotePath : string) (tr : Trace) :
  Hostname h <> "localhost" -> Hostname h <> "127.0.0.1" ->
  UnixHost.SSHClient h = None ->
  (forall config tr1,
      snd (exec_answer env (tr +> pingEvent h)) = None ->
      getSSHConfig env h (tr +> pingEvent h) = (Ret (inl config), tr1) ->
      IsReachable env h tr = (Panic nilDeref, tr1))
  /\ (forall size config tr1,
         os_Open env (tr +> EvOpen localPath) = None ->
         file_Stat env (tr +> EvOpen localPath +> EvStat) = inl size ->
         getSSHConfig env h (tr +> EvOpen localPath +> EvStat) = (Ret (inl config), tr1) ->
         CopyFile env h localPath remotePath tr = (Panic nilDeref, tr1 +> EvFileClose)).
Proof.
  intros H1 H2 Hnil. pose proof (isLocal_false h H1 H2) as Hremote. split.
  - intros config tr1 Hping Hcfg.
    unfold IsReachable. rewrite Hremote. unfold bind at 1. rewrite ping_answer, Hping.
    unfold sshable. rewrite Hremote. unfold bind at 1. rewrite Hcfg.
    unfold bind, DialWith, panic. now rewrite Hnil.
  - intros size config tr1 Hopen Hstat Hcfg.
    unfold CopyFile. rewrite Hremote. unfold bind at 1, call at 1. rewrite Hopen.
    unfold defer. unfold bind at 1, call at 1. rewrite Hstat.
    unfold bind at 1. rewrite Hcfg.
    unfold bind, DialWith, panic, file_Close, call. now rewrite Hnil.
Qed.

Lemma missing_client_panics_witness :
  IsReachable quietEnv (WithSSHClient None remoteHost) []
  = (Panic nilDeref, [pingEvent remoteHost; EvReadPrivateKeys AgentSSHKeyManager ""])
  /\ CopyFile quietEnv (WithSSHClient None remoteHost) "/etc/motd" "/tmp/motd" []
     = (Panic nilDeref,
        [EvOpen "/etc/motd"; EvStat; EvReadPrivateKeys AgentSSHKeyManager "";
         EvFileClose]).
Proof.
  assert (Hname1 : Hostname (WithSSHClient None remoteHost) <> "localhost")
    by (vm_compute; discriminate).
  assert (Hname2 : Hostname (WithSSHClient None remoteHost) <> "127.0.0.1")
    by (vm_compute; discriminate).
  destruct (missing_client_panics quietEnv (WithSSHClient None remoteHost)
              "/etc/motd" "/tmp/motd" [] Hname1 Hname2 eq_refl) as [Hprobe Hcopy].
  split.
  - apply (Hprobe (clientConfig remoteHost (ssh_PublicKeysCallback [1]))); reflexivity.
  - apply (Hcopy 0%Z (clientConfig remoteHost (ssh_PublicKeysCallback [1]))
                 [EvOpen "/etc/motd"; EvStat; EvReadPrivateKeys AgentSSHKeyManager ""]);
      reflexivity.
Defined.

(** ** File copy *)

(** X15: what CopyFile on a remote host does when a step fails before the
    copy starts.  It returns the error of the step that failed, unchanged,
    and closes what it had opened: nothing when the file cannot be opened,
    the file when its size cannot be read, the configuration cannot be
    built or the dial fails, and the client and then the file when the
    session cannot be opened. *)
Theorem CopyFile_early_failures
        (env : Env) (h : UnixHost.t) (localPath remotePath : string) (tr : Trace) :
  Hostname h <> "localhost" -> Hostname h <> "127.0.0.1" ->
  let opened := tr +> EvOpen localPath in
  let measured := opened +> EvStat in
  (forall err,
      os_Open env opened = Some err ->
      CopyFile env h localPath remotePath tr = (Ret (Some err), opened))
  /\ (forall err,
         os_Open env opened = None -> file_Stat env measured = inr err ->
         CopyFile env h localPath remotePath tr = (Ret (Some err), measured +> EvFileClose))
  /\ (forall size err tr1,
         os_Open env opened = None -> file_Stat env measured = inl size ->
         getSSHConfig env h measured = (Ret (inr err), tr1) ->
         CopyFile env h localPath remotePath tr = (Ret (Some err), tr1 +> EvFileClose))
  /\ (forall size c config err tr1 tr2,
         os_Open env opened = None -> file_Stat env measured = inl size ->
         UnixHost.SSHClient h = Some c ->
         getSSHConfig env h measured = (Ret (inl config), tr1) ->
         Dial env c "tcp" (sshAddr h) config fiveSeconds tr1 = (Ret (Some err), tr2) ->
         CopyFile env h localPath remotePath tr = (Ret (Some err), tr2 +> EvFileClose))
  /\ (forall size err tr2,
         os_Open env opened = None -> file_Stat env measured = inl size ->
         (exists c config tr1,
             UnixHost.SSHClient h = Some c
             /\ getSSHConfig env h measured = (Ret (inl config), tr1)
             /\ Dial env c "tcp" (sshAddr h) config fiveSeconds tr1 = (Ret None, tr2)) ->
         client_NewSession env (tr2 +> EvNewSession) = Some err ->
         CopyFile env h localPath remotePath tr
         = (Ret (Some err), tr2 +> EvNewSession +> EvClientClose +> EvFileClose)).
Proof.
  intros H1 H2 opened measured. subst opened measured.
  unfold CopyFile. rewrite (isLocal_false h H1 H2).
  unfold sshAddr, fiveSeconds.
  split; [|split; [|split; [|split]]].
  - intros err Hopen.
    cbv beta iota zeta delta [bind call ret defer]. now rewrite Hopen.
  - intros err Hopen Hstat.
    cbv beta iota zeta delta [bind call ret defer file_Close snd].
    now rewrite Hopen, Hstat.
  - intros size err tr1 Hopen Hstat Hcfg.
    cbv beta iota zeta delta [bind call ret defer file_Close snd].
    now rewrite Hopen, Hstat, Hcfg.
  - intros size c config err tr1 tr2 Hopen Hstat Hclient Hcfg Hdial.
    cbv beta iota zeta delta [bind call ret defer file_Close DialWith snd].
    now rewrite Hopen, Hstat, Hcfg, Hclient, Hdial.
  - intros size err tr2 Hopen Hstat (c & config & tr1 & Hclient & Hcfg & Hdial) Hsession.
    cbv beta iota zeta delta [bind call ret defer file_Close client_Close DialWith snd].
    now rewrite Hopen, Hstat, Hcfg, Hclient, Hdial, Hsession.
Qed.

Lemma CopyFile_early_failures_witness :
  CopyFile failingOpenEnv remoteHost "/etc/motd" "/tmp/motd" []
  = (Ret (Some (foreignError "open /etc/motd: no such file or directory")),
     [EvOpen "/etc/motd"])
  /\ CopyFile refusedEnv remoteHost "/etc/motd" "/tmp/motd" []
     = (Ret (Some (foreignError "connection refused")),
        [EvOpen "/etc/motd"; EvStat; EvReadPrivateKeys AgentSSHKeyManager "";
         EvNetDialTimeout "tcp" "build01:22" fiveSeconds; EvFileClose]).
Proof.
  assert (Hname1 : Hostname remoteHost <> "localhost") by (vm_compute; discriminate).
  assert (Hname2 : Hostname remoteHost <> "127.0.0.1") by (vm_compute; discriminate).
  split.
  - apply (proj1 (CopyFile_early_failures failingOpenEnv remoteHost "/etc/motd" "/tmp/motd"
                    [] Hname1 Hname2)).
    reflexivity.
  - apply (proj1 (proj2 (proj2 (proj2
             (CopyFile_early_failures refusedEnv remoteHost "/etc/motd" "/tmp/motd"
                [] Hname1 Hname2))))
             0%Z RealSSHClient (clientConfig remoteHost (ssh_PublicKeysCallback [1]))
             (foreignError "connection refused")
             [EvOpen "/etc/motd"; EvStat; EvReadPrivateKeys AgentSSHKeyManager ""]
             [EvOpen "/etc/motd"; EvStat; EvReadPrivateKeys AgentSSHKeyManager "";
              EvNetDialTimeout "tcp" "build01:22" fiveSeconds]);
      reflexivity.
Defined.

(** ** What NewHost returns *)

Lemma newHostSwitch_host (env : Env) (u : UnixHost.t) (tr tr' : Trace)
      (host : Host) (err : option error) :
  newHostSwitch env u tr = (Ret (Some host, err), tr') ->
  hostUnix host = withDefaultExecutor u
  /\ match host with
     | LinuxHostPtr _ =>
         hostDriver host
         = Some (AptPackageManager (UnixHost.Executor (withDefaultExecutor u)))
         \/ hostDriver host
            = Some (YumPackageManager (UnixHost.Executor (withDefaultExecutor u)))
     | MacOSHostPtr _ =>
         hostDriver host
         = Some (BrewPackageManager (UnixHost.Executor (withDefaultExecutor u)))
     end.
Proof.
  unfold newHostSwitch, bind, call, ret.
  destruct (UnixHost.OS u =? "Linux")%string.
  - destruct (host_RunCommand env _) as [osRelease ignored].
    intros H. inversion H; subst. split; [reflexivity|]. cbn [hostDriver LinuxHost.PackageManager].
    destruct (Contains osRelease "ID=ubuntu" || Contains osRelease "ID=debian");
      [now left | now right].
  - destruct (UnixHost.OS u =? "Darwin")%string; intros H; inversion H; subst.
    split; reflexivity.
Qed.

(** The host that reaches the switch of [NewHost]: the configured one, with
    the user and the OS kind filled in where they were empty. *)
Lemma NewHost_host (env : Env) (hostname : string) (options : list HostOption)
      (tr tr' : Trace) (host : Host) (err : option error) :
  NewHost env hostname options tr = (Ret (Some host, err), tr') ->
  exists u t,
    newHostSwitch env u t = (Ret (Some host, err), tr')
    /\ sameCredentials (configured hostname options) u
    /\ UnixHost.Executor u = UnixHost.Executor (configured hostname options)
    /\ (UnixHost.User (configured hostname options) <> "" ->
        UnixHost.User u = UnixHost.User (configured hostname options))
    /\ (UnixHost.OS (configured hostname options) <> "" ->
        UnixHost.OS u = UnixHost.OS (configured hostname options)).
Proof.
  assert (Hos : forall known t,
             newHostOS env known t = (Ret (Some host, err), tr') ->
             exists u t',
               newHostSwitch env u t' = (Ret (Some host, err), tr')
               /\ sameCredentials known u
               /\ UnixHost.Executor u = UnixHost.Executor known
               /\ UnixHost.User u = UnixHost.User known
               /\ (UnixHost.OS known <> "" -> UnixHost.OS u = UnixHost.OS known)).
  { intros known t. unfold newHostOS.
    destruct (UnixHost.OS known =? "")%string eqn:Hgiven.
    - unfold bind.
      destruct (determineOS env known t) as [[[os [e|]]|msg|code] t1]; try discriminate.
      intros H. exists (WithOS os known), t1. split; [exact H|].
      apply String.eqb_eq in Hgiven.
      repeat split. intros Hne. now elim Hne.
    - intros H. exists known, t. repeat split. exact H. }
  unfold NewHost.
  destruct (UnixHost.User (configured hostname options) =? "")%string eqn:Huser.
  - unfold bind, call. destruct (user_Current env _) as [username|e]; [|discriminate].
    intros H. destruct (Hos _ _ H) as (u & t & Hsw & Hsame & Hex & Hu & Ho).
    exists u, t. split; [exact Hsw|]. split; [exact Hsame|]. split; [exact Hex|].
    split; [|exact Ho].
    apply String.eqb_eq in Huser. intros Hne. now elim Hne.
  - intros H. destruct (Hos _ _ H) as (u & t & Hsw & Hsame & Hex & Hu & Ho).
    exists u, t. split; [exact Hsw|]. split; [exact Hsame|]. split; [exact Hex|].
    split; [intros _; exact Hu | exact Ho].
Qed.

Lemma withDefaultExecutor_same (u : UnixHost.t) :
  sameCredentials u (withDefaultExecutor u)
  /\ UnixHost.User (withDefaultExecutor u) = UnixHost.User u
  /\ UnixHost.OS (withDefaultExecutor u) = UnixHost.OS u.
Proof. unfold withDefaultExecutor. destruct (UnixHost.Executor u); repeat split. Qed.

(** No option of the package changes the address. *)
Lemma configured_address (hostname : string) (options : list HostOption) :
  Forall Provided options ->
  UnixHost.HostString (configured hostname options) = hostname.
Proof.
  unfold configured. intros Hall.
  assert (Hgen : forall start,
             UnixHost.HostString
               (fold_left (fun unixHost option => option unixHost) options start)
             = UnixHost.HostString start).
  { induction Hall as [|option options Hp Hall IH]; intros start; [reflexivity|].
    simpl. rewrite IH. now destruct Hp. }
  now rewrite Hgen.
Qed.

(** X16: a host returned by NewHost has the address, the password, the key
    passphrase, the SSH client and the escalation password that the options
    gave it; its user and OS kind are the supplied ones when there are any.
    With the options of the package its address is the hostname given to
    NewHost. *)
Theorem NewHost_keeps_what_was_configured
        (env : Env) (hostname : string) (options : list HostOption)
        (tr tr' : Trace) (host : Host) (err : option error) :
  NewHost env hostname options tr = (Ret (Some host, err), tr') ->
  let given := configured hostname options in
  sameCredentials given (hostUnix host)
  /\ (UnixHost.User given <> "" -> UnixHost.User (hostUnix host) = UnixHost.User given)
  /\ (UnixHost.OS given <> "" -> UnixHost.OS (hostUnix host) = UnixHost.OS given)
  /\ (Forall Provided options -> Hostname (hostUnix host) = hostname).
Proof.
  intros H given. subst given.
  destruct (NewHost_host env hostname options tr tr' host err H)
    as (u & t & Hsw & Hsame & Hex & Hu & Ho).
  destruct (newHostSwitch_host env u t tr' host err Hsw) as [-> _].
  destruct (withDefaultExecutor_same u) as (Hd & Hdu & Hdo).
  assert (Hboth : sameCredentials (configured hostname options) (withDefaultExecutor u)).
  { destruct Hsame as (S1 & S2 & S3 & S4 & S5). destruct Hd as (D1 & D2 & D3 & D4 & D5).
    repeat split; congruence. }
  split; [exact Hboth|]. split; [|split].
  - intros Hne. rewrite Hdu. now apply Hu.
  - intros Hne. rewrite Hdo. now apply Ho.
  - intros Hall. unfold Hostname. destruct Hboth as [<- _].
    now apply configured_address.
Qed.

Lemma NewHost_keeps_what_was_configured_witness :
  Hostname (hostUnix (MacOSHostPtr
               (MacOSHost.mk
                  (withDefaultExecutor
                     (configured "build01" [WithUser "operator"; WithOS "Darwin";
                                            WithPassword "s3cret"]))
                  (Some (BrewPackageManager (Some DefaultCommandExecutor))))))
  = "build01".
Proof.
  refine (proj2 (proj2 (proj2
            (NewHost_keeps_what_was_configured quietEnv "build01"
               [WithUser "operator"; WithOS "Darwin"; WithPassword "s3cret"] [] []
               _ None _))) _).
  - reflexivity.
  - repeat constructor.
Defined.

(** X17: the driver of a host returned by NewHost always has an executor,
    the one of the host: the executor supplied by an option when there is
    one, the default executor otherwise.  A Linux host gets the Debian or
    the Red Hat driver, a Darwin host the Homebrew driver. *)
Theorem NewHost_driver_has_executor
        (env : Env) (hostname : string) (options : list HostOption)
        (tr tr' : Trace) (host : Host) (err : option error) :
  NewHost env hostname options tr = (Ret (Some host, err), tr') ->
  exists ex,
    UnixHost.Executor (hostUnix host) = Some ex
    /\ ex = match UnixHost.Executor (configured hostname options) with
            | Some supplied => supplied
            | None => DefaultCommandExecutor
            end
    /\ match host with
       | LinuxHostPtr _ =>
           hostOS host = "Linux"
           /\ (hostDriver host = Some (AptPackageManager (Some ex))
               \/ hostDriver host = Some (YumPackageManager (Some ex)))
       | MacOSHostPtr _ =>
           hostOS host = "Darwin"
           /\ hostDriver host = Some (BrewPackageManager (Some ex))
       end.
Proof.
  intros H.
  pose proof (@NewHost_all_or_nothing env hostname options tr tr' (Some host) err H)
    as Hkind.
  destruct (NewHost_host env hostname options tr tr' host err H)
    as (u & t & Hsw & Hsame & Hex & Hu & Ho).
  destruct (newHostSwitch_host env u t tr' host err Hsw) as [Hunix Hdriver].
  pose proof (@newHostSwitch_all_or_nothing env u t tr' (Some host) err Hsw) as Hos.
  destruct err as [e|]; [contradiction|].
  assert (Hexec : exists ex,
             UnixHost.Executor (withDefaultExecutor u) = Some ex
             /\ ex = match UnixHost.Executor (configured hostname options) with
                     | Some supplied => supplied
                     | None => DefaultCommandExecutor
                     end).
  { rewrite <- Hex. unfold withDefaultExecutor.
    destruct (UnixHost.Executor u) as [supplied|] eqn:Hsupplied.
    - exists supplied. now rewrite Hsupplied.
    - exists DefaultCommandExecutor. split; reflexivity. }
  destruct Hexec as (ex & Hsome & Hwhich).
  exists ex. rewrite Hunix. split; [exact Hsome|]. split; [exact Hwhich|].
  rewrite Hsome in Hdriver.
  unfold newHostSwitch, bind, call, ret in Hsw.
  destruct (UnixHost.OS u =? "Linux")%string eqn:Hlinux.
  - destruct (host_RunCommand env _) as [osRelease ignored].
    inversion Hsw; subst. split; [|exact Hdriver].
    apply String.eqb_eq in Hlinux. cbn [hostOS LinuxHost.UnixHost].
    now rewrite (proj2 (proj2 (withDefaultExecutor_same u))).
  - destruct (UnixHost.OS u =? "Darwin")%string eqn:Hdarwin; inversion Hsw; subst.
    split; [|exact Hdriver].
    apply String.eqb_eq in Hdarwin. cbn [hostOS MacOSHost.UnixHost].
    now rewrite (proj2 (proj2 (withDefaultExecutor_same u))).
Qed.

Lemma NewHost_driver_has_executor_witness :
  exists ex,
    UnixHost.Executor
      (hostUnix (MacOSHostPtr
                   (MacOSHost.mk
                      (configured "build01"
                         [WithUser "operator"; WithOS "Darwin";
                          WithCommandExecutor (Some (InjectedExecutor 7))])
                      (Some (BrewPackageManager (Some (InjectedExecutor 7)))))))
    = Some ex
    /\ ex = InjectedExecutor 7.
Proof.
  destruct (NewHost_driver_has_executor quietEnv "build01"
              [WithUser "operator"; WithOS "Darwin";
               WithCommandExecutor (Some (InjectedExecutor 7))] [] []
              (MacOSHostPtr
                 (MacOSHost.mk
                    (configured "build01"
                       [WithUser "operator"; WithOS "Darwin";
                        WithCommandExecutor (Some (InjectedExecutor 7))])
                    (Some (BrewPackageManager (Some (InjectedExecutor 7))))))
              None eq_refl) as (ex & Hex & Hwhich & _).
  exists ex. split; [exact Hex | exact Hwhich].
Defined.

(** X18: when an option supplies the OS kind, NewHost does not run the
    probe ("uname").  What it asks is exactly this: who the current user
    is, when no option gave a user; and then, when the user is known and
    the supplied kind is "Linux", the content of /etc/os-release, read by
    running "cat /etc/os-release" through the host.  For every other
    supplied kind no command is run through the host at all. *)
Theorem NewHost_supplied_os_no_probe
        (env : Env) (hostname : string) (options : list HostOption) (tr : Trace) :
  UnixHost.OS (configured hostname options) <> "" ->
  snd (NewHost env hostname options tr)
  = tr ++ userLookup (configured hostname options)
       ++ releaseRead env (configured hostname options) tr.
Proof.
  intros Hos. apply String.eqb_neq in Hos.
  unfold NewHost, newHostOS, newHostSwitch, userLookup, releaseRead, userKnown.
  cbv beta iota zeta delta [bind call ret].
  destruct (UnixHost.User (configured hostname options) =? "")%string eqn:Huser;
    cbn [negb orb].
  - destruct (user_Current env _) as [username|e]; cbn [UnixHost.OS WithUser andb].
    + rewrite Hos.
      destruct (UnixHost.OS (configured hostname options) =? "Linux")%string.
      * destruct (host_RunCommand env _). cbn [snd]. now rewrite <- app_assoc.
      * destruct (UnixHost.OS (configured hostname options) =? "Darwin")%string;
          cbn [snd]; now rewrite app_nil_r.
    + cbn [snd]. now rewrite app_nil_r.
  - rewrite Hos. cbn [andb app].
    destruct (UnixHost.OS (configured hostname options) =? "Linux")%string.
    + destruct (host_RunCommand env _). reflexivity.
    + destruct (UnixHost.OS (configured hostname options) =? "Darwin")%string;
        cbn [snd]; now rewrite app_nil_r.
Qed.

Lemma NewHost_supplied_os_no_probe_witness :
  snd (NewHost quietEnv "build01" [WithUser "operator"; WithOS "Darwin"] []) = []
  /\ snd (NewHost quietEnv "build01" [WithOS "Linux"] [])
     = [EvUserCurrent; EvHostRunCommand "cat /etc/os-release"]
  /\ snd (NewHost noUserEnv "build01" [WithOS "Linux"] []) = [EvUserCurrent].
Proof.
  split; [|split].
  - apply (NewHost_supplied_os_no_probe quietEnv "build01"
             [WithUser "operator"; WithOS "Darwin"] []).
    vm_compute. discriminate.
  - apply (NewHost_supplied_os_no_probe quietEnv "build01" [WithOS "Linux"] []).
    vm_compute. discriminate.
  - apply (NewHost_supplied_os_no_probe noUserEnv "build01" [WithOS "Linux"] []).
    vm_compute. discriminate.
Defined.

(** X19: a remote host cannot be probed without an SSH client: when no
    option supplies the OS kind or an SSH client and the address is not the
    local one, NewHost returns the error of the missing client and no host,
    having asked at most who the current user is. *)
Theorem NewHost_remote_needs_client
        (env : Env) (hostname : string) (options : list HostOption) (tr : Trace)
        (known : UnixHost.t) (tr0 : Trace) :
  userResolved env (configured hostname options) tr known tr0 ->
  UnixHost.OS (configured hostname options) = "" ->
  UnixHost.SSHClient (configured hostname options) = None ->
  Hostname (configured hostname options) <> "localhost" ->
  Hostname (configured hostname options) <> "127.0.0.1" ->
  NewHost env hostname options tr
  = (Ret (None, Some (errors_New "SSHClient is not initialized")), tr0).
Proof.
  intros Hknown Hos Hclient H1 H2.
  destruct (@NewHost_known_user env hostname options tr known tr0 Hknown) as [-> Hsame].
  assert (Hk : UnixHost.OS known = "" /\ UnixHost.SSHClient known = None
               /\ isLocal known = false).
  { destruct Hknown as [(_ & -> & _) | (_ & username & _ & -> & _)].
    - repeat split; try assumption. now apply isLocal_false.
    - repeat split; try assumption. now apply (isLocal_false _ H1 H2). }
  destruct Hk as (Hko & Hkc & Hkl).
  unfold newHostOS. rewrite Hko. cbn [String.eqb].
  unfold bind at 1. unfold determineOS. unfold bind at 1.
  unfold RunCommand, runCommandInternal. cbn [CommandOptions.UseSudo].
  rewrite Hkl. unfold runRemoteCommand. now rewrite Hkc.
Qed.

Lemma NewHost_remote_needs_client_witness :
  NewHost quietEnv "build01" [WithPassword "s3cret"] []
  = (Ret (None, Some (errors_New "SSHClient is not initialized")), [EvUserCurrent]).
Proof.
  apply (NewHost_remote_needs_client quietEnv "build01" [WithPassword "s3cret"] []
           (WithUser "operator" (configured "build01" [WithPassword "s3cret"]))).
  - right. split; [reflexivity|]. exists "operator". repeat split.
  - reflexivity.
  - reflexivity.
  - vm_compute. discriminate.
  - vm_compute. discriminate.
Defined.

(** Once the OS kind is known, supplied or probed, what is left of NewHost
    is the switch on it. *)
Lemma newHostOS_resolved (env : Env) (known : UnixHost.t) (tr0 : Trace)
      (ready : UnixHost.t) (tr1 : Trace) :
  osResolved env known tr0 ready tr1 ->
  newHostOS env known tr0 = newHostSwitch env ready tr1.
Proof.
  unfold newHostOS.
  intros [(Hos & -> & ->) | (Hos & output & Hprobe & ->)].
  - now rewrite (eqb_empty_false Hos).
  - rewrite Hos. cbn [String.eqb].
    unfold bind at 1. unfold determineOS. unfold bind at 1. now rewrite Hprobe.
Qed.

Lemma Legacy_newHostOS_resolved (env : Env) (known : Legacy.UnixHost.t) (tr0 : Trace)
      (ready : Legacy.UnixHost.t) (tr1 : Trace) :
  legacyOsResolved env known tr0 ready tr1 ->
  Legacy.newHostOS env known tr0 = Legacy.newHostSwitch env ready tr1.
Proof.
  unfold Legacy.newHostOS.
  intros [(Hos & -> & ->) | (Hos & output & Hprobe & ->)].
  - now rewrite (eqb_empty_false Hos).
  - rewrite Hos. cbn [String.eqb].
    unfold bind at 1. unfold Legacy.determineOS. unfold bind at 1. now rewrite Hprobe.
Qed.

(** X20: for a Linux host, whether the kind was supplied by an option or
    found by the probe, NewHost reads /etc/os-release through the host and
    looks only at the text it gets, not at the error: it always returns a
    Linux host, whose driver is the Debian one exactly when the text
    contains "ID=ubuntu" or "ID=debian", and the Red Hat one otherwise, so
    also when the file could not be read and the text is empty. *)
Theorem NewHost_linux_driver
        (env : Env) (hostname : string) (options : list HostOption) (tr : Trace)
        (known : UnixHost.t) (tr0 : Trace) (ready : UnixHost.t) (tr1 : Trace) :
  userResolved env (configured hostname options) tr known tr0 ->
  osResolved env known tr0 ready tr1 ->
  UnixHost.OS ready = "Linux" ->
  let tr2 := tr1 +> EvHostRunCommand "cat /etc/os-release" in
  let osRelease := fst (host_RunCommand env tr2) in
  let executor := UnixHost.Executor (withDefaultExecutor ready) in
  exists driver,
    NewHost env hostname options tr
    = (Ret (Some (LinuxHostPtr (LinuxHost.mk (withDefaultExecutor ready) (Some driver))),
            None), tr2)
    /\ (Contains osRelease "ID=ubuntu" = true \/ Contains osRelease "ID=debian" = true ->
        driver = AptPackageManager executor)
    /\ (Contains osRelease "ID=ubuntu" = false -> Contains osRelease "ID=debian" = false ->
        driver = YumPackageManager executor)
    /\ (osRelease = "" -> driver = YumPackageManager executor).
Proof.
  intros Hknown Hready Hos tr2 osRelease executor.
  destruct (@NewHost_known_user env hostname options tr known tr0 Hknown) as [-> _].
  rewrite (newHostOS_resolved env known tr0 ready tr1 Hready).
  unfold newHostSwitch. rewrite Hos. cbn [String.eqb Ascii.eqb Bool.eqb].
  unfold bind, call, ret. fold tr2. subst osRelease.
  destruct (host_RunCommand env tr2) as [text ignored]. cbn [fst]. fold executor.
  eexists. split; [reflexivity|].
  split; [|split].
  - intros [-> | ->]; [reflexivity|]. now rewrite orb_true_r.
  - intros -> ->. reflexivity.
  - intros ->. reflexivity.
Qed.

Lemma NewHost_linux_driver_witness :
  (exists driver,
      NewHost linuxEnv "localhost" [] []
      = (Ret (Some (LinuxHostPtr
                      (LinuxHost.mk
                         (withDefaultExecutor
                            (WithOS "Linux"
                               (WithUser "operator" (configured "localhost" []))))
                         (Some driver))), None),
         [EvUserCurrent; EvExec "uname" [] None false;
          EvHostRunCommand "cat /etc/os-release"])
      /\ driver = AptPackageManager (Some DefaultCommandExecutor))
  /\ (exists driver,
         NewHost quietEnv "build01" [WithUser "operator"; WithOS "Linux"] []
         = (Ret (Some (LinuxHostPtr
                         (LinuxHost.mk
                            (withDefaultExecutor
                               (configured "build01" [WithUser "operator"; WithOS "Linux"]))
                            (Some driver))), None),
            [EvHostRunCommand "cat /etc/os-release"])
         /\ driver = YumPackageManager (Some DefaultCommandExecutor)).
Proof.
  split.
  - destruct (NewHost_linux_driver linuxEnv "localhost" [] []
                (WithUser "operator" (configured "localhost" [])) [EvUserCurrent]
                (WithOS "Linux" (WithUser "operator" (configured "localhost" [])))
                [EvUserCurrent; EvExec "uname" [] None false])
      as (driver & Hnew & Hapt & _).
    + right. split; [reflexivity|]. exists "operator". repeat split.
    + right. split; [reflexivity|]. exists ("Linux" ++ LF)%string. split; reflexivity.
    + reflexivity.
    + exists driver. split; [exact Hnew|]. apply Hapt. left. reflexivity.
  - destruct (NewHost_linux_driver quietEnv "build01" [WithUser "operator"; WithOS "Linux"] []
                (configured "build01" [WithUser "operator"; WithOS "Linux"]) []
                (configured "build01" [WithUser "operator"; WithOS "Linux"]) [])
      as (driver & Hnew & _ & _ & Hyum).
    + left. repeat split. vm_compute. discriminate.
    + left. repeat split. vm_compute. discriminate.
    + reflexivity.
    + exists driver. split; [exact Hnew|]. apply Hyum. reflexivity.
Defined.

(** X21: in host.go, for a Linux host, whether the kind was supplied or
    found by the probe, the error of reading /etc/os-release is dropped
    too: a host for which the read fails is given the Red Hat driver, and
    one for which it succeeds is given the Debian driver exactly when the
    text contains "ID=ubuntu" or "ID=debian". *)
Theorem Legacy_NewHost_linux_driver
        (env : Env) (hostname : string) (options : list Legacy.HostOption) (tr : Trace)
        (known : Legacy.UnixHost.t) (tr0 : Trace)
        (ready : Legacy.UnixHost.t) (tr1 : Trace) :
  legacyUserResolved env (Legacy.configured hostname options) tr known tr0 ->
  legacyOsResolved env known tr0 ready tr1 ->
  Legacy.UnixHost.OS ready = "Linux" ->
  forall osRelease err tr2,
    Legacy.RunCommand env ready "cat /etc/os-release" tr1 = (Ret (osRelease, err), tr2) ->
    (err <> None ->
     Legacy.NewHost env hostname options tr
     = (Ret (Some (Legacy.LinuxHost ready Legacy.YumPackageManager), None), tr2))
    /\ (Contains osRelease "ID=ubuntu" = true \/ Contains osRelease "ID=debian" = true ->
        Legacy.NewHost env hostname options tr
        = (Ret (Some (Legacy.LinuxHost ready Legacy.AptPackageManager), None), tr2))
    /\ (Contains osRelease "ID=ubuntu" = false -> Contains osRelease "ID=debian" = false ->
        Legacy.NewHost env hostname options tr
        = (Ret (Some (Legacy.LinuxHost ready Legacy.YumPackageManager), None), tr2)).
Proof.
  intros Hknown Hready Hos osRelease err tr2 Hread.
  rewrite (@Legacy_NewHost_known_user env hostname options tr known tr0 Hknown).
  rewrite (Legacy_newHostOS_resolved env known tr0 ready tr1 Hready).
  unfold Legacy.newHostSwitch.
  rewrite Hos. cbn [String.eqb Ascii.eqb Bool.eqb].
  unfold bind. rewrite Hread. unfold ret.
  split; [|split].
  - intros Herr. destruct err as [e|]; [|now elim Herr].
    now rewrite (Legacy_RunCommand_error_empty env ready _ tr1 tr2 osRelease e Hread).
  - intros [-> | ->]; [reflexivity|]. now rewrite orb_true_r.
  - intros -> ->. reflexivity.
Qed.

Lemma Legacy_NewHost_linux_driver_witness :
  Legacy.NewHost linuxEnv "localhost" [] []
  = (Ret (Some (Legacy.LinuxHost
                  (Legacy.WithOS "Linux"
                     (Legacy.WithUser "operator" (Legacy.configured "localhost" [])))
                  Legacy.YumPackageManager), None),
     [EvUserCurrent; EvExec "uname" [] None false;
      EvExec "cat" ["/etc/os-release"] None false])
  /\ Legacy.NewHost (printingEnv "ID=debian" None) "localhost"
       [Legacy.WithUser "operator"; Legacy.WithOS "Linux"] []
     = (Ret (Some (Legacy.LinuxHost
                     (Legacy.configured "localhost"
                        [Legacy.WithUser "operator"; Legacy.WithOS "Linux"])
                     Legacy.AptPackageManager), None),
        [EvExec "cat" ["/etc/os-release"] None false]).
Proof.
  split.
  - refine (proj1 (Legacy_NewHost_linux_driver linuxEnv "localhost" [] []
                     (Legacy.WithUser "operator" (Legacy.configured "localhost" []))
                     [EvUserCurrent]
                     (Legacy.WithOS "Linux"
                        (Legacy.WithUser "operator" (Legacy.configured "localhost" [])))
                     [EvUserCurrent; EvExec "uname" [] None false]
                     _ _ _ "" (Some exitStatus1) _ _) _).
    + right. split; [reflexivity|]. exists "operator". repeat split.
    + right. split; [reflexivity|]. exists ("Linux" ++ LF)%string. split; reflexivity.
    + reflexivity.
    + reflexivity.
    + discriminate.
  - refine (proj1 (proj2 (Legacy_NewHost_linux_driver (printingEnv "ID=debian" None)
                     "localhost" [Legacy.WithUser "operator"; Legacy.WithOS "Linux"] []
                     (Legacy.configured "localhost"
                        [Legacy.WithUser "operator"; Legacy.WithOS "Linux"]) []
                     (Legacy.configured "localhost"
                        [Legacy.WithUser "operator"; Legacy.WithOS "Linux"]) []
                     _ _ _ "ID=debian" None _ _)) _).
    + left. repeat split. vm_compute. discriminate.
    + left. repeat split. vm_compute. discriminate.
    + reflexivity.
    + reflexivity.
    + right. reflexivity.
Defined.

(** X22: on a local host without a supplied OS kind, NewHost probes by
    running the program "uname" with no argument and no escalation, and
    classifies its output with the white space around it removed: output
    that trims to "Darwin" gives a Darwin host with the Homebrew driver. *)
Theorem NewHost_local_probe
        (env : Env) (hostname : string) (options : list HostOption) (tr : Trace)
        (known : UnixHost.t) (tr0 : Trace) (out : string) :
  userResolved env (configured hostname options) tr known tr0 ->
  UnixHost.OS known = "" ->
  Hostname known = "localhost" \/ Hostname known = "127.0.0.1" ->
  exec_answer env (tr0 +> EvExec "uname" [] None false) = (out, None) ->
  TrimSpace out = "Darwin" ->
  let host := withDefaultExecutor (WithOS "Darwin" known) in
  NewHost env hostname options tr
  = (Ret (Some (MacOSHostPtr
                  (MacOSHost.mk host (Some (BrewPackageManager (UnixHost.Executor host))))),
          None),
     tr0 +> EvExec "uname" [] None false).
Proof.
  intros Hknown Hos Hlocal Hexec Htrim host.
  destruct (@NewHost_known_user env hostname options tr known tr0 Hknown) as [-> _].
  unfold newHostOS. rewrite Hos. cbn [String.eqb].
  unfold bind at 1. unfold determineOS. unfold bind at 1.
  unfold RunCommand, runCommandInternal. cbn [CommandOptions.UseSudo].
  rewrite (isLocal_true known Hlocal).
  unfold runLocalCommand. change (Fields "uname") with ["uname"]. cbn [andb].
  unfold bind, call. rewrite Hexec. unfold ret. rewrite Htrim.
  reflexivity.
Qed.

Lemma NewHost_local_probe_witness :
  NewHost (printingEnv ("Darwin" ++ LF) None) "localhost" [] []
  = (Ret (Some (MacOSHostPtr
                  (MacOSHost.mk
                     (withDefaultExecutor
                        (WithOS "Darwin" (WithUser "operator" (configured "localhost" []))))
                     (Some (BrewPackageManager (Some DefaultCommandExecutor))))),
          None),
     [EvUserCurrent; EvExec "uname" [] None false]).
Proof.
  apply (NewHost_local_probe (printingEnv ("Darwin" ++ LF) None) "localhost" [] []
           (WithUser "operator" (configured "localhost" [])) [EvUserCurrent]
           ("Darwin" ++ LF)%string).
  - right. split; [reflexivity|]. exists "operator". repeat split.
  - reflexivity.
  - left. reflexivity.
  - reflexivity.
  - reflexivity.
Defined.

(** ** What a local command runs *)

(** X23: on a local host a command of words separated by single spaces is
    run without a shell: the first word is the program and the other words
    are its arguments.  With escalation the program is sudo and the
    arguments are "-S" and the words; when the host has an escalation
    password they are "-S", "sudo", "-S" and the words, so that sudo runs
    sudo, and the password and a line feed are the input of the process;
    the arguments are the same whatever the password is. *)
Theorem RunCommand_local_argv
        (env : Env) (h : UnixHost.t) (program : string) (arguments : list string)
        (password : string) (tr : Trace) :
  Hostname h = "localhost" \/ Hostname h = "127.0.0.1" ->
  forallb asciiWord (program :: arguments) = true ->
  let cmd := unwords (program :: arguments) in
  snd (RunCommand env h cmd (CommandOptions.mk false password) tr)
  = tr +> EvExec program arguments None false
  /\ (UnixHost.SudoPassword h = "" ->
      snd (RunCommand env h cmd (CommandOptions.mk true password) tr)
      = tr +> EvExec "sudo" ("-S" :: program :: arguments) None false)
  /\ (UnixHost.SudoPassword h <> "" ->
      snd (RunCommand env h cmd (CommandOptions.mk true password) tr)
      = tr +> EvExec "sudo" ("-S" :: "sudo" :: "-S" :: program :: arguments)
                     (Some (UnixHost.SudoPassword h ++ LF)%string) true).
Proof.
  intros Hlocal Hwords cmd.
  unfold RunCommand, runCommandInternal.
  cbn [CommandOptions.UseSudo CommandOptions.SudoPassword].
  rewrite (isLocal_true h Hlocal).
  pose proof (Fields_unwords (program :: arguments) Hwords) as Hfields. fold cmd in Hfields.
  split; [|split].
  - unfold runLocalCommand. rewrite Hfields. cbn [andb]. unfold bind, call.
    now destruct (exec_answer env _) as [out [e|]].
  - intros ->. rewrite runLocalCommand_sudo_no_password. cbn [snd]. now rewrite Hfields.
  - intros Hpw. rewrite (@runLocalCommand_sudo env h cmd _ tr Hpw). cbn [snd].
    now rewrite Hfields.
Qed.

Lemma RunCommand_local_argv_witness :
  snd (RunCommand quietEnv localSudoHost "apt install -y curl" (CommandOptions.mk true "") [])
  = [EvExec "sudo" ["-S"; "sudo"; "-S"; "apt"; "install"; "-y"; "curl"]
            (Some ("hunter2" ++ LF)%string) true].
Proof.
  apply (proj2 (proj2 (RunCommand_local_argv quietEnv localSudoHost "apt"
                         ["install"; "-y"; "curl"] "" []
                         (or_introl eq_refl) eq_refl))).
  vm_compute. discriminate.
Defined.

(** ** host.go: the remote path *)

(** X24: RunCommand of host.go sets no deadline, so on a remote host it
    comes back only when the dial and the command do.  Whenever it comes
    back, whatever the outcome, it has started no local process and has
    closed what it opened: when it asked for a session, the dial having
    succeeded, the last thing it did was to close the client, and when it
    ran the command, the last two things were to close the session and
    then the client. *)
Theorem Legacy_RunCommand_remote_closes
        (env : Env) (old : Legacy.UnixHost.t) (cmd : string) (tr : Trace)
        (out : Outcome (string * option error)) (tr' : Trace) :
  Legacy.UnixHost.Hostname old <> "localhost" ->
  Legacy.UnixHost.Hostname old <> "127.0.0.1" ->
  Legacy.RunCommand env old cmd tr = (out, tr') ->
  exists asked,
    tr' = tr ++ asked
    /\ (In EvNewSession asked -> exists before, asked = before +> EvClientClose)
    /\ (In (EvLegacyCombinedOutput cmd) asked ->
        exists before, asked = before +> EvSessionClose +> EvClientClose)
    /\ forallb (fun ev => negb (isExec ev)) asked = true.
Proof.
  intros H1 H2. unfold Legacy.RunCommand.
  apply String.eqb_neq in H1. apply String.eqb_neq in H2. rewrite H1, H2. cbn [orb].
  run. answer; intros Hrun; inversion Hrun; subst out tr';
    (eexists; split;
     [simpl; rewrite <- ?app_assoc; simpl; reflexivity|]);
    (split; [intros Hin; pick Hin;
             match goal with |- exists before, ?l = _ => exists (removelast l) end;
             reflexivity|]);
    (split; [intros Hin; pick Hin;
             match goal with
             | |- exists before, ?l = _ => exists (removelast (removelast l))
             end; reflexivity|]);
    reflexivity.
Qed.

Lemma Legacy_RunCommand_remote_closes_witness :
  exists asked,
    snd (Legacy.RunCommand quietEnv legacyRemote "uname" []) = [] ++ asked
    /\ (exists before, asked = before +> EvSessionClose +> EvClientClose)
    /\ forallb (fun ev => negb (isExec ev)) asked = true.
Proof.
  destruct (Legacy_RunCommand_remote_closes quietEnv legacyRemote "uname" []
              (fst (Legacy.RunCommand quietEnv legacyRemote "uname" []))
              (snd (Legacy.RunCommand quietEnv legacyRemote "uname" [])))
    as (asked & Htrace & _ & Hclosed & Hnoexec).
  - vm_compute. discriminate.
  - vm_compute. discriminate.
  - reflexivity.
  - exists asked. split; [exact Htrace|]. split; [|exact Hnoexec].
    apply Hclosed.
    assert (Hasked : asked = snd (Legacy.RunCommand quietEnv legacyRemote "uname" []))
      by exact (eq_sym Htrace).
    rewrite Hasked. vm_compute. tauto.
Defined.
